(** * solarlog2mqtt: a shallow embedding of the bridge's decoders and client

    The development follows the Python sources:
    - [core/data_processor.py]  (class [DataProcessor]),
    - [core/solar_log_client.py] (class [SolarLogClient]),
    - [core/constants.py],
    - [__main__.py] (access-denied check, restart, request escalation).

    Python objects decoded from the device's JSON are values of [json];
    a function that may raise returns a [result]; methods of
    [DataProcessor] run in the monad [M], which threads the processor's
    fields and the sequence of messages handed to the MQTT publisher and
    keeps every mutation made before an exception was raised, as Python
    does. *)

From Stdlib Require Import ZArith List String Ascii Bool Lia.
From Stdlib Require Import DecimalString.
From Stdlib Require Import PrimFloat FloatOps SpecFloat.
Import ListNotations.

Local Open Scope string_scope.
Local Open Scope Z_scope.
Local Open Scope list_scope.

Set Implicit Arguments.
Set Warnings "-register-all,-inexact-float".

Declare Scope py_scope.
Delimit Scope py_scope with py.
Local Open Scope py_scope.

(** ** Python values and exceptions *)

Module Py.

(** Exception classes the decoders can meet. *)
Inductive exn : Type :=
| TypeError
| ValueError
| IndexError
| KeyError
| AttributeError
| ZeroDivisionError
| OverflowError.

Inductive result (A : Type) : Type :=
| Ok (a : A)
| Raise (e : exn).

Arguments Ok {A} a.
Arguments Raise {A} e.

Definition rbind {A B : Type} (r : result A) (k : A -> result B) : result B :=
  match r with
  | Ok a => k a
  | Raise e => Raise e
  end.

Notation "x <-? e ;; k" :=
  (rbind e (fun x => k))
  (at level 100, e at next level, k at level 200, right associativity)
  : py_scope.

(** [except Exception: <default>] around an expression. *)
Definition or_else {A : Type} (r : result A) (d : A) : A :=
  match r with
  | Ok a => a
  | Raise _ => d
  end.

(** Keys of a dict: the decoders look entries up under [int] and [str]
    keys alike ([json.loads] itself only produces [str] keys). *)
Inductive key : Type :=
| KInt (n : Z)
| KStr (s : string).

(** Values decoded from the device. Numbers are integers: the fields
    the decoders read are counters in W and Wh. *)
Inductive json : Type :=
| JNull
| JBool (b : bool)
| JInt (n : Z)
| JStr (s : string)
| JList (l : list json)
| JDict (d : list (key * json)).

Definition dict : Type := list (key * json).

(** A value handed to [publish]: a decoded value, or a [float] computed
    by the decoder (binary64, as Python's). *)
Inductive value : Type :=
| VJson (j : json)
| VFloat (f : float).

Definition VInt (n : Z) : value := VJson (JInt n).
Definition VStr (s : string) : value := VJson (JStr s).
Definition VBool (b : bool) : value := VJson (JBool b).

Definition key_eqb (a b : key) : bool :=
  match a, b with
  | KInt x, KInt y => Z.eqb x y
  | KStr x, KStr y => String.eqb x y
  | _, _ => false
  end.

(** [d.get(k)]; [None] when the key is absent. *)
Fixpoint dict_get (d : dict) (k : key) : option json :=
  match d with
  | [] => None
  | (k', v) :: d' => if key_eqb k' k then Some v else dict_get d' k
  end.

(** [k in d] *)
Definition dict_mem (d : dict) (k : key) : bool :=
  match dict_get d k with
  | Some _ => true
  | None => false
  end.

(** [d.get(k, default)] *)
Definition dict_get_default (d : dict) (k : key) (default : json) : json :=
  match dict_get d k with
  | Some v => v
  | None => default
  end.

(** [d[k]] *)
Definition dict_item (d : dict) (k : key) : result json :=
  match dict_get d k with
  | Some v => Ok v
  | None => Raise KeyError
  end.

(** [bool(x)] *)
Definition truthy (j : json) : bool :=
  match j with
  | JNull => false
  | JBool b => b
  | JInt n => negb (Z.eqb n 0)
  | JStr s => negb (String.eqb s "")
  | JList l => match l with [] => false | _ => true end
  | JDict d => match d with [] => false | _ => true end
  end.

(** [x or 0] *)
Definition or_zero (j : json) : json :=
  if truthy j then j else JInt 0.

(** [str(n)] for an [int]. *)
Definition str_of_Z (n : Z) : string :=
  NilZero.string_of_int (Z.to_int n).

(** [needle in hay] for two strings. *)
Fixpoint str_contains (needle hay : string) : bool :=
  if String.prefix needle hay then true
  else match hay with
       | EmptyString => false
       | String _ hay' => str_contains needle hay'
       end.

Definition is_space (c : ascii) : bool :=
  let n := nat_of_ascii c in
  (Nat.eqb n 32 || (Nat.leb 9 n && Nat.leb n 13) || (Nat.leb 28 n && Nat.leb n 31))%bool.

Fixpoint lstrip (s : string) : string :=
  match s with
  | String c s' => if is_space c then lstrip s' else s
  | EmptyString => EmptyString
  end.

Fixpoint rev_string (s acc : string) : string :=
  match s with
  | EmptyString => acc
  | String c s' => rev_string s' (String c acc)
  end.

(** [s.strip()] *)
Definition strip (s : string) : string :=
  rev_string (lstrip (rev_string (lstrip s) "")) "".

(** [s.replace(" ", "")] *)
Fixpoint remove_spaces (s : string) : string :=
  match s with
  | EmptyString => EmptyString
  | String c s' =>
      if Ascii.eqb c " "%char then remove_spaces s' else String c (remove_spaces s')
  end.

Definition digit_of (c : ascii) : option Z :=
  let n := nat_of_ascii c in
  if (Nat.leb 48 n && Nat.leb n 57)%bool then Some (Z.of_nat (n - 48)) else None.

Fixpoint parse_digits (s : string) (acc : Z) : option Z :=
  match s with
  | EmptyString => Some acc
  | String c s' =>
      match digit_of c with
      | Some d => parse_digits s' (10 * acc + d)
      | None => None
      end
  end.

(** [int(s)] for a string: surrounding white space, an optional sign,
    decimal digits. (Digit grouping with underscores and digits outside
    ASCII are not accepted here.) *)
Definition int_of_string (s : string) : result Z :=
  let body (t : string) : option Z :=
    match t with
    | EmptyString => None
    | _ => parse_digits t 0
    end in
  let r :=
    match strip s with
    | String "-"%char t => option_map Z.opp (body t)
    | String "+"%char t => body t
    | t => body t
    end in
  match r with
  | Some n => Ok n
  | None => Raise ValueError
  end.

(** [int(x)] *)
Definition int (j : json) : result Z :=
  match j with
  | JInt n => Ok n
  | JBool b => Ok (if b then 1 else 0)
  | JStr s => int_of_string s
  | JNull | JList _ | JDict _ => Raise TypeError
  end.

(** The operand of an arithmetic operator or of an ordering against a
    number: [int] and [bool] are numbers, anything else raises. *)
Definition number (j : json) : result Z :=
  match j with
  | JInt n => Ok n
  | JBool b => Ok (if b then 1 else 0)
  | _ => Raise TypeError
  end.

(** [len(x)] *)
Definition len (j : json) : result Z :=
  match j with
  | JList l => Ok (Z.of_nat (List.length l))
  | JStr s => Ok (Z.of_nat (String.length s))
  | JDict d => Ok (Z.of_nat (List.length d))
  | JNull | JBool _ | JInt _ => Raise TypeError
  end.

(** [x[i]] for an integer [i]; a negative index counts from the end. *)
Definition index (j : json) (i : Z) : result json :=
  match j with
  | JList l =>
      let n := Z.of_nat (List.length l) in
      let i' := if i <? 0 then n + i else i in
      if (0 <=? i') && (i' <? n)
      then match nth_error l (Z.to_nat i') with
           | Some v => Ok v
           | None => Raise IndexError
           end
      else Raise IndexError
  | JStr s =>
      let n := Z.of_nat (String.length s) in
      let i' := if i <? 0 then n + i else i in
      if (0 <=? i') && (i' <? n)
      then match String.get (Z.to_nat i') s with
           | Some c => Ok (JStr (String c EmptyString))
           | None => Raise IndexError
           end
      else Raise IndexError
  | JDict d => dict_item d (KInt i)
  | JNull | JBool _ | JInt _ => Raise TypeError
  end.

(** [x is None] *)
Definition is_none (j : json) : bool :=
  match j with JNull => true | _ => false end.

(** [x.get(k, default)]: only a dict has the method. *)
Definition get_method (j : json) (k : key) (default : json) : result json :=
  match j with
  | JDict d => Ok (dict_get_default d k default)
  | _ => Raise AttributeError
  end.

(** *** [str] and [repr] *)

Definition hex_digit (n : nat) : ascii :=
  ascii_of_nat (if Nat.ltb n 10 then 48 + n else 87 + n)%nat.

Definition escape_char (quote c : ascii) : string :=
  let n := nat_of_ascii c in
  if Ascii.eqb c "\"%char then "\\"
  else if Ascii.eqb c quote then String "\"%char (String c EmptyString)
  else if Nat.eqb n 10 then "\n"
  else if Nat.eqb n 13 then "\r"
  else if Nat.eqb n 9 then "\t"
  else if (Nat.ltb n 32 || Nat.eqb n 127)%bool
       then String "\"%char (String "x"%char
              (String (hex_digit (n / 16)) (String (hex_digit (n mod 16)) EmptyString)))
  else String c EmptyString.

Fixpoint escape (quote : ascii) (s : string) : string :=
  match s with
  | EmptyString => EmptyString
  | String c s' => String.append (escape_char quote c) (escape quote s')
  end.

Definition apostrophe : ascii := ascii_of_nat 39.
Definition dquote : ascii := ascii_of_nat 34.

(** [repr(s)] for a string: single quotes unless the string holds one
    and no double quote. *)
Definition repr_string (s : string) : string :=
  let q :=
    if (str_contains (String apostrophe EmptyString) s
        && negb (str_contains (String dquote EmptyString) s))%bool
    then dquote else apostrophe in
  String q (String.append (escape q s) (String q EmptyString)).

Definition repr_key (k : key) : string :=
  match k with
  | KInt n => str_of_Z n
  | KStr s => repr_string s
  end.

Fixpoint join (sep : string) (l : list string) : string :=
  match l with
  | [] => EmptyString
  | [s] => s
  | s :: l' => String.append s (String.append sep (join sep l'))
  end.

Fixpoint repr (j : json) : string :=
  match j with
  | JNull => "None"
  | JBool true => "True"
  | JBool false => "False"
  | JInt n => str_of_Z n
  | JStr s => repr_string s
  | JList l => String.append "[" (String.append (join ", " (List.map repr l)) "]")
  | JDict d =>
      String.append "{"
        (String.append
           (join ", "
              (List.map (fun '(k, v) =>
                           String.append (repr_key k) (String.append ": " (repr v))) d))
           "}")
  end.

(** [str(x)], also what an f-string inserts for [{x}]. *)
Definition str (j : json) : string :=
  match j with
  | JStr s => s
  | _ => repr j
  end.

(** [s[-2:]] and [s[3:5]] on a string or a list. *)
Fixpoint drop_string (n : nat) (s : string) : string :=
  match n, s with
  | O, _ => s
  | S n', String _ s' => drop_string n' s'
  | S _, EmptyString => EmptyString
  end.

Fixpoint take_string (n : nat) (s : string) : string :=
  match n, s with
  | O, _ => EmptyString
  | S n', String c s' => String c (take_string n' s')
  | S _, EmptyString => EmptyString
  end.

Definition slice_last2 (j : json) : result json :=
  match j with
  | JStr s => Ok (JStr (drop_string (String.length s - 2) s))
  | JList l => Ok (JList (List.skipn (List.length l - 2) l))
  | _ => Raise TypeError
  end.

Definition slice_3_5 (j : json) : result json :=
  match j with
  | JStr s => Ok (JStr (take_string 2 (drop_string 3 s)))
  | JList l => Ok (JList (List.firstn 2 (List.skipn 3 l)))
  | _ => Raise TypeError
  end.

(** *** Floats *)

Definition Z2SF (z : Z) : spec_float :=
  match z with
  | Z0 => S754_zero false
  | Zpos p => S754_finite false p 0
  | Zneg p => S754_finite true p 0
  end.

(** [float(n)]: the nearest binary64. *)
Definition float_of_Z (n : Z) : float :=
  SF2Prim (binary_normalize prec emax n 0 false).

(** [a / b] on two [int]: the correctly rounded quotient, an
    [OverflowError] when it is too large for a float. *)
Definition truediv (a b : Z) : result float :=
  if b =? 0 then Raise ZeroDivisionError
  else
    match SFdiv prec emax (Z2SF a) (Z2SF b) with
    | S754_infinity _ => Raise OverflowError
    | q => Ok (SF2Prim q)
    end.

(** [x * n] for a float and an [int]. *)
Definition fmul_int (x : float) (n : Z) : float :=
  PrimFloat.mul x (float_of_Z n).

(** [round(x)] with one argument: the nearest integer, ties to even. *)
Definition round (x : float) : result Z :=
  match Prim2SF x with
  | S754_zero _ => Ok 0
  | S754_infinity _ => Raise OverflowError
  | S754_nan => Raise ValueError
  | S754_finite s m e =>
      let mag :=
        if 0 <=? e then Zpos m * 2 ^ e
        else
          let d := 2 ^ (- e) in
          let q := Zpos m / d in
          let r := Zpos m mod d in
          if (2 * r <? d) then q
          else if (d <? 2 * r) then q + 1
          else if Z.even q then q else q + 1 in
      Ok (if s then - mag else mag)
  end.

(** [int(x)] for a float: the integer part, towards zero. *)
Definition int_of_float (x : float) : result Z :=
  match Prim2SF x with
  | S754_zero _ => Ok 0
  | S754_infinity _ => Raise OverflowError
  | S754_nan => Raise ValueError
  | S754_finite s m e =>
      let mag := if 0 <=? e then Zpos m * 2 ^ e else Zpos m / 2 ^ (- e) in
      Ok (if s then - mag else mag)
  end.

(** A source string written with an apostrophe for each double quote. *)
Fixpoint dq (s : string) : string :=
  match s with
  | EmptyString => EmptyString
  | String c s' => String (if Ascii.eqb c apostrophe then dquote else c) (dq s')
  end.


(** f-strings: concatenation of the pieces. *)
Definition fmt (pieces : list string) : string :=
  List.fold_right String.append EmptyString pieces.

End Py.

(** ** [core/constants.py] *)

Definition MAX_REQUEST_FAILURES : Z := 4.
Definition MAX_LOGIN_FAILURES : Z := 4.
Definition MAX_SWITCH_GROUPS : Z := 10.
Definition DAYS_TO_CHECK_HISTORY : Z := 31.
Definition EXIT_CODE_RESTART_REQUIRED : Z := 2.

Definition MAX_DEVICES_DISCOVERY : Z := 64.
Definition DEFAULT_SETPOINT_DAILY_DIVISOR : Z := 30.

(** The four request bodies (see [Py.dq] for the apostrophes). *)
Definition STARTUP_DATA : string :=
  Py.dq "{'152':null,'161':null,'162':null,'447':null,'610':null,'611':null,'617':null,'706':null,'739':null,'740':null,'744':null,'800':{'100':null,'160':null},'801':{'101':null,'102':null},'858':null,'895':{'100':null,'101':null,'102':null,'103':null,'104':null,'105':null}}".

Definition POLLING_DATA : string :=
  Py.dq "{'447':null,'777':{'0':null},'778':{'0':null},'801':{'170':null}}".

Definition FAST_POLL_DATA : string :=
  Py.dq "{'608':null,'780':null,'781':null,'782':null,'794':{'0':null},'801':{'175':null},'858':null}".

Definition HISTORIC_DATA : string :=
  Py.dq "{'854':null,'877':null,'878':null}".

Definition DEVICE_CLASS_LIST : list string :=
  [ "Wechselrichter";
    "Sensor";
    "Zähler";
    "Hybrid-System";
    "Batterie";
    "Intelligente Verbraucher";
    "Schalter";
    "Wärmepumpe";
    "Heizstab";
    "Ladestation" ].

(** ** [core/data_processor.py]: class [DataProcessor] *)

Module DataProcessor.
Import Py.

(** The instance's fields; [mqtt_publisher] is the publisher seen as the
    sequence of [(topic, value)] pairs handed to it, oldest first. *)
Record t : Type := mk {
  num_inverters : Z;
  inverter_names : list string;
  device_infos : list json;
  device_types : list json;
  device_brands : list json;
  device_classes : list string;
  switch_group_names : list (option string);
  num_switch_groups : Z;
  battery_device_present : bool;
  battery_index : list Z;
  device_list : json;
  brand_list : json;
  solar_log_model : option Z;
  battery_present : bool;
  last_yield_day : Z;
  last_yield_yesterday : Z;
  last_selfcons_yesterday_fallback : json;
  last_selfcons_ratio_yesterday_fallback : value;
  total_power_w : Z;
  mqtt_publisher : list (string * value)
}.

(** [DataProcessor.__init__] *)
Definition init : t :=
  {| num_inverters := 0;
     inverter_names := [];
     device_infos := [];
     device_types := [];
     device_brands := [];
     device_classes := [];
     switch_group_names := [];
     num_switch_groups := 0;
     battery_device_present := false;
     battery_index := [];
     device_list := JNull;
     brand_list := JNull;
     solar_log_model := None;
     battery_present := false;
     last_yield_day := 0;
     last_yield_yesterday := 0;
     last_selfcons_yesterday_fallback := JInt 99;
     last_selfcons_ratio_yesterday_fallback := VInt 99;
     total_power_w := 0;
     mqtt_publisher := [] |}.

Definition set_mqtt_publisher (l : list (string * value)) (s : t) : t :=
  mk (num_inverters s) (inverter_names s) (device_infos s) (device_types s)
     (device_brands s) (device_classes s) (switch_group_names s)
     (num_switch_groups s) (battery_device_present s) (battery_index s)
     (device_list s) (brand_list s) (solar_log_model s) (battery_present s)
     (last_yield_day s) (last_yield_yesterday s)
     (last_selfcons_yesterday_fallback s)
     (last_selfcons_ratio_yesterday_fallback s) (total_power_w s) l.

Definition set_classification
  (types brands : list json) (classes : list string) (s : t) : t :=
  mk (num_inverters s) (inverter_names s) (device_infos s) types
     brands classes (switch_group_names s)
     (num_switch_groups s) (battery_device_present s) (battery_index s)
     (device_list s) (brand_list s) (solar_log_model s) (battery_present s)
     (last_yield_day s) (last_yield_yesterday s)
     (last_selfcons_yesterday_fallback s)
     (last_selfcons_ratio_yesterday_fallback s) (total_power_w s)
     (mqtt_publisher s).

Definition set_battery (present : bool) (idx : list Z) (s : t) : t :=
  mk (num_inverters s) (inverter_names s) (device_infos s) (device_types s)
     (device_brands s) (device_classes s) (switch_group_names s)
     (num_switch_groups s) present idx
     (device_list s) (brand_list s) (solar_log_model s) (battery_present s)
     (last_yield_day s) (last_yield_yesterday s)
     (last_selfcons_yesterday_fallback s)
     (last_selfcons_ratio_yesterday_fallback s) (total_power_w s)
     (mqtt_publisher s).

Definition set_last_yield_day (n : Z) (s : t) : t :=
  mk (num_inverters s) (inverter_names s) (device_infos s) (device_types s)
     (device_brands s) (device_classes s) (switch_group_names s)
     (num_switch_groups s) (battery_device_present s) (battery_index s)
     (device_list s) (brand_list s) (solar_log_model s) (battery_present s)
     n (last_yield_yesterday s)
     (last_selfcons_yesterday_fallback s)
     (last_selfcons_ratio_yesterday_fallback s) (total_power_w s)
     (mqtt_publisher s).

Definition set_last_yield_yesterday (n : Z) (s : t) : t :=
  mk (num_inverters s) (inverter_names s) (device_infos s) (device_types s)
     (device_brands s) (device_classes s) (switch_group_names s)
     (num_switch_groups s) (battery_device_present s) (battery_index s)
     (device_list s) (brand_list s) (solar_log_model s) (battery_present s)
     (last_yield_day s) n
     (last_selfcons_yesterday_fallback s)
     (last_selfcons_ratio_yesterday_fallback s) (total_power_w s)
     (mqtt_publisher s).

Definition set_fallback (v : json) (ratio : value) (s : t) : t :=
  mk (num_inverters s) (inverter_names s) (device_infos s) (device_types s)
     (device_brands s) (device_classes s) (switch_group_names s)
     (num_switch_groups s) (battery_device_present s) (battery_index s)
     (device_list s) (brand_list s) (solar_log_model s) (battery_present s)
     (last_yield_day s) (last_yield_yesterday s)
     v ratio (total_power_w s)
     (mqtt_publisher s).

Definition set_total_power_w (n : Z) (s : t) : t :=
  mk (num_inverters s) (inverter_names s) (device_infos s) (device_types s)
     (device_brands s) (device_classes s) (switch_group_names s)
     (num_switch_groups s) (battery_device_present s) (battery_index s)
     (device_list s) (brand_list s) (solar_log_model s) (battery_present s)
     (last_yield_day s) (last_yield_yesterday s)
     (last_selfcons_yesterday_fallback s)
     (last_selfcons_ratio_yesterday_fallback s) n
     (mqtt_publisher s).

(** *** The monad of the methods

    A method maps the instance to an outcome and the instance as the
    method left it; a raised exception keeps what was done before it. *)
Definition M (A : Type) : Type := t -> result A * t.

Definition ret {A : Type} (a : A) : M A := fun s => (Ok a, s).

Definition bind {A B : Type} (m : M A) (k : A -> M B) : M B :=
  fun s =>
    match m s with
    | (Ok a, s') => k a s'
    | (Raise e, s') => (Raise e, s')
    end.

Notation "x <- e ;; k" :=
  (bind e (fun x => k))
  (at level 100, e at next level, k at level 200, right associativity)
  : py_scope.

Notation "e ;; k" :=
  (bind e (fun _ => k))
  (at level 100, k at level 200, right associativity)
  : py_scope.

Definition lift {A : Type} (r : result A) : M A := fun s => (r, s).

Definition gets {A : Type} (f : t -> A) : M A := fun s => (Ok (f s), s).

Definition modify (f : t -> t) : M unit := fun s => (Ok tt, f s).

(** [try: body  except <classes>: handler] *)
Definition try_except (body : M unit) (caught : exn -> bool) (handler : M unit)
  : M unit :=
  fun s =>
    match body s with
    | (Ok a, s') => (Ok a, s')
    | (Raise e, s') => if caught e then handler s' else (Raise e, s')
    end.

(** [except Exception:] with a handler that only logs. *)
Definition try_log (body : M unit) : M unit :=
  try_except body (fun _ => true) (ret tt).

(** [self.publish(topic, value)] with a publisher configured. *)
Definition publish (topic : string) (v : value) : M unit :=
  modify (fun s => set_mqtt_publisher (mqtt_publisher s ++ [(topic, v)]) s).

Definition when (b : bool) (m : M unit) : M unit :=
  if b then m else ret tt.

(** [for x in l: body] without [break]. *)
Fixpoint for_each {A : Type} (l : list A) (body : A -> M unit) : M unit :=
  match l with
  | [] => ret tt
  | x :: l' => body x ;; for_each l' body
  end.

(** [range(n)] *)
Definition range (n : Z) : list Z :=
  List.map Z.of_nat (List.seq 0 (Z.to_nat n)).

Definition zlength {A : Type} (l : list A) : Z := Z.of_nat (List.length l).


(** *** Device classification *)

(** The local helper of [classify_devices]. *)
Definition hash_key (idx : json) : result (option key) :=
  match idx with
  | JInt n => Ok (Some (KInt n))
  | JBool b => Ok (Some (KInt (if b then 1 else 0)))
  | JStr s => Ok (Some (KStr s))
  | JNull => Ok None
  | JList _ | JDict _ => Raise TypeError
  end.

Definition get_from_indexed (container idx : json) : result json :=
  match container with
  | JNull => Ok JNull
  | JList l =>
      i <-? number idx ;;
      if (0 <=? i) && (i <? zlength l) then index container i else Ok JNull
  | JDict d =>
      k <-? hash_key idx ;;
      match match k with Some k' => dict_get d k' | None => None end with
      | Some v => Ok v
      | None => Ok (dict_get_default d (KStr (str idx)) JNull)
      end
  | JBool _ | JInt _ | JStr _ => Ok JNull
  end.

(** The local lists of [classify_devices]. *)
Record classification : Type := mkC {
  c_types : list json;
  c_brands : list json;
  c_classes : list string;
  c_battery_index : list Z;
  c_battery_device_present : bool
}.

Definition c_empty : classification := mkC [] [] [] [] false.

Definition append_type (x : json) (c : classification) : classification :=
  mkC (c_types c ++ [x]) (c_brands c) (c_classes c)
      (c_battery_index c) (c_battery_device_present c).

Definition append_brand (x : json) (c : classification) : classification :=
  mkC (c_types c) (c_brands c ++ [x]) (c_classes c)
      (c_battery_index c) (c_battery_device_present c).

Definition append_class (x : string) (c : classification) : classification :=
  mkC (c_types c) (c_brands c) (c_classes c ++ [x])
      (c_battery_index c) (c_battery_device_present c).

Definition append_battery (i : Z) (c : classification) : classification :=
  mkC (c_types c) (c_brands c) (c_classes c) (c_battery_index c ++ [i]) true.

Definition append_unknown (c : classification) : classification :=
  append_class "Wechselrichter"
    (append_brand (JStr "Unknown") (append_type (JStr "Unknown") c)).

(** [try: info_idx = int(info_code)  except Exception: info_idx = info_code] *)
Definition int_or_self (x : json) : json :=
  match int x with
  | Ok n => JInt n
  | Raise _ => x
  end.

(** The bitmask at index 5 of a table entry, or [None]. *)
Definition dclass_val (device_info : json) : option Z :=
  match device_info with
  | JList l =>
      if 5 <? zlength l then
        let x := nth 5 l JNull in
        match int x with
        | Ok n => Some n
        | Raise _ =>
            match int (JStr (strip (str x))) with
            | Ok n => Some n
            | Raise _ => None
            end
        end
      else None
  | _ => None
  end.

(** The class of a table entry. [int(math.log(v) / math.log(2))] is
    [Z.log2 v]: the two agree for every [v] from 1 up to 2^20, and from
    2^10 on both lie outside [DEVICE_CLASS_LIST]. *)
Definition device_class_of (device_info : json) : string :=
  match dclass_val device_info with
  | Some v =>
      if negb (v =? 0) && (0 <? v) then
        let class_idx := Z.log2 v in
        if (0 <=? class_idx) && (class_idx <? zlength DEVICE_CLASS_LIST)
        then nth (Z.to_nat class_idx) DEVICE_CLASS_LIST "Wechselrichter"
        else "Wechselrichter"
      else "Wechselrichter"
  | None => "Wechselrichter"
  end.

Definition device_type_of (device_info : json) : json :=
  match device_info with
  | JList l => if 1 <? zlength l then nth 1 l JNull else JStr "Unknown"
  | _ => JStr "Unknown"
  end.

Definition brand_idx_of (device_info : json) : json :=
  match device_info with
  | JList (x :: _) => int_or_self x
  | _ => int_or_self (JInt 0)
  end.

(** The body of the loop, inside its [try]: the lists as the body left
    them, also when it raised. *)
Definition classify_device (dl bl : json) (i : Z) (info_code : json)
  (c : classification) : result unit * classification :=
  let info_idx := int_or_self info_code in
  match get_from_indexed dl info_idx with
  | Raise e => (Raise e, c)
  | Ok device_info =>
      if truthy device_info then
        let device_type := device_type_of device_info in
        let c1 := append_type device_type c in
        match get_from_indexed bl (brand_idx_of device_info) with
        | Raise e => (Raise e, c1)
        | Ok found =>
            let device_brand := if is_none found then JStr "Unknown" else found in
            let c2 := append_brand device_brand c1 in
            let device_class := device_class_of device_info in
            let c3 := append_class device_class c2 in
            if String.eqb device_class "Batterie"
            then (Ok tt, append_battery i c3)
            else (Ok tt, c3)
        end
      else (Ok tt, append_unknown c)
  end.

(** One iteration: the body and [except (IndexError, ValueError, TypeError)]. *)
Definition classify_iteration (dl bl : json) (i : Z) (info_code : json)
  (c : classification) : result classification :=
  match classify_device dl bl i info_code c with
  | (Ok _, c') => Ok c'
  | (Raise e, c') =>
      match e with
      | IndexError | ValueError | TypeError => Ok (append_unknown c')
      | _ => Raise e
      end
  end.

(** [for i, (name, info_code) in enumerate(zip(names, infos))] *)
Fixpoint classify_loop (dl bl : json) (i : Z) (pairs : list (string * json))
  (c : classification) : result classification :=
  match pairs with
  | [] => Ok c
  | (_, info_code) :: rest =>
      c' <-? classify_iteration dl bl i info_code c ;;
      classify_loop dl bl (i + 1) rest c'
  end.

Definition placeholders (s : t) : t :=
  let n := List.length (inverter_names s) in
  set_classification (List.repeat (JStr "Unknown") n)
                     (List.repeat (JStr "Unknown") n)
                     (List.repeat "Wechselrichter" n) s.

Definition classify_devices : M unit :=
  fun s =>
    if negb (truthy (device_list s)) || negb (truthy (brand_list s))
       || negb (truthy (JList (device_infos s)))
    then (Ok tt, placeholders s)
    else
      match classify_loop (device_list s) (brand_list s) 0
              (List.combine (inverter_names s) (device_infos s)) c_empty with
      | Ok c =>
          (Ok tt,
           set_battery (c_battery_device_present c) (c_battery_index c)
             (set_classification (c_types c) (c_brands c) (c_classes c) s))
      | Raise _ => (Ok tt, placeholders s)
      end.

(** [publish_device_info] *)
Definition publish_device_info : M unit :=
  inv_names <- gets inverter_names ;;
  types <- gets device_types ;;
  brands <- gets device_brands ;;
  classes <- gets device_classes ;;
  try_log
    (for_each (List.combine (range (zlength inv_names)) inv_names)
       (fun '(i, name) =>
          when (i <? zlength classes)
            (publish (fmt ["INV/"; name; "/deviceclass"])
                     (VStr (nth (Z.to_nat i) classes ""))) ;;
          when (i <? zlength types)
            (publish (fmt ["INV/"; name; "/devicetype"])
                     (VJson (nth (Z.to_nat i) types JNull))) ;;
          when (i <? zlength brands)
            (publish (fmt ["INV/"; name; "/devicebrand"])
                     (VJson (nth (Z.to_nat i) brands JNull))))).

(** *** Fast-poll processing *)

(** [x[idx] if idx < len(x) else default] on a list, and
    [x.get(str(idx), x.get(idx, default))] on anything else. *)
Definition by_index_or_key (x : json) (idx : Z) (default : json) : result json :=
  match x with
  | JList l => if idx <? zlength l then index x idx else Ok default
  | _ =>
      inner <-? get_method x (KInt idx) default ;;
      get_method x (KStr (str_of_Z idx)) inner
  end.

Definition process_inverter_status (data : dict) : M unit :=
  inv_names <- gets inverter_names ;;
  classes <- gets device_classes ;;
  when (dict_mem data (KStr "608") && dict_mem data (KStr "782")
        && truthy (JList (List.map JStr inv_names)))
    (status_data <- lift (dict_item data (KStr "608")) ;;
     pac_data <- lift (dict_item data (KStr "782")) ;;
     for_each (range (zlength inv_names))
       (fun idx =>
          when ((idx <? zlength classes)
                && negb (String.eqb (nth (Z.to_nat idx) classes "") "Batterie"))
            (let inverter_name := nth (Z.to_nat idx) inv_names "" in
             status <- lift (by_index_or_key status_data idx (JStr "Unknown")) ;;
             publish (fmt ["INV/"; inverter_name; "/status"]) (VJson status) ;;
             pac_value <- lift (by_index_or_key pac_data idx (JInt 0)) ;;
             pac <- lift (if truthy pac_value then int pac_value else Ok 0) ;;
             publish (fmt ["INV/"; inverter_name; "/PAC"]) (VInt pac)))).

Definition process_inverter_extras (data : dict) : M unit :=
  inv_names <- gets inverter_names ;;
  match inv_names with
  | [] => ret tt
  | _ =>
      for_each [("784", "UAC"); ("785", "UDC")]
        (fun '(key, suffix) =>
           match dict_get data (KStr key) with
           | None => ret tt
           | Some arr =>
               for_each (List.combine (range (zlength inv_names)) inv_names)
                 (fun '(idx, name) =>
                    try_log
                      (val <- lift
                         (match arr with
                          | JList l =>
                              if (idx <? zlength l)
                                 && negb (is_none (nth (Z.to_nat idx) l JNull))
                              then int (nth (Z.to_nat idx) l JNull)
                              else Ok 0
                          | JDict d =>
                              let raw :=
                                dict_get_default d (KInt idx)
                                  (dict_get_default d (KStr (str_of_Z idx)) JNull) in
                              if is_none raw then Ok 0 else int raw
                          | _ => Ok 0
                          end) ;;
                       publish (fmt ["INV/"; name; "/"; suffix]) (VInt val)))
           end)
  end.

Definition name_truthy (n : option string) : bool :=
  match n with
  | Some s => negb (String.eqb s "")
  | None => false
  end.

Definition caught_key_type_index (e : exn) : bool :=
  match e with
  | KeyError | TypeError | IndexError => true
  | _ => false
  end.

Definition process_switch_group_states (data : dict) : M unit :=
  sg_names <- gets switch_group_names ;;
  match dict_get data (KStr "801") with
  | Some (JDict block_801) =>
      match dict_get block_801 (KStr "175"), sg_names with
      | Some sg_data, _ :: _ =>
          for_each (range (Z.min MAX_SWITCH_GROUPS (zlength sg_names)))
            (fun sgsj =>
               let sg_name := nth (Z.to_nat sgsj) sg_names None in
               when (name_truthy sg_name)
                 (try_except
                    (n <- lift (len sg_data) ;;
                     when (sgsj <? n)
                       (entry <- lift (index sg_data sgsj) ;;
                        when (truthy entry)
                          (match entry with
                           | JDict e =>
                               let sg_state :=
                                 dict_get_default e (KStr "101")
                                   (dict_get_default e (KInt 101) JNull) in
                               when (negb (is_none sg_state))
                                 (publish
                                    (fmt ["SwitchGroup/";
                                          match sg_name with Some s => s | None => "" end;
                                          "/state"])
                                    (VJson sg_state))
                           | _ => ret tt
                           end)))
                    caught_key_type_index (ret tt)))
      | _, _ => ret tt
      end
  | _ => ret tt
  end.

(** [display_data[di][1] if len(display_data[di]) > 1 else True] *)
Definition check_ok_entry (display_data : json) (di : Z) : result json :=
  e <-? index display_data di ;;
  n <-? len e ;;
  if 1 <? n then index e 1 else Ok (JBool true).

Fixpoint check_ok_list (display_data : json) (dis : list Z) : result (list json) :=
  match dis with
  | [] => Ok []
  | di :: rest =>
      x <-? check_ok_entry display_data di ;;
      xs <-? check_ok_list display_data rest ;;
      Ok (x :: xs)
  end.

Definition display_elements : list (Z * string * string) :=
  [ (0, "invicon", "inverror");
    (1, "networkicon", "networkerror");
    (6, "metericon", "metersoffline");
    (11, "mailicon", "mailerror") ].

Definition process_display_data (display_data : json) : M unit :=
  try_log
    (match display_data with
     | JList l =>
         if zlength l <? 16 then ret tt
         else
           check_ok <- lift (check_ok_list display_data
                               (range (Z.min 16 (zlength l)))) ;;
           let display_ok := List.forallb (fun errval => negb (truthy errval)) check_ok in
           publish "display/OK" (VBool display_ok) ;;
           for_each display_elements
             (fun '(idx, icon_name, error_name) =>
                if idx <? zlength l then
                  e <- lift (index display_data idx) ;;
                  n <- lift (len e) ;;
                  when (2 <=? n)
                    (icon_value <- lift (index e 0) ;;
                     error_value <- lift (index e 1) ;;
                     publish (fmt ["display/"; icon_name]) (VJson icon_value) ;;
                     publish (fmt ["display/"; error_name]) (VJson error_value))
                else ret tt)
     | _ => ret tt
     end).

Definition zeros4 : json := JList [JInt 0; JInt 0; JInt 0; JInt 0].

(** [battery_data.extend([0] * (4 - len(battery_data)))]: only a list
    has the method. (The list extended in place is the payload's own
    entry; nothing reads that entry of the payload afterwards.) *)
Definition pad4 (battery_data : json) : result json :=
  n <-? len battery_data ;;
  if n <? 4 then
    match battery_data with
    | JList l => Ok (JList (l ++ List.repeat (JInt 0) (Z.to_nat (4 - n))))
    | _ => Raise AttributeError
    end
  else Ok battery_data.

Definition process_battery_data (data : dict) : M json :=
  is_battery_present <- gets battery_present ;;
  is_battery_device_present <- gets battery_device_present ;;
  batt_index <- gets battery_index ;;
  inv_names <- gets inverter_names ;;
  match dict_get data (KStr "858") with
  | None => ret zeros4
  | Some d858 =>
      battery_data <- lift (pad4 (if truthy d858 then d858 else zeros4)) ;;
      match batt_index with
      | battery_inv_idx :: _ =>
          when (is_battery_present && is_battery_device_present
                && (battery_inv_idx <? zlength inv_names))
            (let battery_inv_name := nth (Z.to_nat battery_inv_idx) inv_names "" in
             b1 <- lift (index battery_data 1) ;;
             publish (fmt ["INV/"; battery_inv_name; "/BattLevel"]) (VJson b1) ;;
             b2 <- lift (index battery_data 2) ;;
             publish (fmt ["INV/"; battery_inv_name; "/ChargePower"]) (VJson b2) ;;
             b3 <- lift (index battery_data 3) ;;
             publish (fmt ["INV/"; battery_inv_name; "/DischargePower"]) (VJson b3))
      | [] => ret tt
      end ;;
      ret battery_data
  end.

(** [a - b] *)
Definition sub (a b : json) : result Z :=
  x <-? number a ;;
  y <-? number b ;;
  Ok (x - y).

Definition process_production_consumption (data : dict) (battery_data : json)
  : M unit :=
  match dict_get data (KStr "780"), dict_get data (KStr "781") with
  | Some d780, Some d781 =>
      let production := or_zero d780 in
      let consumption := or_zero d781 in
      b3 <- lift (index battery_data 3) ;;
      net_production <- lift (sub production b3) ;;
      b2 <- lift (index battery_data 2) ;;
      net_consumption <- lift (sub consumption b2) ;;
      publish "status/pac" (VInt net_production) ;;
      publish "status/conspac" (VInt net_consumption) ;;
      feed <- lift (sub production consumption) ;;
      publish "status/feed" (VInt feed) ;;
      if 0 <? feed then
        publish "status/feedin" (VInt feed) ;;
        publish "status/feedinactive" (VBool true) ;;
        publish "status/feedout" (VInt 0)
      else
        publish "status/feedin" (VInt 0) ;;
        publish "status/feedinactive" (VBool false) ;;
        publish "status/feedout" (VInt (Z.abs feed))
  | _, _ => ret tt
  end.

Definition process_fast_poll (data : dict) : M unit :=
  process_inverter_status data ;;
  process_inverter_extras data ;;
  process_switch_group_states data ;;
  match dict_get data (KStr "794") with
  | Some (JDict block_794) =>
      match dict_get block_794 (KStr "0") with
      | Some d0 => process_display_data d0
      | None => ret tt
      end
  | _ => ret tt
  end ;;
  battery_data <- process_battery_data data ;;
  process_production_consumption data battery_data.

(** *** Periodic-poll processing

    [today] and [yesterday] are the two dates the methods format from
    the clock with ["%d.%m.%y"]. *)

(** [round((num / den) * 1000) / 10] *)
Definition round_ratio (num den : Z) : result float :=
  q <-? truediv num den ;;
  n <-? round (fmul_int q 1000) ;;
  truediv n 10.

(** The scan of [process_inverter_day_sums], which stops at the first
    row of today. *)
Fixpoint find_today (today : string) (data_suz : json) (indices : list Z)
  : result (option Z) :=
  match indices with
  | [] => Ok None
  | i :: rest =>
      row <-? index data_suz i ;;
      n <-? len row ;;
      if 0 <? n then
        d <-? index row 0 ;;
        if str_contains today (str d) then Ok (Some i)
        else find_today today data_suz rest
      else find_today today data_suz rest
  end.

Definition process_inverter_day_sums (today : string) (data_suz : json) : M unit :=
  try_log
    (inv_names <- gets inverter_names ;;
     classes <- gets device_classes ;;
     match inv_names, classes with
     | _ :: _, _ :: _ =>
         n <- lift (len data_suz) ;;
         index_suz <- lift (find_today today data_suz
                              (range (Z.min DAYS_TO_CHECK_HISTORY n))) ;;
         match index_suz with
         | None => ret tt
         | Some i =>
             row <- lift (index data_suz i) ;;
             rn <- lift (len row) ;;
             if rn <? 2 then ret tt
             else
               daysum_data <- lift (index row 1) ;;
               dn <- lift (if truthy daysum_data then len daysum_data else Ok 0) ;;
               let nam_length :=
                 Z.min (zlength inv_names) (Z.min (zlength classes) dn) in
               for_each (range nam_length)
                 (fun suzi =>
                    when ((suzi <? zlength classes)
                          && negb (String.eqb (nth (Z.to_nat suzi) classes "")
                                              "Batterie"))
                      (let inverter_name := nth (Z.to_nat suzi) inv_names "" in
                       dl <- lift (len daysum_data) ;;
                       daysum_value <- lift (if suzi <? dl
                                             then index daysum_data suzi
                                             else Ok (JInt 0)) ;;
                       v <- lift (if truthy daysum_value
                                  then int daysum_value else Ok 0) ;;
                       publish (fmt ["INV/"; inverter_name; "/daysum"]) (VInt v)))
         end
     | _, _ => ret tt
     end).

(** The scan of [process_self_consumption]: no [break], the last row of
    each date wins. *)
Fixpoint scan_selfcons (today yesterday : string) (data_selfcons : json)
  (indices : list Z) (today_index yesterday_index : option Z)
  : result (option Z * option Z) :=
  match indices with
  | [] => Ok (today_index, yesterday_index)
  | i :: rest =>
      row <-? index data_selfcons i ;;
      n <-? len row ;;
      if 0 <? n then
        d <-? index row 0 ;;
        let date_str := str d in
        let ti := if str_contains today date_str then Some i else today_index in
        let yi := if str_contains yesterday date_str then Some i else yesterday_index in
        scan_selfcons today yesterday data_selfcons rest ti yi
      else scan_selfcons today yesterday data_selfcons rest today_index yesterday_index
  end.

(** [entry[1] if len(entry) > 1 and entry[1] else 0] *)
Definition second_or_zero (entry : json) : result json :=
  n <-? len entry ;;
  if 1 <? n then
    x <-? index entry 1 ;;
    Ok (or_zero x)
  else Ok (JInt 0).

(** The ratio of a day: [round((selfcons / yield) * 1000) / 10] when
    the yield is positive, the integer 0 otherwise. *)
Definition day_ratio (selfcons : json) (yield : Z) : result value :=
  if 0 <? yield then
    s <-? number selfcons ;;
    f <-? round_ratio s yield ;;
    Ok (VFloat f)
  else Ok (VInt 0).

(** [index is not None and len(data[index]) > 1] *)
Definition row_usable (data : json) (i : option Z) : result bool :=
  match i with
  | None => Ok false
  | Some i' =>
      row <-? index data i' ;;
      n <-? len row ;;
      Ok (1 <? n)
  end.

Definition publish_battery_sums (entry_today : json) : M unit :=
  bdp <- gets battery_device_present ;;
  bp <- gets battery_present ;;
  n <- lift (len entry_today) ;;
  when ((bdp || bp) && (5 <=? n))
    (batt_index <- gets battery_index ;;
     inv_names <- gets inverter_names ;;
     name <- lift
       (match bdp, batt_index with
        | true, b :: _ =>
            x <-? index (JList (List.map JStr inv_names)) b ;;
            Ok (str x)
        | _, _ => Ok "Battery"
        end) ;;
     e2 <- lift (x <-? index entry_today 2 ;; int x) ;;
     publish (fmt ["INV/"; name; "/BattSelfCons"]) (VInt e2) ;;
     e3 <- lift (x <-? index entry_today 3 ;; int x) ;;
     publish (fmt ["INV/"; name; "/BattChargeDaysum"]) (VInt e3) ;;
     e4 <- lift (x <-? index entry_today 4 ;; int x) ;;
     publish (fmt ["INV/"; name; "/BattDischargeDaysum"]) (VInt e4)).

Definition process_self_consumption (today yesterday : string)
  (data_selfcons : json) : M unit :=
  try_log
    (n <- lift (len data_selfcons) ;;
     found <- lift (scan_selfcons today yesterday data_selfcons
                      (range (Z.min DAYS_TO_CHECK_HISTORY n)) None None) ;;
     let '(today_index, yesterday_index) := found in
     use_today <- lift (row_usable data_selfcons today_index) ;;
     when use_today
       (entry_today <- lift (index data_selfcons
                               (match today_index with Some i => i | None => 0 end)) ;;
        selfcons_today <- lift (second_or_zero entry_today) ;;
        st <- lift (int selfcons_today) ;;
        publish "SelfCons/selfconstoday" (VInt st) ;;
        y <- gets last_yield_day ;;
        dayratio <- lift (day_ratio selfcons_today y) ;;
        publish "SelfCons/selfconsratiotoday" dayratio ;;
        modify (set_fallback selfcons_today dayratio) ;;
        publish_battery_sums entry_today) ;;
     use_yesterday <- lift (row_usable data_selfcons yesterday_index) ;;
     if use_yesterday then
       entry_yesterday <- lift (index data_selfcons
                                  (match yesterday_index with Some i => i | None => 0 end)) ;;
       selfcons_yesterday <- lift (second_or_zero entry_yesterday) ;;
       sy <- lift (int selfcons_yesterday) ;;
       publish "SelfCons/selfconsyesterday" (VInt sy) ;;
       y <- gets last_yield_yesterday ;;
       dayratio_y <- lift (day_ratio selfcons_yesterday y) ;;
       publish "SelfCons/selfconsratioyesterday" dayratio_y
     else
       fb <- gets last_selfcons_yesterday_fallback ;;
       v <- lift (int fb) ;;
       publish "SelfCons/selfconsyesterday" (VInt v) ;;
       fr <- gets last_selfcons_ratio_yesterday_fallback ;;
       publish "SelfCons/selfconsratioyesterday" fr).

(** ["0" in x] and [x["0"]] *)
Definition contains_str (k : string) (x : json) : result bool :=
  match x with
  | JDict d => Ok (dict_mem d (KStr k))
  | JList l =>
      Ok (List.existsb (fun e => match e with
                                 | JStr s => String.eqb s k
                                 | _ => false
                                 end) l)
  | JStr s => Ok (str_contains k s)
  | JNull | JBool _ | JInt _ => Raise TypeError
  end.

Definition item_str (x : json) (k : string) : result json :=
  match x with
  | JDict d => dict_item d (KStr k)
  | _ => Raise TypeError
  end.

(** The local helper [jget] of [process_periodic_poll]. *)
Definition jget (json_data : json) (k : Z) (default : json) : json :=
  match json_data with
  | JDict d =>
      dict_get_default d (KInt k) (dict_get_default d (KStr (str_of_Z k)) default)
  | JList _ => or_else (index json_data k) default
  | _ => default
  end.

(** The block 801/170 of [process_periodic_poll]. *)
Definition process_summary (json_data : json) : M unit :=
  pac_val <- lift (int (jget json_data 101 (JInt 0))) ;;
  pdc_val <- lift (int (jget json_data 102 (JInt 0))) ;;
  uac_val <- lift (int (jget json_data 103 (JInt 0))) ;;
  udc_val <- lift (int (jget json_data 104 (JInt 0))) ;;
  when (0 <? pac_val) (publish "status/pac" (VInt pac_val)) ;;
  when (0 <? pdc_val) (publish "status/pdc" (VInt pdc_val)) ;;
  when (0 <? uac_val) (publish "status/uac" (VInt uac_val)) ;;
  when (0 <? udc_val) (publish "status/udc" (VInt udc_val)) ;;
  conspac <- lift (int (jget json_data 110 (JInt 0))) ;;
  publish "status/conspac" (VInt conspac) ;;
  yd <- lift (int (jget json_data 105 (JInt 0))) ;;
  modify (set_last_yield_day yd) ;;
  yy <- lift (int (jget json_data 106 (JInt 0))) ;;
  modify (set_last_yield_yesterday yy) ;;
  publish "status/yieldday" (VInt yd) ;;
  publish "status/yieldyesterday" (VInt yy) ;;
  v107 <- lift (int (jget json_data 107 (JInt 0))) ;;
  publish "status/yieldmonth" (VInt v107) ;;
  v108 <- lift (int (jget json_data 108 (JInt 0))) ;;
  publish "status/yieldyear" (VInt v108) ;;
  v109 <- lift (int (jget json_data 109 (JInt 0))) ;;
  publish "status/yieldtotal" (VInt v109) ;;
  v111 <- lift (int (jget json_data 111 (JInt 0))) ;;
  publish "status/consyieldday" (VInt v111) ;;
  v112 <- lift (int (jget json_data 112 (JInt 0))) ;;
  publish "status/consyieldyesterday" (VInt v112) ;;
  v113 <- lift (int (jget json_data 113 (JInt 0))) ;;
  publish "status/consyieldmonth" (VInt v113) ;;
  v114 <- lift (int (jget json_data 114 (JInt 0))) ;;
  publish "status/consyieldyear" (VInt v114) ;;
  v115 <- lift (int (jget json_data 115 (JInt 0))) ;;
  publish "status/consyieldtotal" (VInt v115) ;;
  publish "info/lastSync" (VStr (str (jget json_data 100 (JStr "")))) ;;
  modify (set_total_power_w (or_else (int (jget json_data 116 (JInt 0))) 0)).

Definition process_periodic_poll (today yesterday : string) (data : dict) : M unit :=
  match dict_get data (KStr "777") with
  | Some d777 =>
      has0 <- lift (contains_str "0" d777) ;;
      inv_names <- gets inverter_names ;;
      when (has0 && truthy (JList (List.map JStr inv_names)))
        (d <- lift (item_str d777 "0") ;;
         process_inverter_day_sums today d)
  | None => ret tt
  end ;;
  match dict_get data (KStr "778") with
  | Some d778 =>
      has0 <- lift (contains_str "0" d778) ;;
      when has0
        (d <- lift (item_str d778 "0") ;;
         process_self_consumption today yesterday d)
  | None => ret tt
  end ;;
  let block_801 :=
    dict_get_default data (KStr "801") (dict_get_default data (KInt 801) JNull) in
  let json_data :=
    match block_801 with
    | JDict b => dict_get_default b (KStr "170") (dict_get_default b (KInt 170) JNull)
    | _ => JNull
    end in
  when (negb (is_none json_data)) (process_summary json_data).

(** *** Historic parsing *)

(** [for entry in x] *)
Definition iterate (x : json) : result (list json) :=
  match x with
  | JList l => Ok l
  | JStr s => Ok (List.map (fun c => JStr (String c EmptyString)) (list_ascii_of_string s))
  | JDict d =>
      Ok (List.map (fun '(k, _) => match k with
                                   | KInt n => JInt n
                                   | KStr s => JStr s
                                   end) d)
  | JNull | JBool _ | JInt _ => Raise TypeError
  end.

(** One period row [[date, yield, consumption, selfcons]]: the value
    [int(row[3])] and, when the consumption is positive, the ratio
    [round(((row[3] * 1000) / cons) * 1000) / 10]. *)
Definition publish_period (row : json) (value_topic ratio_topic : string) : M unit :=
  n <- lift (len row) ;;
  when (4 <=? n)
    (x3 <- lift (index row 3) ;;
     v <- lift (int x3) ;;
     publish value_topic (VInt v) ;;
     x2 <- lift (index row 2) ;;
     cons <- lift (number (or_zero x2)) ;;
     when (0 <? cons)
       (s <- lift (number x3) ;;
        ratio <- lift (round_ratio (s * 1000) cons) ;;
        publish ratio_topic (VFloat ratio))).

(** The dated series entry of a month row and of a year row. *)
Definition publish_month_entry (entry : json) : M unit :=
  date_str <- lift (index entry 0) ;;
  year <- lift (slice_last2 date_str) ;;
  month <- lift (slice_3_5 date_str) ;;
  let prefix := fmt ["Historic/20"; str year; "/monthly/"; str month] in
  e1 <- lift (index entry 1) ;;
  publish (fmt [prefix; "/yieldmonth"]) (VJson e1) ;;
  e2 <- lift (index entry 2) ;;
  publish (fmt [prefix; "/consmonth"]) (VJson e2) ;;
  e3 <- lift (index entry 3) ;;
  publish (fmt [prefix; "/selfconsmonth"]) (VJson e3).

Definition publish_year_entry (entry : json) : M unit :=
  date_str <- lift (index entry 0) ;;
  year <- lift (slice_last2 date_str) ;;
  let prefix := fmt ["Historic/20"; str year] in
  e1 <- lift (index entry 1) ;;
  publish (fmt [prefix; "/yieldyear"]) (VJson e1) ;;
  e2 <- lift (index entry 2) ;;
  publish (fmt [prefix; "/consyear"]) (VJson e2) ;;
  e3 <- lift (index entry 3) ;;
  publish (fmt [prefix; "/selfconsyear"]) (VJson e3).

(** [len(entry) >= 4 and entry[1]] *)
Definition full_row (entry : json) : result bool :=
  n <-? len entry ;;
  if 4 <=? n then
    e1 <-? index entry 1 ;;
    Ok (truthy e1)
  else Ok false.

(** Block 854 of [process_historic_response]. *)
Definition process_854 (data_year : json) : M unit :=
  _ <- lift (len data_year) ;;
  entries <- lift (iterate data_year) ;;
  inv_names <- gets inverter_names ;;
  for_each entries
    (fun entry =>
       n <- lift (len entry) ;;
       e1 <- lift (if 2 <=? n then index entry 1 else Ok JNull) ;;
       when ((2 <=? n) && truthy e1)
         (e0 <- lift (index entry 0) ;;
          year <- lift (slice_last2 e0) ;;
          let inverter_data := e1 in
          for_each (List.combine (range (zlength inv_names)) inv_names)
            (fun '(inu, inverter_name) =>
               m <- lift (len inverter_data) ;;
               x <- lift (if inu <? m then index inverter_data inu else Ok JNull) ;;
               when ((inu <? m) && truthy x)
                 (publish (fmt ["Historic/20"; str year; "/yieldyearINV/"; inverter_name])
                          (VJson x))))).

(** Block 877: the last row is the current month, the one before it
    the last month. *)
Definition process_877 (data_month_tot : json) : M unit :=
  n <- lift (len data_month_tot) ;;
  when (2 <=? n)
    (current_month <- lift (index data_month_tot (-1)) ;;
     publish_period current_month "SelfCons/selfconsmonth" "SelfCons/selfconsratiomonth" ;;
     when (2 <=? n)
       (last_month <- lift (index data_month_tot (-2)) ;;
        publish_period last_month
          "SelfCons/selfconslastmonth" "SelfCons/selfconsratiolastmonth")) ;;
  entries <- lift (iterate data_month_tot) ;;
  for_each entries
    (fun entry =>
       ok <- lift (full_row entry) ;;
       when ok (publish_month_entry entry)).

(** Block 878, the same for years. *)
Definition process_878 (data_year_tot : json) : M unit :=
  n <- lift (len data_year_tot) ;;
  when (2 <=? n)
    (current_year <- lift (index data_year_tot (-1)) ;;
     publish_period current_year "SelfCons/selfconsyear" "SelfCons/selfconsratioyear" ;;
     when (2 <=? n)
       (last_year <- lift (index data_year_tot (-2)) ;;
        publish_period last_year
          "SelfCons/selfconslastyear" "SelfCons/selfconsratiolastyear")) ;;
  entries <- lift (iterate data_year_tot) ;;
  for_each entries
    (fun entry =>
       ok <- lift (full_row entry) ;;
       when ok (publish_year_entry entry)).

Definition process_historic_response (req_data : string) (data : dict) : M unit :=
  try_log
    (match dict_get data (KStr "854") with
     | Some d => process_854 d
     | None => ret tt
     end ;;
     match dict_get data (KStr "877") with
     | Some d => process_877 d
     | None => ret tt
     end ;;
     match dict_get data (KStr "878") with
     | Some d => process_878 d
     | None => ret tt
     end).

(** [/months.json]: the series first, then the row at index 0 as the
    current month and the row at index 1 as the last month. *)
Definition process_months_json (data : json) : M unit :=
  try_log
    (_ <- lift (len data) ;;
     entries <- lift (iterate data) ;;
     for_each entries
       (fun entry =>
          n <- lift (len entry) ;;
          when (4 <=? n)
            (date_str <- lift (index entry 0) ;;
             _ <- lift (slice_last2 date_str) ;;
             _ <- lift (slice_3_5 date_str) ;;
             e1 <- lift (index entry 1) ;;
             when (truthy e1) (publish_month_entry entry))) ;;
     n <- lift (len data) ;;
     when (2 <=? n)
       (current_month_json <- lift (index data 0) ;;
        publish_period current_month_json
          "SelfCons/selfconsmonth" "SelfCons/selfconsratiomonth" ;;
        when (1 <? n)
          (last_month_json <- lift (index data 1) ;;
           publish_period last_month_json
             "SelfCons/selfconslastmonth" "SelfCons/selfconsratiolastmonth"))).

(** [/years.json], the same for years. *)
Definition process_years_json (data : json) : M unit :=
  try_log
    (_ <- lift (len data) ;;
     entries <- lift (iterate data) ;;
     for_each entries
       (fun entry =>
          n <- lift (len entry) ;;
          when (4 <=? n)
            (date_str <- lift (index entry 0) ;;
             _ <- lift (slice_last2 date_str) ;;
             e1 <- lift (index entry 1) ;;
             when (truthy e1) (publish_year_entry entry))) ;;
     n <- lift (len data) ;;
     when (2 <=? n)
       (current_year_json <- lift (index data 0) ;;
        publish_period current_year_json
          "SelfCons/selfconsyear" "SelfCons/selfconsratioyear" ;;
        when (1 <? n)
          (last_year_json <- lift (index data 1) ;;
           publish_period last_year_json
             "SelfCons/selfconslastyear" "SelfCons/selfconsratiolastyear"))).

(** *** Startup decode *)

Definition set_solar_log_model (m : option Z) (s : t) : t :=
  mk (num_inverters s) (inverter_names s) (device_infos s) (device_types s)
     (device_brands s) (device_classes s) (switch_group_names s)
     (num_switch_groups s) (battery_device_present s) (battery_index s)
     (device_list s) (brand_list s) m (battery_present s)
     (last_yield_day s) (last_yield_yesterday s)
     (last_selfcons_yesterday_fallback s)
     (last_selfcons_ratio_yesterday_fallback s) (total_power_w s)
     (mqtt_publisher s).

Definition set_device_list (dl : json) (s : t) : t :=
  mk (num_inverters s) (inverter_names s) (device_infos s) (device_types s)
     (device_brands s) (device_classes s) (switch_group_names s)
     (num_switch_groups s) (battery_device_present s) (battery_index s)
     dl (brand_list s) (solar_log_model s) (battery_present s)
     (last_yield_day s) (last_yield_yesterday s)
     (last_selfcons_yesterday_fallback s)
     (last_selfcons_ratio_yesterday_fallback s) (total_power_w s)
     (mqtt_publisher s).

Definition set_brand_list (bl : json) (s : t) : t :=
  mk (num_inverters s) (inverter_names s) (device_infos s) (device_types s)
     (device_brands s) (device_classes s) (switch_group_names s)
     (num_switch_groups s) (battery_device_present s) (battery_index s)
     (device_list s) bl (solar_log_model s) (battery_present s)
     (last_yield_day s) (last_yield_yesterday s)
     (last_selfcons_yesterday_fallback s)
     (last_selfcons_ratio_yesterday_fallback s) (total_power_w s)
     (mqtt_publisher s).

Definition set_num_inverters (n : Z) (s : t) : t :=
  mk n (inverter_names s) (device_infos s) (device_types s)
     (device_brands s) (device_classes s) (switch_group_names s)
     (num_switch_groups s) (battery_device_present s) (battery_index s)
     (device_list s) (brand_list s) (solar_log_model s) (battery_present s)
     (last_yield_day s) (last_yield_yesterday s)
     (last_selfcons_yesterday_fallback s)
     (last_selfcons_ratio_yesterday_fallback s) (total_power_w s)
     (mqtt_publisher s).

Definition set_switch_groups (names : list (option string)) (n : Z) (s : t) : t :=
  mk (num_inverters s) (inverter_names s) (device_infos s) (device_types s)
     (device_brands s) (device_classes s) names
     n (battery_device_present s) (battery_index s)
     (device_list s) (brand_list s) (solar_log_model s) (battery_present s)
     (last_yield_day s) (last_yield_yesterday s)
     (last_selfcons_yesterday_fallback s)
     (last_selfcons_ratio_yesterday_fallback s) (total_power_w s)
     (mqtt_publisher s).

Definition set_battery_present (b : bool) (s : t) : t :=
  mk (num_inverters s) (inverter_names s) (device_infos s) (device_types s)
     (device_brands s) (device_classes s) (switch_group_names s)
     (num_switch_groups s) (battery_device_present s) (battery_index s)
     (device_list s) (brand_list s) (solar_log_model s) b
     (last_yield_day s) (last_yield_yesterday s)
     (last_selfcons_yesterday_fallback s)
     (last_selfcons_ratio_yesterday_fallback s) (total_power_w s)
     (mqtt_publisher s).

(** [as_dict(data.get(k))] of [api_validation]: the dict under [k], or
    [None]. *)
Definition as_dict (val : option json) : option dict :=
  match val with
  | Some (JDict d) => Some d
  | _ => None
  end.

(** [as_dict(data.get(k)) or {}] *)
Definition as_dict_or_empty (val : option json) : dict :=
  match as_dict val with
  | Some d => d
  | None => []
  end.

(** [if k in data: self.publish(topic, data[k])] *)
Definition publish_if_present (data : dict) (k topic : string) : M unit :=
  match dict_get data (KStr k) with
  | Some v => publish topic (VJson v)
  | None => ret tt
  end.

(** [block and k in block], giving the entry. *)
Definition block_entry (block : option dict) (k : string) : option json :=
  match block with
  | Some ((_ :: _) as d) => dict_get d (KStr k)
  | _ => None
  end.

Definition _process_device_system_info (data : dict) : M unit :=
  publish_if_present data "610" "info/RTOS" ;;
  publish_if_present data "611" "info/CLIB" ;;
  publish_if_present data "617" "info/MAC" ;;
  publish_if_present data "706" "info/SN" ;;
  let block_800 := as_dict (dict_get data (KStr "800")) in
  match block_entry block_800 "100" with
  | Some v =>
      model <- lift (int v) ;;
      modify (set_solar_log_model (Some model)) ;;
      publish "info/Model" (VStr (str_of_Z model))
  | None => ret tt
  end ;;
  match block_entry block_800 "160" with
  | Some v => publish "info/InstDate" (VJson v)
  | None => ret tt
  end ;;
  let block_801 := as_dict (dict_get data (KStr "801")) in
  match block_entry block_801 "101" with
  | Some v => publish "info/FW" (VJson v)
  | None => ret tt
  end ;;
  match block_entry block_801 "102" with
  | Some v => publish "info/FWrelD" (VJson v)
  | None => ret tt
  end.

Definition _process_sd_card_info (data : dict) : M unit :=
  match dict_get data (KStr "895") with
  | Some (JDict sdinfo) =>
      let get k := str (dict_get_default sdinfo (KInt k) (JStr "")) in
      publish "info/SD"
        (VStr (fmt ["["; get 101; "|"; get 103; "|"; get 102; "|"; get 100;
                    "] - "; get 104; "/"; get 105]))
  | _ => ret tt
  end.

(** [statusuz != "Err"], negated. *)
Definition is_err (statusuz : json) : bool :=
  match statusuz with
  | JStr s => String.eqb s "Err"
  | _ => false
  end.

(** The [while] loop of [_process_device_discovery], entered with
    [numinv] and [fuel = 100 - numinv] rounds left before
    [numinv < 100] fails. *)
Fixpoint count_inverters (data_740 : dict) (numinv : Z) (fuel : nat) : Z :=
  match fuel with
  | O => numinv
  | S fuel' =>
      let statusuz :=
        dict_get_default data_740 (KStr (str_of_Z numinv)) (JStr "Err") in
      if is_err statusuz then numinv
      else count_inverters data_740 (numinv + 1) fuel'
  end.

Definition _process_device_discovery (data : dict) : M unit :=
  match dict_get data (KStr "739") with
  | Some v => modify (set_device_list v)
  | None => ret tt
  end ;;
  match dict_get data (KStr "744") with
  | Some v => modify (set_brand_list v)
  | None => ret tt
  end ;;
  try_except
    (if dict_mem data (KStr "740") then
       let data_740 := as_dict_or_empty (dict_get data (KStr "740")) in
       let numinv := count_inverters data_740 0 100 in
       modify (set_num_inverters numinv) ;;
       publish "info/numinv" (VInt (Z.max (numinv - 1) 0))
     else modify (set_num_inverters 0))
    (fun _ => true)
    (modify (set_num_inverters 0)).

(** One round of the loop of [_process_switch_groups]: the cleaned name
    of group [isg], or [None] (also when the body raised). *)
Definition switch_group_name (sgdata : dict) (isg : Z) : option string :=
  match dict_get sgdata (KInt isg) with
  | Some (JDict entry) =>
      match dict_get entry (KInt 100) with
      | Some sg_name =>
          if truthy sg_name then
            match sg_name with
            | JStr s => Some (remove_spaces s)
            | _ => None
            end
          else None
      | None => None
      end
  | _ => None
  end.

Definition _process_switch_groups (data : dict) : M unit :=
  if dict_mem data (KStr "447") then
    let sgdata := as_dict_or_empty (dict_get data (KStr "447")) in
    let names := List.map (switch_group_name sgdata) (range MAX_SWITCH_GROUPS) in
    modify (set_switch_groups names
              (zlength (List.filter name_truthy names)))
  else ret tt.

Definition _process_battery_info (data : dict) : M unit :=
  match dict_get data (KStr "858") with
  | Some v =>
      if truthy v then
        n <- lift (len v) ;;
        modify (set_battery_present (0 <? n))
      else ret tt
  | None => ret tt
  end.

Definition month_names : list string :=
  ["01"; "02"; "03"; "04"; "05"; "06"; "07"; "08"; "09"; "10"; "11"; "12"].

(** [int((x / 100) * setpoint_year)] *)
Definition share_of_year (x : json) (setpoint_year : float) : result float :=
  n <-? number x ;;
  q <-? truediv n 100 ;;
  Ok (PrimFloat.mul q setpoint_year).

(** [current_month] is [datetime.now().month]. *)
Definition _process_setpoint_data (current_month : Z)
  (data_152 data_161 data_162 : json) : M unit :=
  try_log
    (let efficiency := or_zero data_162 in
     let power := or_zero data_161 in
     setpoint_year <- lift (p <-? number power ;;
                            q <-? truediv p 1000 ;;
                            e <-? number efficiency ;;
                            Ok (PrimFloat.mul (float_of_Z e) q)) ;;
     y <- lift (int_of_float setpoint_year) ;;
     publish "forecast/setpointYear" (VInt y) ;;
     match data_152 with
     | JList l =>
         if 12 <=? zlength l then
           for_each (List.combine (range 12) month_names)
             (fun '(i, month) =>
                when (i <? zlength l)
                  (monthly_setpoint <- lift (share_of_year (nth (Z.to_nat i) l JNull)
                                               setpoint_year) ;;
                   m <- lift (int_of_float monthly_setpoint) ;;
                   publish (fmt ["forecast/setpointMonth/"; month]) (VInt m))) ;;
           when (current_month - 1 <? zlength l)
             (x <- lift (index data_152 (current_month - 1)) ;;
              current_month_setpoint <- lift (share_of_year x setpoint_year) ;;
              c <- lift (int_of_float current_month_setpoint) ;;
              publish "forecast/setpointCurrMonth" (VInt c) ;;
              let daily_setpoint :=
                PrimFloat.div current_month_setpoint
                  (float_of_Z DEFAULT_SETPOINT_DAILY_DIVISOR) in
              d <- lift (int_of_float daily_setpoint) ;;
              publish "forecast/setpointToday" (VInt d))
         else ret tt
     | _ => ret tt
     end).

Definition process_startup_data (current_month : Z) (data : dict) : M unit :=
  try_log
    (_process_device_system_info data ;;
     _process_sd_card_info data ;;
     _process_device_discovery data ;;
     _process_switch_groups data ;;
     _process_battery_info data ;;
     match dict_get data (KStr "152"), dict_get data (KStr "161"),
           dict_get data (KStr "162") with
     | Some d152, Some d161, Some d162 =>
         try_log (_process_setpoint_data current_month d152 d161 d162)
     | _, _, _ => ret tt
     end).

End DataProcessor.

(** ** [core/solar_log_client.py]: class [SolarLogClient] *)

Module SolarLogClient.
Import Py.

(** What one HTTP exchange with the device comes to: the transport
    raises ([aiohttp.ClientError] or [asyncio.TimeoutError]), or a
    response arrives with its status, its [set-cookie] header (empty
    when absent) and its body. *)
Inductive response : Type :=
| TransportError
| Response (status : Z) (set_cookie : string) (text : string).

(** The instance's fields. [session] tells whether the aiohttp session
    exists; [exchanges] counts the HTTP exchanges started so far (the
    position in the device's behaviour, not a field of the class). *)
Record t : Type := mk {
  user_pass : bool;
  session : bool;
  data_token : string;
  request_counter : Z;
  login_failures : Z;
  exchanges : nat
}.

Definition set_data_token (tok : string) (c : t) : t :=
  mk (user_pass c) (session c) tok (request_counter c) (login_failures c) (exchanges c).

Definition set_request_counter (n : Z) (c : t) : t :=
  mk (user_pass c) (session c) (data_token c) n (login_failures c) (exchanges c).

Definition set_login_failures (n : Z) (c : t) : t :=
  mk (user_pass c) (session c) (data_token c) (request_counter c) n (exchanges c).

Definition set_session (b : bool) (c : t) : t :=
  mk (user_pass c) b (data_token c) (request_counter c) (login_failures c) (exchanges c).

(** [s[:s.find(";")]], the whole of [s] when it has no semicolon. *)
Fixpoint until_semicolon (s : string) : string :=
  match s with
  | EmptyString => EmptyString
  | String c s' =>
      if Ascii.eqb c ";"%char then EmptyString else String c (until_semicolon s')
  end.

(** The token of a [set-cookie] header: what follows ["SolarLog="] up to
    the next semicolon; [None] when ["SolarLog="] is not in the header. *)
Definition token_of (set_cookie : string) : option string :=
  match String.index 0 "SolarLog=" set_cookie with
  | Some i => Some (until_semicolon (drop_string (i + 9) set_cookie))
  | None => None
  end.

Section Device.

(** The device and the network: the outcome of the [n]-th exchange. *)
Variable device : nat -> response.

(** [json.loads]; [None] stands for [json.JSONDecodeError]. *)
Variable json_loads : string -> option json.

(** One exchange: [session.post] or [session.get]. *)
Definition exchange (c : t) : response * t :=
  (device (exchanges c),
   mk (user_pass c) (session c) (data_token c) (request_counter c)
      (login_failures c) (S (exchanges c))).

Definition login (c : t) : bool * t :=
  if negb (user_pass c) || negb (session c) then (true, c)
  else
    match exchange c with
    | (Response status set_cookie _, c1) =>
        if status =? 200 then
          match token_of set_cookie with
          | Some tok => (true, set_login_failures 0 (set_data_token tok c1))
          | None => (false, c1)
          end
        else (false, set_login_failures (login_failures c1 + 1) c1)
    | (TransportError, c1) =>
        (false, set_login_failures (login_failures c1 + 1) c1)
    end.

Definition check_login_status (c : t) : bool * t :=
  if negb (user_pass c) || negb (session c) then (true, c)
  else
    match exchange c with
    | (Response status _ body, c1) =>
        if status =? 200 then
          if negb (String.eqb (until_semicolon body) "0") then (true, c1)
          else login c1
        else (false, c1)
    | (TransportError, c1) => (false, c1)
    end.

(** [make_request]; the result [JNull] is Python's [None]. *)
Definition make_request (request_data : string) (c : t) : json * t :=
  if negb (session c) then (JNull, c)
  else
    match exchange c with
    | (Response status _ text, c1) =>
        if str_contains ".json" request_data then
          if status =? 200 then
            match json_loads text with
            | Some data => (data, c1)
            | None => (JNull, c1)
            end
          else (JNull, c1)
        else
          if status =? 200 then
            match json_loads text with
            | Some data => (data, set_request_counter 0 c1)
            | None => (JNull, c1)
            end
          else (JNull, c1)
    | (TransportError, c1) =>
        (JNull, set_request_counter (request_counter c1 + 1) c1)
    end.

Definition request_with_auth_check (request_data : string) (c : t) : json * t :=
  if user_pass c then
    match check_login_status c with
    | (true, c1) => make_request request_data c1
    | (false, c1) => (JNull, c1)
    end
  else make_request request_data c.

(** [request_with_retry]: the loop over [range(1, max(1, attempts) + 1)];
    the sleeps between two attempts change neither the client nor the
    result. [fuel] is the number of attempts left. *)
Fixpoint retry_loop (request_data : string) (fuel : nat) (c : t) : json * t :=
  match fuel with
  | O => (JNull, c)
  | S fuel' =>
      match request_with_auth_check request_data c with
      | (JNull, c1) => retry_loop request_data fuel' c1
      | (result, c1) => (result, c1)
      end
  end.

Definition request_with_retry (request_data : string) (attempts : Z) (c : t)
  : json * t :=
  retry_loop request_data (Z.to_nat (Z.max 1 attempts)) c.

End Device.

(** [s.rstrip("/")] *)
Fixpoint rstrip_slash (s : string) : string :=
  match s with
  | EmptyString => EmptyString
  | String c s' =>
      match rstrip_slash s' with
      | EmptyString =>
          if Ascii.eqb c "/"%char then EmptyString else String c EmptyString
      | r => String c r
      end
  end.

(** [_setup_device_address] *)
Definition _setup_device_address (host : string) (port : Z) : string :=
  let device_address :=
    if String.prefix "http" host then host
    else fmt ["http://"; host; ":"; str_of_Z port] in
  rstrip_slash device_address.

End SolarLogClient.

(** ** [__main__.py] *)

Module Main.
Import Py.

(** The module's globals: the processor (with the publisher it shares
    with [publish_to_mqtt]), the client, the [running] flag, and the
    status with which the path that was followed ended the process, if
    it did. *)
Record bridge : Type := mkBridge {
  data_processor : DataProcessor.t;
  solar_log_client : SolarLogClient.t;
  running : bool;
  exit_status : option Z
}.

Definition publish_to_mqtt (topic : string) (v : value) (b : bridge) : bridge :=
  mkBridge
    (DataProcessor.set_mqtt_publisher
       (DataProcessor.mqtt_publisher (data_processor b) ++ [(topic, v)])
       (data_processor b))
    (solar_log_client b) (running b) (exit_status b).

(** [stop_solarlog]: the flag is cleared, the publisher disconnected
    ([MQTTPublisher.disconnect] first publishes
    [info/connection = False] through the publisher itself), the
    client's session closed. *)
Definition stop_solarlog (b : bridge) : bridge :=
  let b1 := mkBridge (data_processor b) (solar_log_client b) false
                     (exit_status b) in
  let b2 := publish_to_mqtt "info/connection" (VBool false) b1 in
  mkBridge (data_processor b2)
           (SolarLogClient.set_session false (solar_log_client b2))
           (running b2) (exit_status b2).

(** How [await asyncio.sleep(restart_delay)] in [restart_bridge] ends.
    The flag is already cleared when the wait starts. In the main
    coroutine (the startup requests) nothing else ends the program and
    the wait elapses. In a polling task the main coroutine, which looks
    at the flag every second, returns meanwhile, and [asyncio.run]
    cancels the task where it waits unless the delay is over first:
    with the default delay of 90 s the task is cancelled. The
    [CancelledError] is no [Exception]: no handler of [__main__]
    catches it, and the task ends there. *)
Inductive wait : Type :=
| Elapsed
| Cancelled.

(** [restart_bridge]: two notices, the flag, the wait; when the wait
    elapses, the stop and [exit(EXIT_CODE_RESTART_REQUIRED)]. *)
Definition restart_bridge (w : wait) (reason : string) (b : bridge) : bridge :=
  let b1 := publish_to_mqtt "info/connection" (VBool false) b in
  let b2 := publish_to_mqtt "info/restart_reason" (VStr reason) b1 in
  let b3 := mkBridge (data_processor b2) (solar_log_client b2) false
                     (exit_status b2) in
  match w with
  | Elapsed =>
      let b4 := stop_solarlog b3 in
      mkBridge (data_processor b4) (solar_log_client b4) (running b4)
               (Some EXIT_CODE_RESTART_REQUIRED)
  | Cancelled => b3
  end.

(** The status [check_access_denied] looks at: the first entry of a
    list, the entry under ["0"] (or [0]) of a dict, [None] otherwise. *)
Definition first_status (d608 : json) : json :=
  match d608 with
  | JList (x :: _) => x
  | JDict d => dict_get_default d (KStr "0") (dict_get_default d (KInt 0) (JStr ""))
  | _ => JNull
  end.

Definition access_denied (data : dict) : bool :=
  match dict_get data (KStr "608") with
  | Some d608 =>
      truthy d608
      && negb (is_none (first_status d608))
      && str_contains "DENIED" (str (first_status d608))
  | None => false
  end.

Definition check_access_denied (w : wait) (data : dict) (b : bridge)
  : bool * bridge :=
  if access_denied data then (true, restart_bridge w "Access denied" b)
  else (false, b).

(** [process_fast_poll_data]: an exception of the decoder is logged,
    what it did before stays. *)
Definition process_fast_poll_data (w : wait) (data : dict) (b : bridge) : bridge :=
  match check_access_denied w data b with
  | (true, b1) => b1
  | (false, b1) =>
      let '(_, dp) := DataProcessor.process_fast_poll data (data_processor b1) in
      mkBridge dp (solar_log_client b1) (running b1) (exit_status b1)
  end.

Section Requests.

(** How the wait of a restart ends, should there be one. *)
Variable w : wait.

Variable device : nat -> SolarLogClient.response.
Variable json_loads : string -> option json.

(** The dispatch to the decoders ([process_response] and
    [process_json_response]) of a payload that did arrive. *)
Variable process_response : string -> json -> bridge -> bridge.

Definition with_client (c : SolarLogClient.t) (b : bridge) : bridge :=
  mkBridge (data_processor b) c (running b) (exit_status b).

(** [https_request] *)
Definition https_request (req_data : string) (b : bridge) : bridge :=
  let '(result, c) :=
    SolarLogClient.request_with_retry device json_loads req_data 3
      (solar_log_client b) in
  let b1 := with_client c b in
  if negb (is_none result) then process_response req_data result b1
  else if MAX_REQUEST_FAILURES <? SolarLogClient.request_counter c
       then restart_bridge w "Request failures" b1
       else b1.

End Requests.

(** [request_device_info]: the request built for [max_devices] devices. *)
Definition device_info_request (max_devices : Z) : string :=
  fmt [ dq "{'141':{";
        join ","
          (List.map (fun i => fmt [dq "'"; str_of_Z i; dq "':{'119':null,'162':null}"])
                    (DataProcessor.range max_devices));
        "}}" ].

(** The number of devices [request_device_info] asks for. *)
Definition max_devices (b : bridge) : Z :=
  if 0 <? DataProcessor.num_inverters (data_processor b)
  then DataProcessor.num_inverters (data_processor b)
  else MAX_DEVICES_DISCOVERY.

(** The request of [start_polling] when the inverter import is off,
    the one of [simple_polling_loop], and the historic request for
    model 500. *)
Definition SIMPLE_STARTUP_DATA : string :=
  dq "{'610':null,'611':null,'617':null,'706':null,'800':{'100':null,'160':null},'801':{'101':null,'102':null}}".

Definition SIMPLE_POLL_DATA : string := dq "{'801':{'170':null}}".

Definition HISTORIC_DATA_500 : string := dq "{'854': null}".

Section Dispatch.

(** How the wait of a restart ends, should there be one. *)
Variable w : wait.

(** The decoders [process_response] hands a payload to, each with the
    [try]/[except] of its own. *)
Variable process_startup_data : json -> bridge -> bridge.
Variable process_device_info_data : json -> bridge -> bridge.
Variable process_polling_data : json -> bridge -> bridge.

(** [process_basic_data] *)
Definition process_basic_data (data : json) (b : bridge) : bridge :=
  match data with
  | JDict d =>
      match dict_get d (KStr "801") with
      | Some d801 =>
          match DataProcessor.contains_str "170" d801 with
          | Ok true => process_polling_data data b
          | _ => b
          end
      | None => b
      end
  | _ => b
  end.

(** [process_response]. The branch of the historic request calls
    [process_historic_data_response], a name [__main__] never defines:
    the [NameError] is caught and logged, and nothing else happens. *)
Definition process_response (req_data : string) (data : json) (b : bridge)
  : bridge :=
  if String.prefix (dq "{'152'") req_data then process_startup_data data b
  else if String.prefix (dq "{'141'") req_data then process_device_info_data data b
  else if String.prefix (dq "{'447'") req_data then process_polling_data data b
  else if String.prefix (dq "{'608'") req_data then
         match data with
         | JDict d => process_fast_poll_data w d b
         | _ => b
         end
  else if String.prefix (dq "{'801'") req_data then process_basic_data data b
  else if String.prefix (dq "{'854'") req_data then b
  else b.

End Dispatch.

(** [process_json_response] *)
Definition process_json_response (req_data : string) (data : json) (b : bridge)
  : bridge :=
  if String.prefix "/months.json" req_data then
    mkBridge (snd (DataProcessor.process_months_json data (data_processor b)))
             (solar_log_client b) (running b) (exit_status b)
  else if String.prefix "/years.json" req_data then
    mkBridge (snd (DataProcessor.process_years_json data (data_processor b)))
             (solar_log_client b) (running b) (exit_status b)
  else b.

End Main.

(** ** Sample payloads and states *)

Module Samples.
Import Py.

Definition today : string := "03.11.26".
Definition yesterday : string := "02.11.26".

(** A fast-poll payload without a battery block. *)
Definition fast_500_300 : dict :=
  [ (KStr "780", JInt 500); (KStr "781", JInt 300) ].

(** A periodic payload whose summary block reports no AC power and no
    consumption. *)
Definition periodic_zero : dict :=
  [ (KStr "801",
     JDict [ (KStr "170",
              JDict [ (KStr "100", JStr "03.11.26 18:00:00");
                      (KStr "101", JInt 0);
                      (KStr "105", JInt 1200);
                      (KStr "110", JInt 0) ]) ]) ].

(** Fast-poll payloads with an access-denied status at the second and
    at the first position of the status array. *)
Definition fast_denied_later : dict :=
  [ (KStr "608", JList [JStr "OK"; JStr "ACCESS DENIED"]);
    (KStr "780", JInt 500);
    (KStr "781", JInt 300) ].

Definition fast_denied_first : dict :=
  [ (KStr "608", JList [JStr "ACCESS DENIED"; JStr "OK"]);
    (KStr "780", JInt 500);
    (KStr "781", JInt 300) ].

(** Self-consumption histories: one without the sample dates, one with
    a row of today. *)
Definition selfcons_october : json :=
  JList [ JList [JStr "01.10.26"; JInt 5]; JList [JStr "02.10.26"; JInt 7] ].

Definition selfcons_with_today : json :=
  JList [ JList [JStr "02.10.26"; JInt 7]; JList [JStr "03.11.26"; JInt 1234] ].

(** A processor that has seen a daily yield of 5000 Wh. *)
Definition yield_5000 : DataProcessor.t :=
  DataProcessor.set_last_yield_day 5000 DataProcessor.init.

(** Period rows [[date, yield, consumption, selfcons]], oldest first. *)
Definition row (date : string) (yield cons selfcons : Z) : json :=
  JList [JStr date; JInt yield; JInt cons; JInt selfcons].

Definition four_months : list json :=
  [ row "01.02.26" 80 70 5;
    row "01.03.26" 90 75 20;
    row "01.04.26" 100 80 10;
    row "01.05.26" 120 90 15 ].

Definition four_years : list json :=
  [ row "01.01.23" 900 700 50;
    row "01.01.24" 950 750 200;
    row "01.01.25" 1000 800 100;
    row "01.01.26" 1200 900 150 ].

(** A historic payload with the month aggregate only. *)
Definition historic_months : dict :=
  [ (KStr "877", JList four_months) ].

(** A historic payload as [HISTORIC_DATA] asks for it: the yearly
    yields per inverter (854) in front of the month aggregate. *)
Definition historic_full : dict :=
  [ (KStr "854",
     JList [ JList [JStr "31.12.25"; JList [JInt 4100; JInt 0; JInt 3900]];
             JList [JStr "31.12.26"; JNull] ]);
    (KStr "877", JList four_months) ].

(** A processor with one device whose table entry carries the class
    bitmask 3. *)
Definition one_device_bitmask_3 : DataProcessor.t :=
  DataProcessor.mk 1 ["A"] [JInt 7] [] [] [] [] 0 false []
    (JDict [ (KStr "7", JList [JInt 0; JStr "SMA-X"; JInt 0; JInt 0; JInt 0; JInt 3]) ])
    (JDict [ (KStr "0", JStr "SMA") ])
    None false 0 0 (JInt 99) (VInt 99) 0 [].

(** Three devices: an inverter, one without a table entry, a battery. *)
Definition three_devices : DataProcessor.t :=
  DataProcessor.mk 3 ["A"; "B"; "C"] [JInt 7; JInt 8; JInt 9] [] [] [] [] 0 false []
    (JDict [ (KStr "7", JList [JInt 0; JStr "SMA-X"; JInt 0; JInt 0; JInt 0; JInt 1]);
             (KStr "9", JList [JInt 1; JStr "Accu"; JInt 0; JInt 0; JInt 0; JInt 16]) ])
    (JDict [ (KStr "0", JStr "SMA"); (KStr "1", JStr "BYD") ])
    None false 0 0 (JInt 99) (VInt 99) 0 [].

(** Five devices: an inverter, one without a table entry, a battery,
    one with the class bitmask 3, one whose entry is a number. *)
Definition five_devices : DataProcessor.t :=
  DataProcessor.mk 5 ["A"; "B"; "C"; "D"; "E"]
    [JInt 7; JInt 8; JInt 9; JInt 10; JInt 11] [] [] [] [] 0 false []
    (JDict [ (KStr "7", JList [JInt 0; JStr "SMA-X"; JInt 0; JInt 0; JInt 0; JInt 1]);
             (KStr "9", JList [JInt 1; JStr "Accu"; JInt 0; JInt 0; JInt 0; JInt 16]);
             (KStr "10", JList [JInt 1; JStr "Meter-Y"; JInt 0; JInt 0; JInt 0; JInt 3]);
             (KStr "11", JInt 5) ])
    (JDict [ (KStr "0", JStr "SMA"); (KStr "1", JStr "BYD") ])
    None false 0 0 (JInt 99) (VInt 99) 0 [].

(** Two devices, the first with a brand index that cannot index the
    brand table. *)
Definition unusable_brand_index : DataProcessor.t :=
  DataProcessor.mk 2 ["A"; "B"] [JInt 7; JInt 9] [] [] [] [] 0 false []
    (JDict [ (KStr "7", JList [JList [JInt 0]; JStr "SMA-X"; JInt 0; JInt 0; JInt 0; JInt 1]);
             (KStr "9", JList [JInt 1; JStr "Accu"; JInt 0; JInt 0; JInt 0; JInt 16]) ])
    (JDict [ (KStr "0", JStr "SMA"); (KStr "1", JStr "BYD") ])
    None false 0 0 (JInt 99) (VInt 99) 0 [].

Definition client_anonymous : SolarLogClient.t :=
  SolarLogClient.mk false true "" 0 0 0.

(** A client with credentials that has failed to log in twice. *)
Definition client_with_credentials : SolarLogClient.t :=
  SolarLogClient.mk true true "" 0 2 0.

Definition bridge0 : Main.bridge :=
  Main.mkBridge DataProcessor.init client_anonymous true None.

(** Devices: one that answers 200 without a session cookie, one that
    answers 500, one that is unreachable, one that hands out a token,
    one that answers 200 with a body that is not JSON. *)
Definition device_no_token : nat -> SolarLogClient.response :=
  fun _ => SolarLogClient.Response 200 "" "".

Definition device_500 : nat -> SolarLogClient.response :=
  fun _ => SolarLogClient.Response 500 "" "".

Definition device_down : nat -> SolarLogClient.response :=
  fun _ => SolarLogClient.TransportError.

Definition device_token : nat -> SolarLogClient.response :=
  fun _ => SolarLogClient.Response 200 "SolarLog=abc123; path=/" "".

Definition device_garbage : nat -> SolarLogClient.response :=
  fun _ => SolarLogClient.Response 200 "" "<html>".

(** A decoder of bodies that knows the empty object only. *)
Definition loads_empty_object (text : string) : option json :=
  if String.eqb text "{}" then Some (JDict []) else None.

Definition ignore_response (req : string) (data : json) (b : Main.bridge)
  : Main.bridge := b.

End Samples.

(** ** Vocabulary of the statements *)

Module Spec.
Import Py.

(** The log of [s'] continues the log of [s]. *)
Definition extends_log (s s' : DataProcessor.t) : Prop :=
  exists rest,
    DataProcessor.mqtt_publisher s' = DataProcessor.mqtt_publisher s ++ rest.

(** The two fallback fields of the cache are the same in [s] and [s']. *)
Definition same_fallback (s s' : DataProcessor.t) : Prop :=
  DataProcessor.last_selfcons_yesterday_fallback s'
    = DataProcessor.last_selfcons_yesterday_fallback s /\
  DataProcessor.last_selfcons_ratio_yesterday_fallback s'
    = DataProcessor.last_selfcons_ratio_yesterday_fallback s.

(** A method preserves a relation between the instance before and
    after it, whatever its outcome. *)
Definition preserves (R : DataProcessor.t -> DataProcessor.t -> Prop)
  {A : Type} (m : DataProcessor.M A) : Prop :=
  forall s, R s (snd (m s)).

(** Relations that every publication keeps. *)
Record stable (R : DataProcessor.t -> DataProcessor.t -> Prop) : Prop := {
  stable_refl : forall s, R s s;
  stable_trans : forall a b c, R a b -> R b c -> R a c;
  stable_publish :
    forall topic v s,
      R s (DataProcessor.set_mqtt_publisher
             (DataProcessor.mqtt_publisher s ++ [(topic, v)]) s)
}.

(** The messages of a log under [SelfCons/]. *)
Definition selfcons_messages (log : list (string * value)) : list (string * value) :=
  List.filter (fun '(topic, _) => String.prefix "SelfCons/" topic) log.

(** A period row as the device sends it: a date string and three
    integers. *)
Definition series_row (r : json) : Prop :=
  exists (date : string) (yield cons selfcons : Z),
    r = JList [JStr date; JInt yield; JInt cons; JInt selfcons].

(** *** The classification, as the claim words it

    These definitions do not call the classifier: they say, for one
    info code and the two tables, what the device is to receive. *)

(** The index a code or a brand index is used as: its integer value
    when [int()] reads it, the value itself otherwise. *)
Definition as_index (code : json) : json :=
  match int code with
  | Ok n => JInt n
  | Raise _ => code
  end.

(** What a table holds for an index. A list holds its elements under
    the positions [0 .. len-1]; an object holds its entries under their
    keys, and under the string form of an index not found as a key;
    anything else holds nothing. An index that cannot be used on the
    table (not a number, on a list; a list or an object, on an object)
    makes the lookup fail. *)
Inductive held : Type :=
| Holds (v : json)
| Nothing
| Unusable.

Definition held_of (o : option json) : held :=
  match o with
  | Some v => Holds v
  | None => Nothing
  end.

Definition table_holds (table idx : json) : held :=
  match table with
  | JList l =>
      match idx with
      | JInt i =>
          if (0 <=? i) && (i <? Z.of_nat (List.length l))
          then Holds (nth (Z.to_nat i) l JNull) else Nothing
      | JBool b =>
          let i := if b then 1 else 0 in
          if (i <? Z.of_nat (List.length l))
          then Holds (nth (Z.to_nat i) l JNull) else Nothing
      | _ => Unusable
      end
  | JDict d =>
      match idx with
      | JInt i =>
          match dict_get d (KInt i) with
          | Some v => Holds v
          | None => held_of (dict_get d (KStr (str_of_Z i)))
          end
      | JBool b =>
          match dict_get d (KInt (if b then 1 else 0)) with
          | Some v => Holds v
          | None => held_of (dict_get d (KStr (if b then "True" else "False")))
          end
      | JStr k => held_of (dict_get d (KStr k))
      | JNull => held_of (dict_get d (KStr "None"))
      | JList _ | JDict _ => Unusable
      end
  | _ => Nothing
  end.

(** The entry of the device table a code leads to, when there is one
    and it is not empty. *)
Definition device_entry (dl code : json) : option json :=
  match table_holds dl (as_index code) with
  | Holds entry => if truthy entry then Some entry else None
  | Nothing | Unusable => None
  end.

(** The three fields of an entry: the type name at position 1, the
    brand index at position 0 (0 when the entry has none), the class
    bitmask at position 5, read as an integer directly or from its
    stripped string form. *)
Definition entry_type (entry : json) : json :=
  match entry with
  | JList (_ :: ty :: _) => ty
  | _ => JStr "Unknown"
  end.

Definition entry_brand_index (entry : json) : json :=
  match entry with
  | JList (b :: _) => as_index b
  | _ => JInt 0
  end.

Definition entry_bitmask (entry : json) : option Z :=
  match entry with
  | JList (_ :: _ :: _ :: _ :: _ :: x :: _) =>
      match int x with
      | Ok v => Some v
      | Raise _ =>
          match int (JStr (strip (str x))) with
          | Ok v => Some v
          | Raise _ => None
          end
      end
  | _ => None
  end.

(** The class of a bitmask: the name at position [floor(log2 v)] of
    [DEVICE_CLASS_LIST] for a positive [v] (a power of two or not), the
    default class when there is no such position or no positive
    bitmask. *)
Definition class_of_bitmask (mask : option Z) : string :=
  match mask with
  | Some v =>
      if 0 <? v
      then nth (Z.to_nat (Z.log2 v)) DEVICE_CLASS_LIST "Wechselrichter"
      else "Wechselrichter"
  | None => "Wechselrichter"
  end.

(** What a device is to receive. Without an entry: ["Unknown"],
    ["Unknown"] and the default class. With an entry: the entry's type;
    the brand the brand table holds for the entry's brand index,
    ["Unknown"] when it holds none; the class of the entry's bitmask.
    When the brand table cannot be indexed by the brand index, the
    brand is ["Unknown"] and the class the default one. *)
Definition expected_type (dl code : json) : json :=
  match device_entry dl code with
  | Some entry => entry_type entry
  | None => JStr "Unknown"
  end.

Definition expected_brand (dl bl code : json) : json :=
  match device_entry dl code with
  | Some entry =>
      match table_holds bl (entry_brand_index entry) with
      | Holds brand => if is_none brand then JStr "Unknown" else brand
      | Nothing | Unusable => JStr "Unknown"
      end
  | None => JStr "Unknown"
  end.

Definition expected_class (dl bl code : json) : string :=
  match device_entry dl code with
  | Some entry =>
      match table_holds bl (entry_brand_index entry) with
      | Holds _ | Nothing => class_of_bitmask (entry_bitmask entry)
      | Unusable => "Wechselrichter"
      end
  | None => "Wechselrichter"
  end.

(** What the classifier appends to the list of types for one device:
    the one type the device is to receive, and after it a second entry
    when the brand table cannot be indexed by the entry's brand index
    (the type is appended before the brand is looked up, and the
    handler of the failed lookup appends its own). *)
Definition types_appended (dl bl code : json) : list json :=
  match device_entry dl code with
  | Some entry =>
      match table_holds bl (entry_brand_index entry) with
      | Holds _ | Nothing => [entry_type entry]
      | Unusable => [entry_type entry; JStr "Unknown"]
      end
  | None => [JStr "Unknown"]
  end.

(** The brand table can be indexed by the brand index of the code's
    entry, if the code has one. *)
Definition brand_index_usable (dl bl code : json) : bool :=
  match device_entry dl code with
  | Some entry =>
      match table_holds bl (entry_brand_index entry) with
      | Unusable => false
      | Holds _ | Nothing => true
      end
  | None => true
  end.

(** *** The ratio of a day, as the claim words it:
    [round(S / Y * 1000) / 10], the operators being Python's on an
    [int] and a [float]. *)
Definition ratio_formula (S Y : Z) : result float :=
  quotient <-? truediv S Y ;;
  rounded <-? round (fmul_int quotient 1000) ;;
  truediv rounded 10.

(** *** Block 854 as the device sends it: rows of a date string and
    the list of the inverters' yearly yields, or [None] in its place. *)
Definition year_row (r : json) : bool :=
  match r with
  | JList (JStr _ :: JList _ :: _) => true
  | JList (JStr _ :: JNull :: _) => true
  | _ => false
  end.

Definition block_854_decodes (block : option json) : bool :=
  match block with
  | None => true
  | Some (JList rows) => List.forallb year_row rows
  | Some _ => false
  end.

(** A message of the yearly yields per inverter. *)
Definition yearly_yield_message (m : string * value) : Prop :=
  String.prefix "Historic/20" (fst m) = true.

(** Whether a call of [process_self_consumption] finds a row of today
    that it can use ([today_index is not None] and the row longer than
    one element). *)
Definition today_row_used (today yesterday : string) (data : json) : bool :=
  match len data with
  | Ok n =>
      match DataProcessor.scan_selfcons today yesterday data
              (DataProcessor.range (Z.min DAYS_TO_CHECK_HISTORY n)) None None with
      | Ok (today_index, _) =>
          match DataProcessor.row_usable data today_index with
          | Ok b => b
          | Raise _ => false
          end
      | Raise _ => false
      end
  | Raise _ => false
  end.

(** The processor after a sequence of calls of
    [process_self_consumption], each with its dates and its data. *)
Fixpoint after_calls (calls : list (string * string * json))
  (s : DataProcessor.t) : DataProcessor.t :=
  match calls with
  | [] => s
  | (today, yesterday, data) :: rest =>
      after_calls rest
        (snd (DataProcessor.process_self_consumption today yesterday data s))
  end.

End Spec.

(** ** Vocabulary of the further properties *)

Module Laws.
Import Py.

(** [s'] is [s] with more messages handed to the publisher, and nothing
    else changed. *)
Definition only_log (s s' : DataProcessor.t) : Prop :=
  exists rest,
    s' = DataProcessor.set_mqtt_publisher
           (DataProcessor.mqtt_publisher s ++ rest) s.

(** The topology and the classification are the same in [s] and [s']. *)
Definition same_topology (s s' : DataProcessor.t) : Prop :=
  DataProcessor.num_inverters s' = DataProcessor.num_inverters s /\
  DataProcessor.inverter_names s' = DataProcessor.inverter_names s /\
  DataProcessor.device_infos s' = DataProcessor.device_infos s /\
  DataProcessor.device_types s' = DataProcessor.device_types s /\
  DataProcessor.device_brands s' = DataProcessor.device_brands s /\
  DataProcessor.device_classes s' = DataProcessor.device_classes s /\
  DataProcessor.switch_group_names s' = DataProcessor.switch_group_names s /\
  DataProcessor.battery_device_present s' = DataProcessor.battery_device_present s /\
  DataProcessor.battery_index s' = DataProcessor.battery_index s /\
  DataProcessor.device_list s' = DataProcessor.device_list s /\
  DataProcessor.brand_list s' = DataProcessor.brand_list s /\
  DataProcessor.battery_present s' = DataProcessor.battery_present s.

(** The messages added from [s] to [s'] all satisfy [Q]. *)
Definition adds (Q : string * value -> Prop) (s s' : DataProcessor.t) : Prop :=
  exists rest,
    DataProcessor.mqtt_publisher s' = DataProcessor.mqtt_publisher s ++ rest
    /\ Forall Q rest.

(** [s'] is [s] with more messages handed to the publisher, each of
    them satisfying [Q], and nothing else changed. *)
Definition only_adds (Q : string * value -> Prop) (s s' : DataProcessor.t) : Prop :=
  exists rest,
    s' = DataProcessor.set_mqtt_publisher
           (DataProcessor.mqtt_publisher s ++ rest) s
    /\ Forall Q rest.

(** A message on the status or the PAC topic of a device that is
    classified and not as a battery. *)
Definition of_counted_inverter (names classes : list string)
  (m : string * value) : Prop :=
  exists idx : Z,
    0 <= idx < DataProcessor.zlength names /\
    idx < DataProcessor.zlength classes /\
    nth (Z.to_nat idx) classes "" <> "Batterie" /\
    (fst m = fmt ["INV/"; nth (Z.to_nat idx) names ""; "/status"] \/
     fst m = fmt ["INV/"; nth (Z.to_nat idx) names ""; "/PAC"]).

(** A dict as [json.loads] builds it: every key a string. *)
Definition string_keys (d : dict) : bool :=
  List.forallb (fun '(k, _) => match k with
                               | KStr _ => true
                               | KInt _ => false
                               end) d.

(** Table 740 lists device [k]: the entry under [str(k)] is there and
    is not ["Err"]. *)
Definition listed (table : dict) (k : Z) : bool :=
  negb (DataProcessor.is_err
          (dict_get_default table (KStr (str_of_Z k)) (JStr "Err"))).

(** The topics of [_process_device_system_info] that come before the
    model. *)
Definition before_model : list string :=
  ["info/RTOS"; "info/CLIB"; "info/MAC"; "info/SN"].

(** Startup payloads: two devices and the end mark; switch groups and
    SD card as [json.loads] decodes them; a model that is not a number
    in front of the tables. *)
Definition startup_two_devices : dict :=
  [ (KStr "740", JDict [ (KStr "0", JStr "Inv 1"); (KStr "1", JStr "Inv 2");
                         (KStr "2", JStr "Err") ]) ].

Definition switch_groups_decoded : dict :=
  [ (KStr "0", JDict [ (KStr "100", JStr "Pool pump") ]);
    (KStr "1", JDict [ (KStr "100", JStr "Heater") ]) ].

Definition startup_switch_groups : dict :=
  [ (KStr "447", JDict switch_groups_decoded) ].

Definition sd_card_decoded : dict :=
  [ (KStr "100", JInt 1); (KStr "101", JInt 2); (KStr "102", JInt 3);
    (KStr "103", JInt 4); (KStr "104", JInt 5); (KStr "105", JInt 6) ].

Definition startup_sd_card : dict :=
  [ (KStr "895", JDict sd_card_decoded) ].

Definition startup_model_null : dict :=
  [ (KStr "610", JStr "1.2.3");
    (KStr "800", JDict [ (KStr "100", JNull) ]);
    (KStr "739", JDict [ (KStr "7", JList [JInt 0; JStr "SMA-X"]) ]);
    (KStr "740", JDict [ (KStr "0", JStr "Inv 1"); (KStr "1", JStr "Err") ]) ].

(** The topics the periodic summary holds back at zero. *)
Definition held_back : list string :=
  ["status/pac"; "status/pdc"; "status/uac"; "status/udc"].

(** A message on a held-back topic carries a positive integer. *)
Definition positive_if_held_back (m : string * value) : Prop :=
  In (fst m) held_back -> exists n, snd m = VInt n /\ 0 < n.

(** The positions of the entries of [classes] equal to [x], counted
    from [i], in increasing order. *)
Fixpoint positions (x : string) (i : Z) (classes : list string) : list Z :=
  match classes with
  | [] => []
  | c :: rest =>
      if String.eqb c x then i :: positions x (i + 1) rest
      else positions x (i + 1) rest
  end.

(** [s.endswith("/")] *)
Fixpoint ends_with_slash (s : string) : bool :=
  match s with
  | EmptyString => false
  | String c EmptyString => Ascii.eqb c "/"%char
  | String _ s' => ends_with_slash s'
  end.

(** [k] slashes. *)
Fixpoint slashes (k : nat) : string :=
  match k with
  | O => EmptyString
  | S k' => String "/"%char (slashes k')
  end.

(** The address before [rstrip]. *)
Definition raw_address (host : string) (port : Z) : string :=
  if String.prefix "http" host then host
  else fmt ["http://"; host; ":"; str_of_Z port].

(** A device that cannot be reached, and one that serves every request
    with the same decodable body. *)
Definition unreachable : nat -> SolarLogClient.response :=
  fun _ => SolarLogClient.TransportError.

Definition serving (body : string) : nat -> SolarLogClient.response :=
  fun _ => SolarLogClient.Response 200 "" body.

(** A device that reports the session as not logged in (status check:
    200 with body ["0"]) and rejects every login (403): the status
    checks are the even exchanges, the logins the odd ones. *)
Definition rejecting : nat -> SolarLogClient.response :=
  fun n =>
    if Nat.even n then SolarLogClient.Response 200 "" "0"
    else SolarLogClient.Response 403 "" "".

(** [k] calls of [https_request] in a row. *)
Fixpoint requests (w : Main.wait) (device : nat -> SolarLogClient.response)
  (json_loads : string -> option json)
  (process_response : string -> json -> Main.bridge -> Main.bridge)
  (req_data : string) (k : nat) (b : Main.bridge) : Main.bridge :=
  match k with
  | O => b
  | S k' =>
      requests w device json_loads process_response req_data k'
        (Main.https_request w device json_loads process_response req_data b)
  end.

(** A client with credentials, never failed, no exchange yet. *)
Definition client_logged : SolarLogClient.t :=
  SolarLogClient.mk true true "tok" 0 0 0.

Definition bridge_logged : Main.bridge :=
  Main.mkBridge DataProcessor.init client_logged true None.

End Laws.

(** ** Properties of the decoders *)

Import Py.

(** *** Runs of the monad *)

Lemma bind_ok {A B : Type} (m : DataProcessor.M A) (k : A -> DataProcessor.M B)
  (s s' : DataProcessor.t) (a : A) :
  m s = (Ok a, s') -> DataProcessor.bind m k s = k a s'.
Proof. intros H. unfold DataProcessor.bind. rewrite H. reflexivity. Qed.

Lemma bind_lift_ok {A B : Type} (a : A) (k : A -> DataProcessor.M B) :
  DataProcessor.bind (DataProcessor.lift (Ok a)) k = k a.
Proof. reflexivity. Qed.

Lemma bind_publish_run {B : Type} (topic : string) (v : value)
  (k : unit -> DataProcessor.M B) (s : DataProcessor.t) :
  DataProcessor.bind (DataProcessor.publish topic v) k s =
  k tt (DataProcessor.set_mqtt_publisher
          (DataProcessor.mqtt_publisher s ++ [(topic, v)]) s).
Proof. reflexivity. Qed.

Lemma bind_gets_run {A B : Type} (f : DataProcessor.t -> A)
  (k : A -> DataProcessor.M B) (s : DataProcessor.t) :
  DataProcessor.bind (DataProcessor.gets f) k s = k (f s) s.
Proof. reflexivity. Qed.

Lemma try_log_snd (body : DataProcessor.M unit) (s : DataProcessor.t) :
  snd (DataProcessor.try_log body s) = snd (body s).
Proof.
  unfold DataProcessor.try_log, DataProcessor.try_except.
  destruct (body s) as [[a|e] s']; reflexivity.
Qed.

(** *** Feed-in and feed-out *)

(** C6. With production [P] under 780 and consumption [C] under 781
    (and the battery array holding the integers [b2], [b3] at 2 and 3),
    [process_production_consumption] publishes, in this order, the net
    values, [feed = P - C], and then [feedin = feed], [feedinactive =
    true], [feedout = 0] when [feed > 0], and [feedin = 0],
    [feedinactive = false], [feedout = |feed|] otherwise. *)
Theorem feed_split_exact :
  forall (data : dict) (battery_data : json) (P C b2 b3 : Z)
         (s : DataProcessor.t),
    dict_get data (KStr "780") = Some (JInt P) ->
    dict_get data (KStr "781") = Some (JInt C) ->
    index battery_data 2 = Ok (JInt b2) ->
    index battery_data 3 = Ok (JInt b3) ->
    let feed := P - C in
    let r := DataProcessor.process_production_consumption data battery_data s in
    fst r = Ok tt /\
    DataProcessor.mqtt_publisher (snd r) =
      DataProcessor.mqtt_publisher s ++
      [ ("status/pac", VInt (P - b3));
        ("status/conspac", VInt (C - b2));
        ("status/feed", VInt feed);
        ("status/feedin", VInt (if 0 <? feed then feed else 0));
        ("status/feedinactive", VBool (0 <? feed));
        ("status/feedout", VInt (if 0 <? feed then 0 else Z.abs feed)) ].
Proof.
  intros data battery_data P C b2 b3 s H780 H781 Hb2 Hb3 feed r.
  subst r feed.
  unfold DataProcessor.process_production_consumption.
  rewrite H780, H781.
  assert (HP : number (or_zero (JInt P)) = Ok P).
  { unfold or_zero. simpl. destruct (P =? 0) eqn:E; simpl; [|reflexivity].
    apply Z.eqb_eq in E. now subst. }
  assert (HC : number (or_zero (JInt C)) = Ok C).
  { unfold or_zero. simpl. destruct (C =? 0) eqn:E; simpl; [|reflexivity].
    apply Z.eqb_eq in E. now subst. }
  unfold DataProcessor.bind, DataProcessor.lift, DataProcessor.sub.
  rewrite Hb3, Hb2, HP, HC. simpl.
  destruct (0 <? P - C) eqn:Hfeed; simpl;
    repeat rewrite <- app_assoc; simpl; split; reflexivity.
Qed.

Lemma feed_split_exact_witness :
  let r := DataProcessor.process_production_consumption
             Samples.fast_500_300 DataProcessor.zeros4 DataProcessor.init in
  fst r = Ok tt /\
  DataProcessor.mqtt_publisher (snd r) =
    [ ("status/pac", VInt 500);
      ("status/conspac", VInt 300);
      ("status/feed", VInt 200);
      ("status/feedin", VInt 200);
      ("status/feedinactive", VBool true);
      ("status/feedout", VInt 0) ].
Proof.
  exact (feed_split_exact Samples.fast_500_300 DataProcessor.zeros4
           (P := 500) (C := 300) (b2 := 0) (b3 := 0) DataProcessor.init
           eq_refl eq_refl eq_refl eq_refl).
Defined.

(** *** Periodic summary against fast-poll values *)

(** C1. After a fast poll has published [status/conspac = 300], a
    periodic payload whose summary reports consumption 0 makes
    [process_periodic_poll] publish [status/conspac = 0]: the zero is
    republished, while the zero AC power of the same payload is held
    back. *)
Theorem periodic_republishes_zero_conspac :
  let after_fast :=
    snd (DataProcessor.process_fast_poll Samples.fast_500_300 DataProcessor.init) in
  let after_periodic :=
    snd (DataProcessor.process_periodic_poll Samples.today Samples.yesterday
           Samples.periodic_zero after_fast) in
  In ("status/conspac", VInt 300) (DataProcessor.mqtt_publisher after_fast) /\
  In ("status/pac", VInt 500) (DataProcessor.mqtt_publisher after_fast) /\
  DataProcessor.mqtt_publisher after_periodic =
    DataProcessor.mqtt_publisher after_fast ++
    [ ("status/conspac", VInt 0);
      ("status/yieldday", VInt 1200);
      ("status/yieldyesterday", VInt 0);
      ("status/yieldmonth", VInt 0);
      ("status/yieldyear", VInt 0);
      ("status/yieldtotal", VInt 0);
      ("status/consyieldday", VInt 0);
      ("status/consyieldyesterday", VInt 0);
      ("status/consyieldmonth", VInt 0);
      ("status/consyieldyear", VInt 0);
      ("status/consyieldtotal", VInt 0);
      ("info/lastSync", VStr "03.11.26 18:00:00") ].
Proof.
  vm_compute. repeat split; auto 10.
Qed.

(** *** Access denied *)

(** C2, as stated, fails: a status array whose second entry contains
    ["DENIED"] does not start the restart, and the payload's metrics are
    published; how a wait would end plays no part. *)
Lemma access_denied_later_entry_not_detected :
  let b' := Main.process_fast_poll_data Main.Cancelled Samples.fast_denied_later
              Samples.bridge0 in
  Main.process_fast_poll_data Main.Elapsed Samples.fast_denied_later
    Samples.bridge0 = b' /\
  dict_get Samples.fast_denied_later (KStr "608")
    = Some (JList [JStr "OK"; JStr "ACCESS DENIED"]) /\
  str_contains "DENIED" "ACCESS DENIED" = true /\
  Main.exit_status b' = None /\
  Main.running b' = true /\
  DataProcessor.mqtt_publisher (Main.data_processor b') =
    [ ("status/pac", VInt 500);
      ("status/conspac", VInt 300);
      ("status/feed", VInt 200);
      ("status/feedin", VInt 200);
      ("status/feedinactive", VBool true);
      ("status/feedout", VInt 0) ].
Proof.
  vm_compute. repeat split.
Qed.

(** C2, amended. When the first status of field 608 (element 0 of a
    list, the entry under ["0"] or [0] of a dict) is present and its
    string form contains ["DENIED"], [process_fast_poll_data] takes the
    restart path and the decoder never runs on that payload: no field
    of the processor changes and nothing derived from the payload is
    published. The path publishes [info/connection = False] and
    [info/restart_reason = "Access denied"], clears the running flag
    and waits. When the wait elapses, the stop publishes
    [info/connection = False] once more, closes the session, and the
    process exits with [EXIT_CODE_RESTART_REQUIRED]. When the task is
    cancelled while it waits, the path ends there: no third message,
    the session and the exit status as they were. *)
Theorem access_denied_first_entry_restarts :
  forall (w : Main.wait) (data : dict) (d608 : json) (b : Main.bridge),
    dict_get data (KStr "608") = Some d608 ->
    truthy d608 = true ->
    is_none (Main.first_status d608) = false ->
    str_contains "DENIED" (str (Main.first_status d608)) = true ->
    let b' := Main.process_fast_poll_data w data b in
    let notices :=
      [ ("info/connection", VBool false);
        ("info/restart_reason", VStr "Access denied") ] in
    b' = Main.restart_bridge w "Access denied" b /\
    Main.running b' = false /\
    match w with
    | Main.Elapsed =>
        Main.data_processor b' =
          DataProcessor.set_mqtt_publisher
            (DataProcessor.mqtt_publisher (Main.data_processor b)
             ++ notices ++ [("info/connection", VBool false)])
            (Main.data_processor b) /\
        SolarLogClient.session (Main.solar_log_client b') = false /\
        Main.exit_status b' = Some EXIT_CODE_RESTART_REQUIRED
    | Main.Cancelled =>
        Main.data_processor b' =
          DataProcessor.set_mqtt_publisher
            (DataProcessor.mqtt_publisher (Main.data_processor b) ++ notices)
            (Main.data_processor b) /\
        Main.solar_log_client b' = Main.solar_log_client b /\
        Main.exit_status b' = Main.exit_status b
    end.
Proof.
  intros w data d608 b H608 Htruthy Hsome Hdenied b' notices.
  assert (Hb : b' = Main.restart_bridge w "Access denied" b).
  { subst b'. unfold Main.process_fast_poll_data, Main.check_access_denied,
      Main.access_denied.
    rewrite H608, Htruthy, Hsome, Hdenied. reflexivity. }
  rewrite Hb. subst notices.
  split; [reflexivity|].
  destruct w; (split; [reflexivity|]);
    unfold Main.restart_bridge, Main.stop_solarlog, Main.publish_to_mqtt;
    simpl; repeat rewrite <- app_assoc; repeat split.
Qed.

Lemma access_denied_first_entry_restarts_witness :
  let b1 := Main.process_fast_poll_data Main.Elapsed Samples.fast_denied_first
              Samples.bridge0 in
  let b2 := Main.process_fast_poll_data Main.Cancelled Samples.fast_denied_first
              Samples.bridge0 in
  (DataProcessor.mqtt_publisher (Main.data_processor b1) =
     [ ("info/connection", VBool false);
       ("info/restart_reason", VStr "Access denied");
       ("info/connection", VBool false) ] /\
   Main.exit_status b1 = Some EXIT_CODE_RESTART_REQUIRED) /\
  (DataProcessor.mqtt_publisher (Main.data_processor b2) =
     [ ("info/connection", VBool false);
       ("info/restart_reason", VStr "Access denied") ] /\
   Main.exit_status b2 = None).
Proof.
  intros b1 b2. split.
  - destruct (access_denied_first_entry_restarts Main.Elapsed
                Samples.fast_denied_first
                (d608 := JList [JStr "ACCESS DENIED"; JStr "OK"]) Samples.bridge0
                eq_refl eq_refl eq_refl eq_refl) as [_ [_ [Hdp [_ Hexit]]]].
    fold b1 in Hdp, Hexit. rewrite Hdp. split; [reflexivity | exact Hexit].
  - destruct (access_denied_first_entry_restarts Main.Cancelled
                Samples.fast_denied_first
                (d608 := JList [JStr "ACCESS DENIED"; JStr "OK"]) Samples.bridge0
                eq_refl eq_refl eq_refl eq_refl) as [_ [_ [Hdp [_ Hexit]]]].
    fold b2 in Hdp, Hexit. rewrite Hdp. split; [reflexivity | exact Hexit].
Defined.

(** *** Login *)

(** C8. With credentials configured and two earlier failures counted,
    a response 200 whose cookie lacks the token makes [login] return
    [False] and leaves the counter at 2, while a status 500 and a
    transport error both bring it to 3; a token resets it to 0; without
    credentials no exchange takes place. *)
Theorem login_missing_token_not_counted :
  let c := Samples.client_with_credentials in
  let missing := SolarLogClient.login Samples.device_no_token c in
  let refused := SolarLogClient.login Samples.device_500 c in
  let down := SolarLogClient.login Samples.device_down c in
  let granted := SolarLogClient.login Samples.device_token c in
  (fst missing = false /\ SolarLogClient.login_failures (snd missing) = 2) /\
  (fst refused = false /\ SolarLogClient.login_failures (snd refused) = 3) /\
  (fst down = false /\ SolarLogClient.login_failures (snd down) = 3) /\
  (fst granted = true /\ SolarLogClient.login_failures (snd granted) = 0
   /\ SolarLogClient.data_token (snd granted) = "abc123") /\
  SolarLogClient.login Samples.device_down Samples.client_anonymous
    = (true, Samples.client_anonymous).
Proof.
  vm_compute. repeat split.
Qed.

(** *** The request-failure counter *)

Section RequestCounter.

Variable device : nat -> SolarLogClient.response.
Variable json_loads : string -> option json.

Lemma login_keeps_request_counter (c : SolarLogClient.t) :
  SolarLogClient.request_counter (snd (SolarLogClient.login device c))
  = SolarLogClient.request_counter c.
Proof.
  unfold SolarLogClient.login.
  destruct (negb (SolarLogClient.user_pass c) || negb (SolarLogClient.session c));
    [reflexivity|].
  unfold SolarLogClient.exchange.
  destruct (device (SolarLogClient.exchanges c)) as [|status cookie text];
    [reflexivity|].
  destruct (status =? 200); [|reflexivity].
  destruct (SolarLogClient.token_of cookie); reflexivity.
Qed.

Lemma check_login_status_keeps_request_counter (c : SolarLogClient.t) :
  SolarLogClient.request_counter (snd (SolarLogClient.check_login_status device c))
  = SolarLogClient.request_counter c.
Proof.
  unfold SolarLogClient.check_login_status.
  destruct (negb (SolarLogClient.user_pass c) || negb (SolarLogClient.session c));
    [reflexivity|].
  unfold SolarLogClient.exchange.
  destruct (device (SolarLogClient.exchanges c)) as [|status cookie body];
    [reflexivity|].
  destruct (status =? 200); [|reflexivity].
  destruct (negb (SolarLogClient.until_semicolon body =? "0")%string);
    [reflexivity|].
  now rewrite login_keeps_request_counter.
Qed.

(** What one call of [make_request] does to the counter, by the
    outcome of its exchange. *)
Lemma make_request_counter (request_data : string) (c : SolarLogClient.t) :
  SolarLogClient.session c = true ->
  let r := SolarLogClient.make_request device json_loads request_data c in
  match device (SolarLogClient.exchanges c) with
  | SolarLogClient.TransportError =>
      fst r = JNull /\
      SolarLogClient.request_counter (snd r) = SolarLogClient.request_counter c + 1
  | SolarLogClient.Response status _ text =>
      if status =? 200 then
        match json_loads text with
        | Some data =>
            fst r = data /\
            SolarLogClient.request_counter (snd r) =
              if str_contains ".json" request_data
              then SolarLogClient.request_counter c else 0
        | None =>
            fst r = JNull /\
            SolarLogClient.request_counter (snd r) = SolarLogClient.request_counter c
        end
      else
        fst r = JNull /\
        SolarLogClient.request_counter (snd r) = SolarLogClient.request_counter c
  end.
Proof.
  intros Hs r. subst r. unfold SolarLogClient.make_request.
  rewrite Hs. simpl. unfold SolarLogClient.exchange.
  destruct (device (SolarLogClient.exchanges c)) as [|status cookie text].
  - split; reflexivity.
  - destruct (str_contains ".json" request_data), (status =? 200);
      try destruct (json_loads text); split; reflexivity.
Qed.

Hypothesis never_raises : forall n, device n <> SolarLogClient.TransportError.

Lemma make_request_no_increment (request_data : string) (c : SolarLogClient.t) :
  let c' := snd (SolarLogClient.make_request device json_loads request_data c) in
  SolarLogClient.request_counter c' = SolarLogClient.request_counter c
  \/ SolarLogClient.request_counter c' = 0.
Proof.
  simpl. unfold SolarLogClient.make_request.
  destruct (negb (SolarLogClient.session c)); [left; reflexivity|].
  unfold SolarLogClient.exchange.
  pose proof (@never_raises (SolarLogClient.exchanges c)) as Hn.
  destruct (device (SolarLogClient.exchanges c)) as [|status cookie text];
    [contradiction|].
  destruct (str_contains ".json" request_data), (status =? 200);
    try destruct (json_loads text); simpl; auto.
Qed.

Lemma auth_check_no_increment (request_data : string) (c : SolarLogClient.t) :
  let c' := snd (SolarLogClient.request_with_auth_check device json_loads
                   request_data c) in
  SolarLogClient.request_counter c' = SolarLogClient.request_counter c
  \/ SolarLogClient.request_counter c' = 0.
Proof.
  simpl. unfold SolarLogClient.request_with_auth_check.
  destruct (SolarLogClient.user_pass c).
  - pose proof (check_login_status_keeps_request_counter c) as Hk.
    destruct (SolarLogClient.check_login_status device c) as [[|] c1]; simpl in *.
    + rewrite <- Hk. apply make_request_no_increment.
    + left. exact Hk.
  - apply make_request_no_increment.
Qed.

Lemma retry_loop_bounded (request_data : string) (fuel : nat) :
  forall c : SolarLogClient.t,
    0 <= SolarLogClient.request_counter c <= MAX_REQUEST_FAILURES ->
    0 <= SolarLogClient.request_counter
           (snd (SolarLogClient.retry_loop device json_loads request_data fuel c))
      <= MAX_REQUEST_FAILURES.
Proof.
  induction fuel as [|fuel IH]; intros c Hc; simpl; [exact Hc|].
  pose proof (auth_check_no_increment request_data c) as Hstep. simpl in Hstep.
  destruct (SolarLogClient.request_with_auth_check device json_loads request_data c)
    as [result c1]; simpl in *.
  assert (Hc1 : 0 <= SolarLogClient.request_counter c1 <= MAX_REQUEST_FAILURES).
  { unfold MAX_REQUEST_FAILURES in *. destruct Hstep as [-> | ->]; lia. }
  destruct result; simpl; auto.
Qed.

End RequestCounter.

(** C9. One call of [make_request] adds 1 to the request counter when
    the transport raises and only then; a status other than 200 and a
    body that does not decode give [None] and leave it as it was; a
    decoded [/getjp] body sets it to 0, a decoded [.json] body leaves
    it. Hence with a device whose transport never raises, a counter
    within the threshold stays within it through [request_with_retry],
    and [https_request] with a [None] result does not restart the
    bridge. *)
Theorem request_counter_counts_transport_errors_only :
  forall (device : nat -> SolarLogClient.response)
         (json_loads : string -> option json),
    (forall (request_data : string) (c : SolarLogClient.t),
        SolarLogClient.session c = true ->
        let r := SolarLogClient.make_request device json_loads request_data c in
        match device (SolarLogClient.exchanges c) with
        | SolarLogClient.TransportError =>
            fst r = JNull /\
            SolarLogClient.request_counter (snd r)
              = SolarLogClient.request_counter c + 1
        | SolarLogClient.Response status _ text =>
            if status =? 200 then
              match json_loads text with
              | Some data =>
                  fst r = data /\
                  SolarLogClient.request_counter (snd r) =
                    if str_contains ".json" request_data
                    then SolarLogClient.request_counter c else 0
              | None =>
                  fst r = JNull /\
                  SolarLogClient.request_counter (snd r)
                    = SolarLogClient.request_counter c
              end
            else
              fst r = JNull /\
              SolarLogClient.request_counter (snd r)
                = SolarLogClient.request_counter c
        end)
    /\
    ((forall n, device n <> SolarLogClient.TransportError) ->
     forall (w : Main.wait)
            (process_response : string -> json -> Main.bridge -> Main.bridge)
            (req_data : string) (b : Main.bridge),
       0 <= SolarLogClient.request_counter (Main.solar_log_client b)
         <= MAX_REQUEST_FAILURES ->
       let r := SolarLogClient.request_with_retry device json_loads req_data 3
                  (Main.solar_log_client b) in
       0 <= SolarLogClient.request_counter (snd r) <= MAX_REQUEST_FAILURES /\
       (fst r = JNull ->
        Main.https_request w device json_loads process_response req_data b
          = Main.with_client (snd r) b)).
Proof.
  intros device json_loads. split.
  - intros request_data c Hs. apply make_request_counter. exact Hs.
  - intros Hnever w process_response req_data b Hb r.
    assert (Hr : 0 <= SolarLogClient.request_counter (snd r) <= MAX_REQUEST_FAILURES).
    { subst r. unfold SolarLogClient.request_with_retry.
      apply retry_loop_bounded; assumption. }
    split; [exact Hr|].
    intros Hnone. unfold Main.https_request. fold r.
    destruct r as [result c]. simpl in *. subst result. simpl.
    destruct (MAX_REQUEST_FAILURES <? SolarLogClient.request_counter c) eqn:E;
      [|reflexivity].
    apply Z.ltb_lt in E. lia.
Qed.

Lemma request_counter_counts_transport_errors_only_witness :
  let r := SolarLogClient.request_with_retry Samples.device_garbage
             Samples.loads_empty_object "/months.json" 3
             (Main.solar_log_client Samples.bridge0) in
  (fst (SolarLogClient.make_request Samples.device_garbage
          Samples.loads_empty_object "/months.json" Samples.client_anonymous)
   = JNull /\
   SolarLogClient.request_counter
     (snd (SolarLogClient.make_request Samples.device_garbage
             Samples.loads_empty_object "/months.json" Samples.client_anonymous))
   = 0) /\
  0 <= SolarLogClient.request_counter (snd r) <= MAX_REQUEST_FAILURES /\
  Main.https_request Main.Cancelled Samples.device_garbage
    Samples.loads_empty_object Samples.ignore_response "/months.json"
    Samples.bridge0
    = Main.with_client (snd r) Samples.bridge0.
Proof.
  destruct (request_counter_counts_transport_errors_only
              Samples.device_garbage Samples.loads_empty_object) as [Hone Hmany].
  split.
  - exact (Hone "/months.json" Samples.client_anonymous eq_refl).
  - assert (Hnever : forall n, Samples.device_garbage n
                               <> SolarLogClient.TransportError)
      by (intros n; discriminate).
    assert (Hb : 0 <= SolarLogClient.request_counter
                        (Main.solar_log_client Samples.bridge0)
                   <= MAX_REQUEST_FAILURES)
      by (vm_compute; split; discriminate).
    destruct (Hmany Hnever Main.Cancelled Samples.ignore_response "/months.json"
                Samples.bridge0 Hb) as [Hle Hno].
    split; [exact Hle|]. apply Hno. reflexivity.
Defined.

(** *** Relations kept by the methods *)

Section Preservation.

Variable R : DataProcessor.t -> DataProcessor.t -> Prop.
Hypothesis R_stable : Spec.stable R.

Lemma preserves_ret {A : Type} (a : A) : Spec.preserves R (DataProcessor.ret a).
Proof. intros s. apply (Spec.stable_refl R_stable). Qed.

Lemma preserves_lift {A : Type} (r : result A) :
  Spec.preserves R (DataProcessor.lift r).
Proof. intros s. apply (Spec.stable_refl R_stable). Qed.

Lemma preserves_gets {A : Type} (f : DataProcessor.t -> A) :
  Spec.preserves R (DataProcessor.gets f).
Proof. intros s. apply (Spec.stable_refl R_stable). Qed.

Lemma preserves_publish (topic : string) (v : value) :
  Spec.preserves R (DataProcessor.publish topic v).
Proof. intros s. apply (Spec.stable_publish R_stable). Qed.

Lemma preserves_modify (f : DataProcessor.t -> DataProcessor.t) :
  (forall s, R s (f s)) -> Spec.preserves R (DataProcessor.modify f).
Proof. intros H s. apply H. Qed.

Lemma preserves_bind {A B : Type} (m : DataProcessor.M A)
  (k : A -> DataProcessor.M B) :
  Spec.preserves R m -> (forall a, Spec.preserves R (k a)) ->
  Spec.preserves R (DataProcessor.bind m k).
Proof.
  intros Hm Hk s. unfold DataProcessor.bind.
  specialize (Hm s). destruct (m s) as [[a|e] s']; simpl in *.
  - apply (Spec.stable_trans R_stable) with s'; [exact Hm | apply Hk].
  - exact Hm.
Qed.

(** The continuation of a pure step only runs on what the step gave. *)
Lemma preserves_bind_lift {A B : Type} (r : result A)
  (k : A -> DataProcessor.M B) :
  (forall a, r = Ok a -> Spec.preserves R (k a)) ->
  Spec.preserves R (DataProcessor.bind (DataProcessor.lift r) k).
Proof.
  intros Hk s. unfold DataProcessor.bind, DataProcessor.lift.
  destruct r as [a|e]; simpl.
  - apply Hk. reflexivity.
  - apply (Spec.stable_refl R_stable).
Qed.

Lemma preserves_when (b : bool) (m : DataProcessor.M unit) :
  Spec.preserves R m -> Spec.preserves R (DataProcessor.when b m).
Proof.
  intros Hm. destruct b; simpl; [exact Hm | apply preserves_ret].
Qed.

Lemma preserves_try_except (body handler : DataProcessor.M unit)
  (caught : exn -> bool) :
  Spec.preserves R body -> Spec.preserves R handler ->
  Spec.preserves R (DataProcessor.try_except body caught handler).
Proof.
  intros Hb Hh s. unfold DataProcessor.try_except.
  specialize (Hb s). destruct (body s) as [[a|e] s']; simpl in *; [exact Hb|].
  destruct (caught e); simpl; [|exact Hb].
  apply (Spec.stable_trans R_stable) with s'; [exact Hb | apply Hh].
Qed.

Lemma preserves_try_log (body : DataProcessor.M unit) :
  Spec.preserves R body -> Spec.preserves R (DataProcessor.try_log body).
Proof.
  intros Hb. apply preserves_try_except; [exact Hb | apply preserves_ret].
Qed.

Lemma preserves_for_each {A : Type} (l : list A) (body : A -> DataProcessor.M unit) :
  (forall x, Spec.preserves R (body x)) ->
  Spec.preserves R (DataProcessor.for_each l body).
Proof.
  intros Hb. induction l as [|x l IH]; simpl.
  - apply preserves_ret.
  - apply preserves_bind; [apply Hb | intros _; exact IH].
Qed.

(** What follows a step continues from where the step arrived. *)
Lemma bind_continues {A B : Type} (m : DataProcessor.M A)
  (k : A -> DataProcessor.M B) (s : DataProcessor.t) :
  (forall a, Spec.preserves R (k a)) ->
  R (snd (m s)) (snd (DataProcessor.bind m k s)).
Proof.
  intros Hk. unfold DataProcessor.bind.
  destruct (m s) as [[a|e] s']; simpl.
  - apply Hk.
  - apply (Spec.stable_refl R_stable).
Qed.

End Preservation.

(** Decomposes a goal [preserves R m] along the structure of [m];
    [preserve_known] holds the methods already dealt with. *)
Ltac preserve_known H := fail.

Ltac preserve H :=
  repeat first
    [ preserve_known H
    | match goal with
      | |- Spec.preserves _ (DataProcessor.modify _) =>
          apply preserves_modify; intro
      end
    | apply (preserves_ret H)
    | apply (preserves_lift H)
    | apply (preserves_gets H)
    | apply (preserves_publish H)
    | apply (preserves_bind H); [|intro]
    | apply (preserves_when H)
    | apply (preserves_try_log H)
    | apply (preserves_try_except H)
    | apply (preserves_for_each H); intro
    | match goal with
      | |- Spec.preserves _ (match ?x with _ => _ end) => destruct x
      end ].

Lemma extends_log_stable : Spec.stable Spec.extends_log.
Proof.
  split.
  - intros s. exists []. now rewrite app_nil_r.
  - intros a b c [r1 H1] [r2 H2]. exists (r1 ++ r2).
    rewrite H2, H1. now rewrite app_assoc.
  - intros topic v s. exists [(topic, v)]. reflexivity.
Qed.

Lemma same_fallback_stable : Spec.stable Spec.same_fallback.
Proof.
  split.
  - intros s. split; reflexivity.
  - intros a b c [H1 H2] [H3 H4]. split; congruence.
  - intros topic v s. split; reflexivity.
Qed.

(** *** What the messages added by a method look like *)

Section Building.

Variable R : DataProcessor.t -> DataProcessor.t -> Prop.
Hypothesis R_refl : forall s, R s s.
Hypothesis R_trans : forall a b c, R a b -> R b c -> R a c.

Lemma builds_ret {A : Type} (a : A) : Spec.preserves R (DataProcessor.ret a).
Proof. intros s. apply R_refl. Qed.

Lemma builds_lift {A : Type} (r : result A) :
  Spec.preserves R (DataProcessor.lift r).
Proof. intros s. apply R_refl. Qed.

Lemma builds_gets {A : Type} (f : DataProcessor.t -> A) :
  Spec.preserves R (DataProcessor.gets f).
Proof. intros s. apply R_refl. Qed.

Lemma builds_bind {A B : Type} (m : DataProcessor.M A)
  (k : A -> DataProcessor.M B) :
  Spec.preserves R m -> (forall a, Spec.preserves R (k a)) ->
  Spec.preserves R (DataProcessor.bind m k).
Proof.
  intros Hm Hk s. unfold DataProcessor.bind.
  specialize (Hm s). destruct (m s) as [[a|e] s']; simpl in *.
  - apply R_trans with s'; [exact Hm | apply Hk].
  - exact Hm.
Qed.

(** The body of a guard only runs when the guard holds. *)
Lemma builds_when (b : bool) (m : DataProcessor.M unit) :
  (b = true -> Spec.preserves R m) -> Spec.preserves R (DataProcessor.when b m).
Proof.
  intros Hm. destruct b; simpl; [apply Hm; reflexivity | apply builds_ret].
Qed.

Lemma builds_try_except (body handler : DataProcessor.M unit)
  (caught : exn -> bool) :
  Spec.preserves R body -> Spec.preserves R handler ->
  Spec.preserves R (DataProcessor.try_except body caught handler).
Proof.
  intros Hb Hh s. unfold DataProcessor.try_except.
  specialize (Hb s). destruct (body s) as [[a|e] s']; simpl in *; [exact Hb|].
  destruct (caught e); simpl; [|exact Hb].
  apply R_trans with s'; [exact Hb | apply Hh].
Qed.

Lemma builds_try_log (body : DataProcessor.M unit) :
  Spec.preserves R body -> Spec.preserves R (DataProcessor.try_log body).
Proof.
  intros Hb. apply builds_try_except; [exact Hb | apply builds_ret].
Qed.

Lemma builds_for_each {A : Type} (l : list A) (body : A -> DataProcessor.M unit) :
  (forall x, In x l -> Spec.preserves R (body x)) ->
  Spec.preserves R (DataProcessor.for_each l body).
Proof.
  induction l as [|x l IH]; intros Hb; simpl.
  - apply builds_ret.
  - apply builds_bind.
    + apply Hb. left. reflexivity.
    + intros _. apply IH. intros y Hy. apply Hb. right. exact Hy.
Qed.

End Building.

Section Adding.

Variable Q : string * value -> Prop.

Lemma adds_refl (s : DataProcessor.t) : Laws.adds Q s s.
Proof. exists []. split; [now rewrite app_nil_r | constructor]. Qed.

Lemma adds_trans (a b c : DataProcessor.t) :
  Laws.adds Q a b -> Laws.adds Q b c -> Laws.adds Q a c.
Proof.
  intros [r1 [H1 F1]] [r2 [H2 F2]]. exists (r1 ++ r2). split.
  - rewrite H2, H1. now rewrite app_assoc.
  - apply Forall_app. split; assumption.
Qed.

Lemma adds_publish (topic : string) (v : value) :
  Q (topic, v) -> Spec.preserves (Laws.adds Q) (DataProcessor.publish topic v).
Proof.
  intros Hq s. exists [(topic, v)]. split; [reflexivity|].
  constructor; [exact Hq | constructor].
Qed.

Lemma adds_modify (f : DataProcessor.t -> DataProcessor.t) :
  (forall s, DataProcessor.mqtt_publisher (f s) = DataProcessor.mqtt_publisher s) ->
  Spec.preserves (Laws.adds Q) (DataProcessor.modify f).
Proof.
  intros Hf s. exists []. split; [|constructor].
  simpl. rewrite Hf. now rewrite app_nil_r.
Qed.

End Adding.

(** Decomposes a goal [preserves (adds Q) m] along the structure of [m]
    and leaves what is to be shown of each message published. *)
Ltac added Q :=
  repeat first
    [ match goal with
      | |- Spec.preserves _ (DataProcessor.modify _) =>
          apply adds_modify; intro; reflexivity
      end
    | apply (@builds_ret _ (adds_refl Q))
    | apply (@builds_lift _ (adds_refl Q))
    | apply (@builds_gets _ (adds_refl Q))
    | match goal with
      | |- Spec.preserves _ (DataProcessor.publish _ _) => apply adds_publish
      end
    | apply (@builds_bind _ (@adds_trans Q)); [|intro]
    | apply (@builds_when _ (adds_refl Q)); intro
    | apply (@builds_try_log _ (adds_refl Q) (@adds_trans Q))
    | apply (@builds_try_except _ (@adds_trans Q))
    | apply (@builds_for_each _ (adds_refl Q) (@adds_trans Q)); intros ? ?
    | match goal with
      | |- Spec.preserves _ (match ?x with _ => _ end) => destruct x
      end ].

Lemma for_each_runs (R : DataProcessor.t -> DataProcessor.t -> Prop)
  (R_refl : forall s, R s s)
  (R_trans : forall a b c, R a b -> R b c -> R a c)
  {A : Type} (P : A -> Prop) (body : A -> DataProcessor.M unit) :
  (forall x s, P x -> exists s', body x s = (Ok tt, s') /\ R s s') ->
  forall l, Forall P l ->
  forall s, exists s', DataProcessor.for_each l body s = (Ok tt, s') /\ R s s'.
Proof.
  intros Hbody l Hl. induction Hl as [|x l Hx _ IH]; intros s; simpl.
  - exists s. split; [reflexivity | apply R_refl].
  - destruct (Hbody x s Hx) as [s1 [E1 X1]].
    destruct (IH s1) as [s2 [E2 X2]].
    exists s2. split.
    + unfold DataProcessor.bind. rewrite E1. exact E2.
    + apply R_trans with s1; assumption.
Qed.

(** *** Lists and ranges *)

Lemma index_nth (l : list json) (i : Z) :
  0 <= i < Z.of_nat (List.length l) ->
  index (JList l) i = Ok (nth (Z.to_nat i) l JNull).
Proof.
  intros Hi. unfold index. cbv zeta.
  assert (E0 : (i <? 0) = false) by (apply Z.ltb_ge; lia).
  assert (E1 : ((0 <=? i) && (i <? Z.of_nat (List.length l))) = true).
  { apply andb_true_intro. split; [apply Z.leb_le | apply Z.ltb_lt]; lia. }
  rewrite E0, E1.
  rewrite (@nth_error_nth' _ l (Z.to_nat i) JNull) by lia. reflexivity.
Qed.

Lemma range_in (n i : Z) : In i (DataProcessor.range n) -> 0 <= i < n.
Proof.
  unfold DataProcessor.range. intros H.
  apply in_map_iff in H. destruct H as [k [Hk Hin]].
  apply in_seq in Hin. lia.
Qed.

(** *** Self-consumption of the day *)

Lemma self_consumption_keeps_fallback
  (today yesterday : string) (data : json) :
  Spec.today_row_used today yesterday data = false ->
  Spec.preserves Spec.same_fallback
    (DataProcessor.process_self_consumption today yesterday data).
Proof.
  unfold Spec.today_row_used, DataProcessor.process_self_consumption.
  intros H.
  apply (preserves_try_log same_fallback_stable).
  apply (preserves_bind_lift same_fallback_stable). intros n Hn.
  apply (preserves_bind_lift same_fallback_stable). intros [ti yi] Hfound.
  apply (preserves_bind_lift same_fallback_stable). intros use_today Huse.
  rewrite Hn, Hfound, Huse in H. subst use_today.
  unfold DataProcessor.when at 1. cbv iota.
  preserve same_fallback_stable.
Qed.

Lemma after_calls_keep_fallback (calls : list (string * string * json)) :
  Forall (fun '(today, yesterday, data) =>
            Spec.today_row_used today yesterday data = false) calls ->
  forall s, Spec.same_fallback s (Spec.after_calls calls s).
Proof.
  induction 1 as [|[[today yesterday] data] calls Hcall _ IH]; intros s; simpl.
  - apply (Spec.stable_refl same_fallback_stable).
  - apply (Spec.stable_trans same_fallback_stable) with
      (snd (DataProcessor.process_self_consumption today yesterday data s)).
    + apply self_consumption_keeps_fallback. exact Hcall.
    + apply IH.
Qed.

(** C10. Start from a processor whose two fallback fields are as
    [__init__] leaves them (99 and 99) and let any number of calls of
    [process_self_consumption] pass, none of which used a row of today.
    A call whose scan then finds neither a row of today nor one of
    yesterday publishes [SelfCons/selfconsyesterday = 99] and
    [SelfCons/selfconsratioyesterday = 99], and nothing else. *)
Theorem fallback_sentinel_published :
  forall (s0 : DataProcessor.t) (calls : list (string * string * json))
         (today yesterday : string) (data : json) (n : Z),
    DataProcessor.last_selfcons_yesterday_fallback s0
      = DataProcessor.last_selfcons_yesterday_fallback DataProcessor.init ->
    DataProcessor.last_selfcons_ratio_yesterday_fallback s0
      = DataProcessor.last_selfcons_ratio_yesterday_fallback DataProcessor.init ->
    Forall (fun '(today, yesterday, data) =>
              Spec.today_row_used today yesterday data = false) calls ->
    len data = Ok n ->
    DataProcessor.scan_selfcons today yesterday data
      (DataProcessor.range (Z.min DAYS_TO_CHECK_HISTORY n)) None None
      = Ok (None, None) ->
    let s := Spec.after_calls calls s0 in
    DataProcessor.process_self_consumption today yesterday data s =
      (Ok tt,
       DataProcessor.set_mqtt_publisher
         (DataProcessor.mqtt_publisher s ++
          [ ("SelfCons/selfconsyesterday", VInt 99);
            ("SelfCons/selfconsratioyesterday", VInt 99) ]) s).
Proof.
  intros s0 calls today yesterday data n Hfb Hratio Hcalls Hn Hscan s.
  destruct (after_calls_keep_fallback Hcalls s0) as [Hfb' Hratio'].
  fold s in Hfb', Hratio'. rewrite Hfb in Hfb'. rewrite Hratio in Hratio'.
  simpl in Hfb', Hratio'.
  unfold DataProcessor.process_self_consumption.
  rewrite Hn, bind_lift_ok. cbv beta.
  rewrite Hscan, bind_lift_ok. cbv beta iota.
  unfold DataProcessor.try_log, DataProcessor.try_except, DataProcessor.bind,
    DataProcessor.lift, DataProcessor.gets, DataProcessor.publish,
    DataProcessor.modify, DataProcessor.when, DataProcessor.ret.
  simpl. rewrite Hfb'. simpl. rewrite Hratio'.
  unfold DataProcessor.set_mqtt_publisher. simpl.
  rewrite <- app_assoc. reflexivity.
Qed.

Lemma fallback_sentinel_published_witness :
  let s := Spec.after_calls
             [(Samples.today, Samples.yesterday, Samples.selfcons_october)]
             DataProcessor.init in
  DataProcessor.process_self_consumption Samples.today Samples.yesterday
    Samples.selfcons_october s =
    (Ok tt,
     DataProcessor.set_mqtt_publisher
       (DataProcessor.mqtt_publisher s ++
        [ ("SelfCons/selfconsyesterday", VInt 99);
          ("SelfCons/selfconsratioyesterday", VInt 99) ]) s).
Proof.
  refine (@fallback_sentinel_published DataProcessor.init
            [(Samples.today, Samples.yesterday, Samples.selfcons_october)]
            Samples.today Samples.yesterday Samples.selfcons_october
            2 eq_refl eq_refl _ eq_refl eq_refl).
  constructor; [reflexivity | constructor].
Defined.

Lemma extends_log_any_field (s s' : DataProcessor.t) :
  DataProcessor.mqtt_publisher s' = DataProcessor.mqtt_publisher s ->
  Spec.extends_log s s'.
Proof. intros H. exists []. now rewrite app_nil_r. Qed.

Lemma row_usable_two (data : json) (i : Z) (a b : json) (tl : list json) :
  index data i = Ok (JList (a :: b :: tl)) ->
  DataProcessor.row_usable data (Some i) = Ok true.
Proof.
  intros H. unfold DataProcessor.row_usable. rewrite H. simpl.
  f_equal. apply Z.ltb_lt. lia.
Qed.

Lemma second_or_zero_int (a : json) (n : Z) (tl : list json) :
  DataProcessor.second_or_zero (JList (a :: JInt n :: tl)) = Ok (or_zero (JInt n)).
Proof.
  unfold DataProcessor.second_or_zero, len, rbind.
  destruct (1 <? Z.of_nat (List.length (a :: JInt n :: tl))) eqn:E.
  2:{ apply Z.ltb_ge in E. simpl List.length in E. lia. }
  unfold index. change (1 <? 0) with false. cbv iota.
  rewrite E. reflexivity.
Qed.

Lemma or_zero_int (n : Z) :
  int (or_zero (JInt n)) = Ok n /\ number (or_zero (JInt n)) = Ok n.
Proof.
  unfold or_zero. simpl. destruct (n =? 0) eqn:E; simpl; [|split; reflexivity].
  apply Z.eqb_eq in E. subst. split; reflexivity.
Qed.

(** The ratio the method computes is the ratio of the claim. *)
Lemma round_ratio_is_formula (S Y : Z) :
  DataProcessor.round_ratio S Y = Spec.ratio_formula S Y.
Proof.
  unfold DataProcessor.round_ratio, Spec.ratio_formula.
  destruct (truediv S Y) as [q|e]; [|reflexivity]. simpl.
  destruct (round (fmul_int q 1000)) as [n|e]; reflexivity.
Qed.

(** C7. When the scan finds today's row and the row carries the
    integer [S] as today's self-consumption, with [Y] the daily yield
    seen by the last summary block: the method publishes
    [SelfCons/selfconstoday = S] and then
    [SelfCons/selfconsratiotoday], which for [Y > 0] is the value of
    the claim's formula [round(S / Y * 1000) / 10], a float, and for
    [Y = 0] the integer 0. *)
Theorem selfcons_ratio_today :
  forall (s : DataProcessor.t) (today yesterday : string) (data : json)
         (n i : Z) (yi : option Z) (d : json) (S : Z) (tl : list json),
    len data = Ok n ->
    DataProcessor.scan_selfcons today yesterday data
      (DataProcessor.range (Z.min DAYS_TO_CHECK_HISTORY n)) None None
      = Ok (Some i, yi) ->
    index data i = Ok (JList (d :: JInt S :: tl)) ->
    let Y := DataProcessor.last_yield_day s in
    let s' := snd (DataProcessor.process_self_consumption today yesterday data s) in
    (0 < Y ->
     forall f, Spec.ratio_formula S Y = Ok f ->
       exists rest,
         DataProcessor.mqtt_publisher s' =
           DataProcessor.mqtt_publisher s ++
           [ ("SelfCons/selfconstoday", VInt S);
             ("SelfCons/selfconsratiotoday", VFloat f) ] ++ rest)
    /\
    (Y = 0 ->
     exists rest,
       DataProcessor.mqtt_publisher s' =
         DataProcessor.mqtt_publisher s ++
         [ ("SelfCons/selfconstoday", VInt S);
           ("SelfCons/selfconsratiotoday", VInt 0) ] ++ rest).
Proof.
  intros s today yesterday data n i yi d S tl Hn Hscan Hrow Y s'.
  assert (Hrun : forall ratio,
             DataProcessor.day_ratio (or_zero (JInt S)) Y = Ok ratio ->
             exists rest,
               DataProcessor.mqtt_publisher s' =
                 DataProcessor.mqtt_publisher s ++
                 [ ("SelfCons/selfconstoday", VInt S);
                   ("SelfCons/selfconsratiotoday", ratio) ] ++ rest).
  { intros ratio Hratio. subst s' Y.
    unfold DataProcessor.process_self_consumption.
    rewrite try_log_snd.
    rewrite Hn, bind_lift_ok. cbv beta.
    rewrite Hscan, bind_lift_ok. cbv beta iota.
    rewrite (row_usable_two _ _ Hrow), bind_lift_ok. cbv beta.
    unfold DataProcessor.when at 1.
    match goal with
    | |- exists rest, DataProcessor.mqtt_publisher
                        (snd (DataProcessor.bind ?m ?k s)) = _ =>
        assert (Hk : forall a, Spec.preserves Spec.extends_log (k a));
        [ | assert (Hm : exists rest1,
                     DataProcessor.mqtt_publisher (snd (m s)) =
                       DataProcessor.mqtt_publisher s ++
                       [ ("SelfCons/selfconstoday", VInt S);
                         ("SelfCons/selfconsratiotoday", ratio) ] ++ rest1);
          [ | destruct Hm as [rest1 Hm];
              destruct (@bind_continues Spec.extends_log extends_log_stable _ _ m k s Hk)
                as [rest2 H2];
              exists (rest1 ++ rest2); rewrite H2, Hm;
              repeat rewrite <- app_assoc; reflexivity ] ]
    end.
    - intros _. preserve extends_log_stable.
    - rewrite Hrow, bind_lift_ok. cbv beta.
      rewrite second_or_zero_int, bind_lift_ok. cbv beta.
      rewrite (proj1 (or_zero_int S)), bind_lift_ok. cbv beta.
      rewrite bind_publish_run, bind_gets_run.
      simpl DataProcessor.last_yield_day.
      rewrite Hratio, bind_lift_ok. cbv beta.
      rewrite bind_publish_run.
      match goal with
      | |- exists rest1, DataProcessor.mqtt_publisher (snd (?tail ?s2)) = _ =>
          assert (Ht : Spec.extends_log s2 (snd (tail s2)))
      end.
      { apply (preserves_bind extends_log_stable).
        - apply preserves_modify. intros s1.
          apply extends_log_any_field. reflexivity.
        - intros _. unfold DataProcessor.publish_battery_sums.
          preserve extends_log_stable. }
      destruct Ht as [rest1 Ht]. exists rest1. rewrite Ht. simpl.
      repeat rewrite <- app_assoc. reflexivity. }
  split.
  - intros HY f Hf. apply Hrun. unfold DataProcessor.day_ratio.
    apply Z.ltb_lt in HY. rewrite HY.
    rewrite (proj2 (or_zero_int S)). simpl rbind.
    rewrite round_ratio_is_formula, Hf. reflexivity.
  - intros HY. apply Hrun. unfold DataProcessor.day_ratio. rewrite HY. reflexivity.
Qed.

Lemma selfcons_ratio_today_witness :
  Spec.ratio_formula 1234 5000 = Ok 24.7%float /\
  exists rest,
    DataProcessor.mqtt_publisher
      (snd (DataProcessor.process_self_consumption Samples.today Samples.yesterday
              Samples.selfcons_with_today Samples.yield_5000)) =
      DataProcessor.mqtt_publisher Samples.yield_5000 ++
      [ ("SelfCons/selfconstoday", VInt 1234);
        ("SelfCons/selfconsratiotoday", VFloat 24.7) ] ++ rest.
Proof.
  assert (Hf : Spec.ratio_formula 1234 5000 = Ok 24.7%float)
    by (vm_compute; reflexivity).
  split; [exact Hf|].
  refine (proj1 (@selfcons_ratio_today Samples.yield_5000 Samples.today
                   Samples.yesterday Samples.selfcons_with_today 2 1 None
                   (JStr "03.11.26") 1234 [] eq_refl eq_refl eq_refl) _ 24.7%float Hf).
  reflexivity.
Defined.

(** *** Historic aggregates *)

Lemma float_neq (a b : float) : Prim2SF a <> Prim2SF b -> a <> b.
Proof. intros H E. apply H. now rewrite E. Qed.

Lemma index_last (pre : list json) (a b : json) :
  index (JList (pre ++ [a; b])) (-1) = Ok b.
Proof.
  unfold index. change (-1 <? 0) with true. cbv iota.
  rewrite length_app. simpl List.length.
  assert (E : Z.of_nat (List.length pre + 2) + -1 = Z.of_nat (List.length pre + 1))
    by lia.
  rewrite E.
  assert (C : ((0 <=? Z.of_nat (List.length pre + 1))
               && (Z.of_nat (List.length pre + 1) <? Z.of_nat (List.length pre + 2)))
              = true).
  { apply andb_true_intro. split; [apply Z.leb_le | apply Z.ltb_lt]; lia. }
  rewrite C, Nat2Z.id.
  rewrite nth_error_app2 by lia.
  replace (List.length pre + 1 - List.length pre)%nat with 1%nat by lia.
  reflexivity.
Qed.

Lemma index_before_last (pre : list json) (a b : json) :
  index (JList (pre ++ [a; b])) (-2) = Ok a.
Proof.
  unfold index. change (-2 <? 0) with true. cbv iota.
  rewrite length_app. simpl List.length.
  assert (E : Z.of_nat (List.length pre + 2) + -2 = Z.of_nat (List.length pre))
    by lia.
  rewrite E.
  assert (C : ((0 <=? Z.of_nat (List.length pre))
               && (Z.of_nat (List.length pre) <? Z.of_nat (List.length pre + 2)))
              = true).
  { apply andb_true_intro. split; [apply Z.leb_le | apply Z.ltb_lt]; lia. }
  rewrite C, Nat2Z.id.
  rewrite nth_error_app2 by lia.
  replace (List.length pre - List.length pre)%nat with 0%nat by lia.
  reflexivity.
Qed.

Lemma len_two_more (pre : list json) (a b : json) :
  exists n, len (JList (pre ++ [a; b])) = Ok n /\ (2 <=? n) = true.
Proof.
  exists (Z.of_nat (List.length (pre ++ [a; b]))). split; [reflexivity|].
  apply Z.leb_le. rewrite length_app. simpl. lia.
Qed.

(** A period row with a positive consumption gives its value and its
    ratio. *)
Lemma publish_period_run (date yield : json) (cons selfcons : Z) (f : float)
  (value_topic ratio_topic : string) (s : DataProcessor.t) :
  0 < cons ->
  DataProcessor.round_ratio (selfcons * 1000) cons = Ok f ->
  DataProcessor.publish_period
    (JList [date; yield; JInt cons; JInt selfcons]) value_topic ratio_topic s =
  (Ok tt,
   DataProcessor.set_mqtt_publisher
     (DataProcessor.mqtt_publisher s ++
      [(value_topic, VInt selfcons); (ratio_topic, VFloat f)]) s).
Proof.
  intros Hcons Hf. unfold DataProcessor.publish_period.
  assert (Hz : number (or_zero (JInt cons)) = Ok cons).
  { unfold or_zero. simpl. destruct (cons =? 0) eqn:E; simpl; [|reflexivity].
    apply Z.eqb_eq in E. lia. }
  apply Z.ltb_lt in Hcons.
  cbn [len List.length]. rewrite bind_lift_ok. cbv beta.
  change (4 <=? Z.of_nat 4) with true. unfold DataProcessor.when at 1. cbv iota.
  change (index (JList [date; yield; JInt cons; JInt selfcons]) 3)
    with (@Ok json (JInt selfcons)).
  change (index (JList [date; yield; JInt cons; JInt selfcons]) 2)
    with (@Ok json (JInt cons)).
  rewrite bind_lift_ok. cbv beta.
  cbn [int]. rewrite bind_lift_ok. cbv beta.
  rewrite bind_publish_run, bind_lift_ok. cbv beta.
  rewrite Hz, bind_lift_ok. cbv beta. rewrite Hcons.
  unfold DataProcessor.when. cbn [number].
  rewrite bind_lift_ok. cbv beta. rewrite Hf, bind_lift_ok. cbv beta.
  unfold DataProcessor.publish, DataProcessor.modify,
    DataProcessor.set_mqtt_publisher. simpl.
  rewrite <- app_assoc. reflexivity.
Qed.

Lemma preserves_publish_period (R : DataProcessor.t -> DataProcessor.t -> Prop)
  (H : Spec.stable R) (row0 : json) (value_topic ratio_topic : string) :
  Spec.preserves R (DataProcessor.publish_period row0 value_topic ratio_topic).
Proof. unfold DataProcessor.publish_period. preserve H. Qed.

Lemma preserves_publish_month_entry
  (R : DataProcessor.t -> DataProcessor.t -> Prop) (H : Spec.stable R)
  (entry : json) :
  Spec.preserves R (DataProcessor.publish_month_entry entry).
Proof. unfold DataProcessor.publish_month_entry. preserve H. Qed.

Lemma preserves_publish_year_entry
  (R : DataProcessor.t -> DataProcessor.t -> Prop) (H : Spec.stable R)
  (entry : json) :
  Spec.preserves R (DataProcessor.publish_year_entry entry).
Proof. unfold DataProcessor.publish_year_entry. preserve H. Qed.

Ltac preserve_known H ::=
  first [ apply (preserves_publish_period H)
        | apply (preserves_publish_month_entry H)
        | apply (preserves_publish_year_entry H) ].

Lemma ratio_15_90 : DataProcessor.round_ratio (15 * 1000) 90 = Ok 16666.7%float.
Proof. vm_compute. reflexivity. Qed.

Lemma ratio_10_80 : DataProcessor.round_ratio (10 * 1000) 80 = Ok 12500%float.
Proof. vm_compute. reflexivity. Qed.

(** C4, as stated, fails: on the rows of the scenario the ratios
    published are 16666.7 and 12500.0, not 16.7 and 12.5. *)
Lemma historic_ratio_not_one_decimal_percent :
  Spec.selfcons_messages
    (DataProcessor.mqtt_publisher
       (snd (DataProcessor.process_historic_response ""
               Samples.historic_months DataProcessor.init))) =
    [ ("SelfCons/selfconsmonth", VInt 15);
      ("SelfCons/selfconsratiomonth", VFloat 16666.7);
      ("SelfCons/selfconslastmonth", VInt 10);
      ("SelfCons/selfconsratiolastmonth", VFloat 12500) ]
  /\ 16666.7%float <> 16.7%float
  /\ 12500%float <> 12.5%float.
Proof.
  split; [vm_compute; reflexivity|].
  split; apply float_neq; vm_compute; discriminate.
Qed.

(** The month aggregate, from any state and whatever follows it. *)
Lemma month_rows_published (s : DataProcessor.t) (pre : list json) (d0 d1 : json)
  (after : DataProcessor.M unit) :
  Spec.preserves Spec.extends_log after ->
  exists rest,
    DataProcessor.mqtt_publisher
      (snd (DataProcessor.bind
              (DataProcessor.process_877
                 (JList (pre ++ [ JList [d0; JInt 100; JInt 80; JInt 10];
                                  JList [d1; JInt 120; JInt 90; JInt 15] ])))
              (fun _ => after) s)) =
      DataProcessor.mqtt_publisher s ++
      [ ("SelfCons/selfconsmonth", VInt 15);
        ("SelfCons/selfconsratiomonth", VFloat 16666.7);
        ("SelfCons/selfconslastmonth", VInt 10);
        ("SelfCons/selfconsratiolastmonth", VFloat 12500) ] ++ rest.
Proof.
  intros Hafter.
  set (r0 := JList [d0; JInt 100; JInt 80; JInt 10]) in *.
  set (r1 := JList [d1; JInt 120; JInt 90; JInt 15]) in *.
  (* periods of 877, then its series, then what follows *)
  assert (Hperiods :
            forall n, (2 <=? n) = true ->
            DataProcessor.mqtt_publisher
              (snd (DataProcessor.when (2 <=? n)
                      (DataProcessor.bind
                         (DataProcessor.lift (index (JList (pre ++ [r0; r1])) (-1)))
                         (fun current_month =>
                            DataProcessor.bind
                              (DataProcessor.publish_period current_month
                                 "SelfCons/selfconsmonth"
                                 "SelfCons/selfconsratiomonth")
                              (fun _ =>
                                 DataProcessor.when (2 <=? n)
                                   (DataProcessor.bind
                                      (DataProcessor.lift
                                         (index (JList (pre ++ [r0; r1])) (-2)))
                                      (fun last_month =>
                                         DataProcessor.publish_period last_month
                                           "SelfCons/selfconslastmonth"
                                           "SelfCons/selfconsratiolastmonth")))))
                      s)) =
            DataProcessor.mqtt_publisher s ++
            [ ("SelfCons/selfconsmonth", VInt 15);
              ("SelfCons/selfconsratiomonth", VFloat 16666.7);
              ("SelfCons/selfconslastmonth", VInt 10);
              ("SelfCons/selfconsratiolastmonth", VFloat 12500) ]).
  { intros n Hn. rewrite Hn. unfold DataProcessor.when.
    rewrite index_last, bind_lift_ok. cbv beta.
    rewrite index_before_last.
    unfold r1 at 1.
    erewrite bind_ok;
      [ | apply publish_period_run; [lia | exact ratio_15_90] ].
    rewrite bind_lift_ok. cbv beta. unfold r0 at 1.
    rewrite publish_period_run with (f := 12500%float);
      [ | lia | exact ratio_10_80 ].
    simpl. rewrite <- app_assoc. reflexivity. }
  destruct (len_two_more pre r0 r1) as [n [Hlen Hn]].
  match goal with
  | |- exists rest, DataProcessor.mqtt_publisher
                      (snd (DataProcessor.bind ?m ?k s)) = _ =>
      destruct (@bind_continues Spec.extends_log extends_log_stable _ _ m k s
                  (fun _ => Hafter)) as [rest2 H2]
  end.
  rewrite H2. clear H2.
  unfold DataProcessor.process_877.
  rewrite Hlen, bind_lift_ok. cbv beta.
  match goal with
  | |- exists rest, DataProcessor.mqtt_publisher
                      (snd (DataProcessor.bind ?m ?k s)) ++ _ = _ =>
      assert (Hk : forall a, Spec.preserves Spec.extends_log (k a));
      [ intros _; preserve extends_log_stable
      | destruct (@bind_continues Spec.extends_log extends_log_stable _ _ m k s Hk)
          as [rest1 H1] ]
  end.
  rewrite H1, (Hperiods n Hn).
  exists (rest1 ++ rest2). repeat rewrite <- app_assoc. reflexivity.
Qed.

Lemma prefix_empty (x : string) : String.prefix "" x = true.
Proof. destruct x; reflexivity. Qed.

Lemma range_nonnegative {A : Type} (n : Z) (l : list A) :
  Forall (fun p : Z * A => 0 <= fst p) (List.combine (DataProcessor.range n) l).
Proof.
  apply Forall_forall. intros [i x] Hin.
  apply in_combine_l in Hin. apply range_in in Hin. simpl. lia.
Qed.

(** Block 854 as the device sends it decodes without an exception and
    publishes yearly yields only. *)
Lemma block_854_decoded (rows : list json) (s : DataProcessor.t) :
  List.forallb Spec.year_row rows = true ->
  exists s',
    DataProcessor.process_854 (JList rows) s = (Ok tt, s') /\
    Laws.adds Spec.yearly_yield_message s s'.
Proof.
  intros Hrows. unfold DataProcessor.process_854.
  change (len (JList rows)) with (Ok (A := Z) (Z.of_nat (List.length rows))).
  rewrite bind_lift_ok. cbv beta.
  change (DataProcessor.iterate (JList rows)) with (Ok (A := list json) rows).
  rewrite bind_lift_ok. cbv beta.
  rewrite bind_gets_run.
  set (names := DataProcessor.inverter_names s).
  apply (@for_each_runs _ (adds_refl Spec.yearly_yield_message)
           (@adds_trans Spec.yearly_yield_message) _
           (fun r => Spec.year_row r = true)).
  2:{ apply Forall_forall. intros r Hin.
      rewrite forallb_forall in Hrows. apply Hrows. exact Hin. }
  clear Hrows. intros r s1 Hr.
  destruct r as [|b0|n0|s0|[|d0 [|e1 tl]]|dd]; simpl in Hr; try discriminate Hr;
    destruct d0 as [|b0|n0|date|l0|dd]; simpl in Hr; try discriminate Hr.
  assert (Hlen : len (JList (JStr date :: e1 :: tl))
                 = Ok (Z.of_nat (List.length (JStr date :: e1 :: tl))))
    by reflexivity.
  assert (H2 : (2 <=? Z.of_nat (List.length (JStr date :: e1 :: tl))) = true)
    by (apply Z.leb_le; simpl List.length; lia).
  rewrite Hlen, bind_lift_ok. cbv beta. rewrite H2.
  rewrite (@index_nth (JStr date :: e1 :: tl) 1) by (simpl List.length; lia).
  rewrite bind_lift_ok. cbv beta.
  change (nth (Z.to_nat 1) (JStr date :: e1 :: tl) JNull) with e1.
  destruct e1 as [|b1|n1|s2|vals|dd]; simpl in Hr; try discriminate Hr.
  - exists s1. split; [reflexivity | apply adds_refl].
  - destruct vals as [|v vals].
    + exists s1. split; [reflexivity | apply adds_refl].
    + cbn [truthy andb DataProcessor.when].
      rewrite (@index_nth (JStr date :: JList (v :: vals) :: tl) 0)
        by (simpl List.length; lia).
      rewrite bind_lift_ok. cbv beta.
      change (nth (Z.to_nat 0) (JStr date :: JList (v :: vals) :: tl) JNull)
        with (JStr date).
      change (slice_last2 (JStr date))
        with (Ok (A := json)
                (JStr (drop_string (String.length date - 2) date))).
      rewrite bind_lift_ok. cbv beta.
      apply (@for_each_runs _ (adds_refl Spec.yearly_yield_message)
               (@adds_trans Spec.yearly_yield_message) _
               (fun p : Z * string => 0 <= fst p)).
      2:{ apply range_nonnegative. }
      intros [inu inverter_name] s0 Hinu. simpl in Hinu.
      change (len (JList (v :: vals)))
        with (Ok (A := Z) (Z.of_nat (List.length (v :: vals)))).
      rewrite bind_lift_ok. cbv beta.
      destruct (inu <? Z.of_nat (List.length (v :: vals))) eqn:Em.
      * apply Z.ltb_lt in Em.
        rewrite (@index_nth (v :: vals) inu) by lia.
        rewrite bind_lift_ok. cbv beta.
        destruct (truthy (nth (Z.to_nat inu) (v :: vals) JNull)).
        -- cbn [andb DataProcessor.when]. eexists. split; [reflexivity|].
           apply adds_publish. unfold Spec.yearly_yield_message. simpl.
           apply prefix_empty.
        -- exists s0. split; [reflexivity | apply adds_refl].
      * rewrite bind_lift_ok. cbv beta.
        exists s0. split; [reflexivity | apply adds_refl].
Qed.

(** C4, amended. When block 854, if the payload has one, is as the
    device sends it (rows of a date string and the list of yearly
    yields, or [None] in its place) and the month aggregate (877) ends
    with the rows [[d0,100,80,10]] and [[d1,120,90,15]], the historic
    decoder publishes, after the yearly yields per inverter of 854 and
    before anything else, current-month self-consumption 15 with ratio
    [round(((15 * 1000) / 90) * 1000) / 10 = 16666.7], then last-month
    self-consumption 10 with ratio
    [round(((10 * 1000) / 80) * 1000) / 10 = 12500.0]. *)
Theorem historic_month_scenario :
  forall (s : DataProcessor.t) (req_data : string) (data : dict)
         (pre : list json) (d0 d1 : json),
    Spec.block_854_decodes (dict_get data (KStr "854")) = true ->
    dict_get data (KStr "877") =
      Some (JList (pre ++ [ JList [d0; JInt 100; JInt 80; JInt 10];
                            JList [d1; JInt 120; JInt 90; JInt 15] ])) ->
    exists yearly rest,
      Forall Spec.yearly_yield_message yearly /\
      DataProcessor.mqtt_publisher
        (snd (DataProcessor.process_historic_response req_data data s)) =
        DataProcessor.mqtt_publisher s ++ yearly ++
        [ ("SelfCons/selfconsmonth", VInt 15);
          ("SelfCons/selfconsratiomonth", VFloat 16666.7);
          ("SelfCons/selfconslastmonth", VInt 10);
          ("SelfCons/selfconsratiolastmonth", VFloat 12500) ] ++ rest.
Proof.
  intros s req_data data pre d0 d1 H854 H877.
  unfold DataProcessor.process_historic_response.
  rewrite try_log_snd, H877.
  assert (Hfirst :
            exists s1,
              match dict_get data (KStr "854") with
              | Some d => DataProcessor.process_854 d
              | None => DataProcessor.ret tt
              end s = (Ok tt, s1) /\
              Laws.adds Spec.yearly_yield_message s s1).
  { destruct (dict_get data (KStr "854")) as [[|b0|n0|s0|rows|dd]|];
      try discriminate H854.
    - apply block_854_decoded. exact H854.
    - exists s. split; [reflexivity | apply adds_refl]. }
  destruct Hfirst as [s1 [E1 [yearly [Hlog Hyearly]]]].
  rewrite (@bind_ok _ _ _ _ _ _ _ E1).
  match goal with
  | |- context [DataProcessor.bind (DataProcessor.process_877 _) (fun _ => ?after) s1] =>
      destruct (@month_rows_published s1 pre d0 d1 after) as [rest Hrest];
      [ preserve extends_log_stable | ]
  end.
  exists yearly, rest. split; [exact Hyearly|].
  rewrite Hrest, Hlog. rewrite <- app_assoc. reflexivity.
Qed.

Lemma historic_month_scenario_witness :
  exists yearly rest,
    Forall Spec.yearly_yield_message yearly /\
    DataProcessor.mqtt_publisher
      (snd (DataProcessor.process_historic_response HISTORIC_DATA
              Samples.historic_full Samples.three_devices)) =
      DataProcessor.mqtt_publisher Samples.three_devices ++ yearly ++
      [ ("SelfCons/selfconsmonth", VInt 15);
        ("SelfCons/selfconsratiomonth", VFloat 16666.7);
        ("SelfCons/selfconslastmonth", VInt 10);
        ("SelfCons/selfconsratiolastmonth", VFloat 12500) ] ++ rest.
Proof.
  exact (@historic_month_scenario Samples.three_devices HISTORIC_DATA
           Samples.historic_full
           [Samples.row "01.02.26" 80 70 5; Samples.row "01.03.26" 90 75 20]
           (JStr "01.04.26") (JStr "01.05.26") eq_refl eq_refl).
Defined.

Lemma for_each_total {A : Type} (P : A -> Prop)
  (body : A -> DataProcessor.M unit) :
  (forall x s, P x ->
     exists s', body x s = (Ok tt, s') /\ Spec.extends_log s s') ->
  forall l, Forall P l ->
  forall s,
    exists s', DataProcessor.for_each l body s = (Ok tt, s')
               /\ Spec.extends_log s s'.
Proof.
  intros Hbody l Hl. induction Hl as [|x l Hx _ IH]; intros s; simpl.
  - exists s. split; [reflexivity | apply (Spec.stable_refl extends_log_stable)].
  - destruct (Hbody x s Hx) as [s1 [E1 X1]].
    destruct (IH s1) as [s2 [E2 X2]].
    exists s2. split.
    + rewrite (@bind_ok _ _ _ _ _ _ _ E1). exact E2.
    + apply (Spec.stable_trans extends_log_stable) with s1; assumption.
Qed.

Lemma index_first (a b : json) (tl : list json) :
  index (JList (a :: b :: tl)) 0 = Ok a /\ index (JList (a :: b :: tl)) 1 = Ok b.
Proof.
  unfold index. change (0 <? 0) with false. change (1 <? 0) with false. cbv iota.
  assert (C0 : ((0 <=? 0) && (0 <? Z.of_nat (List.length (a :: b :: tl)))) = true).
  { apply andb_true_intro. split; [reflexivity | apply Z.ltb_lt]. simpl. lia. }
  assert (C1 : ((0 <=? 1) && (1 <? Z.of_nat (List.length (a :: b :: tl)))) = true).
  { apply andb_true_intro. split; [reflexivity | apply Z.ltb_lt]. simpl. lia. }
  rewrite C0, C1. split; reflexivity.
Qed.

Lemma len_first (a b : json) (tl : list json) :
  exists n, len (JList (a :: b :: tl)) = Ok n
            /\ (2 <=? n) = true /\ (1 <? n) = true.
Proof.
  exists (Z.of_nat (List.length (a :: b :: tl))). split; [reflexivity|].
  split; [apply Z.leb_le | apply Z.ltb_lt]; simpl; lia.
Qed.

(** C5, as stated, fails: on four month rows [/months.json] takes the
    current month from the first row (5) and the last month from the
    second (20), where the 877 payload with the same rows takes them
    from the last (15) and the one before it (10); [/years.json] does
    the same against 878. *)
Lemma static_json_rows_are_not_the_last_two :
  Spec.selfcons_messages
    (DataProcessor.mqtt_publisher
       (snd (DataProcessor.process_months_json (JList Samples.four_months)
               DataProcessor.init))) =
    [ ("SelfCons/selfconsmonth", VInt 5);
      ("SelfCons/selfconsratiomonth", VFloat 7142.9);
      ("SelfCons/selfconslastmonth", VInt 20);
      ("SelfCons/selfconsratiolastmonth", VFloat 26666.7) ]
  /\
  Spec.selfcons_messages
    (DataProcessor.mqtt_publisher
       (snd (DataProcessor.process_historic_response ""
               [(KStr "877", JList Samples.four_months)] DataProcessor.init))) =
    [ ("SelfCons/selfconsmonth", VInt 15);
      ("SelfCons/selfconsratiomonth", VFloat 16666.7);
      ("SelfCons/selfconslastmonth", VInt 10);
      ("SelfCons/selfconsratiolastmonth", VFloat 12500) ]
  /\
  Spec.selfcons_messages
    (DataProcessor.mqtt_publisher
       (snd (DataProcessor.process_years_json (JList Samples.four_years)
               DataProcessor.init))) =
    [ ("SelfCons/selfconsyear", VInt 50);
      ("SelfCons/selfconsratioyear", VFloat 7142.9);
      ("SelfCons/selfconslastyear", VInt 200);
      ("SelfCons/selfconsratiolastyear", VFloat 26666.7) ]
  /\
  Spec.selfcons_messages
    (DataProcessor.mqtt_publisher
       (snd (DataProcessor.process_historic_response ""
               [(KStr "878", JList Samples.four_years)] DataProcessor.init))) =
    [ ("SelfCons/selfconsyear", VInt 150);
      ("SelfCons/selfconsratioyear", VFloat 16666.7);
      ("SelfCons/selfconslastyear", VInt 100);
      ("SelfCons/selfconsratiolastyear", VFloat 12500) ].
Proof.
  repeat split; vm_compute; reflexivity.
Qed.

(** C5, amended. On an array of well-formed rows, [/months.json] and
    [/years.json] publish the dated series and then take the current
    period from the row at index 0 and the previous period from the row
    at index 1: each gives its self-consumption and, its consumption
    being positive, the ratio [round(((selfcons * 1000) / cons) * 1000)
    / 10]. *)
Theorem static_json_first_two_rows :
  forall (s : DataProcessor.t) (d0 d1 : string) (y0 c0 s0 y1 c1 s1 : Z)
         (f0 f1 : float) (others : list json),
    Forall Spec.series_row others ->
    0 < c0 -> 0 < c1 ->
    DataProcessor.round_ratio (s0 * 1000) c0 = Ok f0 ->
    DataProcessor.round_ratio (s1 * 1000) c1 = Ok f1 ->
    let data :=
      JList (JList [JStr d0; JInt y0; JInt c0; JInt s0]
             :: JList [JStr d1; JInt y1; JInt c1; JInt s1] :: others) in
    (exists series,
        DataProcessor.mqtt_publisher
          (snd (DataProcessor.process_months_json data s)) =
          DataProcessor.mqtt_publisher s ++ series ++
          [ ("SelfCons/selfconsmonth", VInt s0);
            ("SelfCons/selfconsratiomonth", VFloat f0);
            ("SelfCons/selfconslastmonth", VInt s1);
            ("SelfCons/selfconsratiolastmonth", VFloat f1) ])
    /\
    (exists series,
        DataProcessor.mqtt_publisher
          (snd (DataProcessor.process_years_json data s)) =
          DataProcessor.mqtt_publisher s ++ series ++
          [ ("SelfCons/selfconsyear", VInt s0);
            ("SelfCons/selfconsratioyear", VFloat f0);
            ("SelfCons/selfconslastyear", VInt s1);
            ("SelfCons/selfconsratiolastyear", VFloat f1) ]).
Proof.
  intros s d0 d1 y0 c0 s0 y1 c1 s1 f0 f1 others Hothers Hc0 Hc1 Hf0 Hf1 data.
  set (r0 := JList [JStr d0; JInt y0; JInt c0; JInt s0]) in *.
  set (r1 := JList [JStr d1; JInt y1; JInt c1; JInt s1]) in *.
  assert (Hrows : Forall Spec.series_row (r0 :: r1 :: others)).
  { constructor; [exists d0, y0, c0, s0; reflexivity|].
    constructor; [exists d1, y1, c1, s1; reflexivity | exact Hothers]. }
  destruct (len_first r0 r1 others) as [n [Hlen [Hn2 Hn1]]].
  destruct (index_first r0 r1 others) as [Hi0 Hi1].
  split.
  - unfold DataProcessor.process_months_json, data.
    rewrite try_log_snd, Hlen, bind_lift_ok. cbv beta.
    cbn [DataProcessor.iterate]. rewrite bind_lift_ok. cbv beta.
    match goal with
    | |- exists series, DataProcessor.mqtt_publisher
           (snd (DataProcessor.bind (DataProcessor.for_each _ ?body) _ s)) = _ =>
        assert (Hbody : forall x st, Spec.series_row x ->
                  exists st', body x st = (Ok tt, st') /\ Spec.extends_log st st')
    end.
    { intros x st [date [y [c [sc ->]]]].
      unfold DataProcessor.publish_month_entry, DataProcessor.bind,
        DataProcessor.lift, DataProcessor.when, DataProcessor.publish,
        DataProcessor.modify, DataProcessor.ret.
      destruct y; simpl; eexists; (split; [reflexivity|]);
        first [ apply (Spec.stable_refl extends_log_stable)
              | unfold Spec.extends_log; simpl; eexists;
                repeat rewrite <- app_assoc; reflexivity ]. }
    destruct (@for_each_total _ _ _ Hbody _ Hrows s) as [st1 [E1 [series X1]]].
    rewrite (@bind_ok _ _ _ _ _ _ _ E1). cbv beta.
    rewrite bind_lift_ok. cbv beta. rewrite Hn2, Hn1.
    unfold DataProcessor.when.
    rewrite Hi0, bind_lift_ok. cbv beta. unfold r0 at 1.
    erewrite bind_ok; [ | apply publish_period_run; [exact Hc0 | exact Hf0] ].
    rewrite Hi1, bind_lift_ok. cbv beta. unfold r1 at 1.
    rewrite publish_period_run with (f := f1); [ | exact Hc1 | exact Hf1 ].
    exists series. simpl. rewrite X1.
    repeat rewrite <- app_assoc. reflexivity.
  - unfold DataProcessor.process_years_json, data.
    rewrite try_log_snd, Hlen, bind_lift_ok. cbv beta.
    cbn [DataProcessor.iterate]. rewrite bind_lift_ok. cbv beta.
    match goal with
    | |- exists series, DataProcessor.mqtt_publisher
           (snd (DataProcessor.bind (DataProcessor.for_each _ ?body) _ s)) = _ =>
        assert (Hbody : forall x st, Spec.series_row x ->
                  exists st', body x st = (Ok tt, st') /\ Spec.extends_log st st')
    end.
    { intros x st [date [y [c [sc ->]]]].
      unfold DataProcessor.publish_year_entry, DataProcessor.bind,
        DataProcessor.lift, DataProcessor.when, DataProcessor.publish,
        DataProcessor.modify, DataProcessor.ret.
      destruct y; simpl; eexists; (split; [reflexivity|]);
        first [ apply (Spec.stable_refl extends_log_stable)
              | unfold Spec.extends_log; simpl; eexists;
                repeat rewrite <- app_assoc; reflexivity ]. }
    destruct (@for_each_total _ _ _ Hbody _ Hrows s) as [st1 [E1 [series X1]]].
    rewrite (@bind_ok _ _ _ _ _ _ _ E1). cbv beta.
    rewrite bind_lift_ok. cbv beta. rewrite Hn2, Hn1.
    unfold DataProcessor.when.
    rewrite Hi0, bind_lift_ok. cbv beta. unfold r0 at 1.
    erewrite bind_ok; [ | apply publish_period_run; [exact Hc0 | exact Hf0] ].
    rewrite Hi1, bind_lift_ok. cbv beta. unfold r1 at 1.
    rewrite publish_period_run with (f := f1); [ | exact Hc1 | exact Hf1 ].
    exists series. simpl. rewrite X1.
    repeat rewrite <- app_assoc. reflexivity.
Qed.

Lemma static_json_first_two_rows_witness :
  (exists series,
      DataProcessor.mqtt_publisher
        (snd (DataProcessor.process_months_json (JList Samples.four_months)
                DataProcessor.init)) =
        DataProcessor.mqtt_publisher DataProcessor.init ++ series ++
        [ ("SelfCons/selfconsmonth", VInt 5);
          ("SelfCons/selfconsratiomonth", VFloat 7142.9);
          ("SelfCons/selfconslastmonth", VInt 20);
          ("SelfCons/selfconsratiolastmonth", VFloat 26666.7) ])
  /\
  (exists series,
      DataProcessor.mqtt_publisher
        (snd (DataProcessor.process_years_json (JList Samples.four_months)
                DataProcessor.init)) =
        DataProcessor.mqtt_publisher DataProcessor.init ++ series ++
        [ ("SelfCons/selfconsyear", VInt 5);
          ("SelfCons/selfconsratioyear", VFloat 7142.9);
          ("SelfCons/selfconslastyear", VInt 20);
          ("SelfCons/selfconsratiolastyear", VFloat 26666.7) ]).
Proof.
  refine (@static_json_first_two_rows DataProcessor.init "01.02.26" "01.03.26"
            80 70 5 90 75 20 7142.9%float 26666.7%float
            [Samples.row "01.04.26" 100 80 10; Samples.row "01.05.26" 120 90 15]
            _ eq_refl eq_refl _ _).
  - constructor; [exists "01.04.26", 100, 80, 10; reflexivity|].
    constructor; [exists "01.05.26", 120, 90, 15; reflexivity|].
    constructor.
  - vm_compute. reflexivity.
  - vm_compute. reflexivity.
Defined.

(** *** Device classification *)

Lemma get_from_indexed_raises (container idx : json) (e : exn) :
  DataProcessor.get_from_indexed container idx = Raise e ->
  e = TypeError \/ e = IndexError.
Proof.
  unfold DataProcessor.get_from_indexed.
  destruct container as [| b | n | str0 | l | d]; try discriminate.
  - destruct idx; simpl; try (intros H; inversion H; now left).
    + destruct ((0 <=? (if b then 1 else 0))
                && ((if b then 1 else 0) <? DataProcessor.zlength l));
        [|discriminate].
      unfold index.
      repeat match goal with
             | |- context [match ?x with _ => _ end] => destruct x
             end; intros H; inversion H; now right.
    + destruct ((0 <=? n) && (n <? DataProcessor.zlength l)); [|discriminate].
      unfold index.
      repeat match goal with
             | |- context [match ?x with _ => _ end] => destruct x
             end; intros H; inversion H; now right.
  - destruct idx; simpl;
      repeat match goal with
             | |- context [match ?x with _ => _ end] => destruct x
             end; intros H; inversion H; now left.
Qed.

(** The lookup of the classifier finds what the table holds. *)
Lemma get_from_indexed_holds (table idx : json) :
  DataProcessor.get_from_indexed table idx =
    match Spec.table_holds table idx with
    | Spec.Holds v => Ok v
    | Spec.Nothing => Ok JNull
    | Spec.Unusable => Raise TypeError
    end.
Proof.
  unfold DataProcessor.get_from_indexed, Spec.table_holds.
  destruct table as [|tb|tn|ts|l|d]; try reflexivity.
  - destruct idx as [|b|i|k|il|kd]; try reflexivity.
    + cbn [number rbind]. unfold DataProcessor.zlength.
      destruct b; cbn [Z.leb andb];
        match goal with
        | |- context [?i <? Z.of_nat (List.length l)] =>
            destruct (i <? Z.of_nat (List.length l)) eqn:E; [|reflexivity];
            apply Z.ltb_lt in E; apply index_nth; lia
        end.
    + cbn [number rbind]. unfold DataProcessor.zlength.
      destruct ((0 <=? i) && (i <? Z.of_nat (List.length l))) eqn:E;
        [|reflexivity].
      apply andb_prop in E. destruct E as [E0 E1].
      apply Z.leb_le in E0. apply Z.ltb_lt in E1. apply index_nth. lia.
  - destruct idx as [|b|i|k|il|kd]; try reflexivity;
      cbn [DataProcessor.hash_key rbind str repr];
      unfold dict_get_default, Spec.held_of.
    + destruct (dict_get d (KStr "None")); reflexivity.
    + destruct (dict_get d (KInt (if b then 1 else 0))); [reflexivity|].
      destruct b; destruct (dict_get d (KStr _)); reflexivity.
    + destruct (dict_get d (KInt i)); [reflexivity|].
      destruct (dict_get d (KStr (str_of_Z i))); reflexivity.
    + destruct (dict_get d (KStr k)); reflexivity.
Qed.

Lemma device_type_of_entry (entry : json) :
  DataProcessor.device_type_of entry = Spec.entry_type entry.
Proof.
  destruct entry as [|b|n|k|[|x0 [|x1 tl]]|d]; try reflexivity.
  unfold DataProcessor.device_type_of, DataProcessor.zlength.
  assert (E : (1 <? Z.of_nat (List.length (x0 :: x1 :: tl))) = true)
    by (apply Z.ltb_lt; simpl List.length; lia).
  rewrite E. reflexivity.
Qed.

Lemma brand_idx_of_entry (entry : json) :
  DataProcessor.brand_idx_of entry = Spec.entry_brand_index entry.
Proof.
  destruct entry as [|b|n|k|[|x0 tl]|d]; reflexivity.
Qed.

Lemma device_class_of_entry (entry : json) :
  DataProcessor.device_class_of entry
    = Spec.class_of_bitmask (Spec.entry_bitmask entry).
Proof.
  assert (Hclass : forall mask,
             match mask with
             | Some v =>
                 if negb (v =? 0) && (0 <? v) then
                   if (0 <=? Z.log2 v)
                      && (Z.log2 v <? DataProcessor.zlength DEVICE_CLASS_LIST)
                   then nth (Z.to_nat (Z.log2 v)) DEVICE_CLASS_LIST "Wechselrichter"
                   else "Wechselrichter"
                 else "Wechselrichter"
             | None => "Wechselrichter"
             end = Spec.class_of_bitmask mask).
  { intros [v|]; [|reflexivity]. unfold Spec.class_of_bitmask.
    destruct (0 <? v) eqn:Ev.
    - apply Z.ltb_lt in Ev.
      assert (E0 : negb (v =? 0) = true)
        by (apply negb_true_iff; apply Z.eqb_neq; lia).
      rewrite E0. cbn [andb].
      assert (El : (0 <=? Z.log2 v) = true)
        by (apply Z.leb_le; apply Z.log2_nonneg).
      rewrite El. cbn [andb].
      destruct (Z.log2 v <? DataProcessor.zlength DEVICE_CLASS_LIST) eqn:E;
        [reflexivity|].
      apply Z.ltb_ge in E. symmetry. apply nth_overflow.
      change (DataProcessor.zlength DEVICE_CLASS_LIST) with 10 in E.
      change (List.length DEVICE_CLASS_LIST) with 10%nat. lia.
    - rewrite andb_false_r. reflexivity. }
  unfold DataProcessor.device_class_of. rewrite <- Hclass.
  destruct entry as [|b|n|k|l|d]; try reflexivity.
  unfold DataProcessor.dclass_val, Spec.entry_bitmask, DataProcessor.zlength.
  destruct l as [|x0 [|x1 [|x2 [|x3 [|x4 [|x5 tl]]]]]]; try reflexivity.
  assert (E : (5 <? Z.of_nat (List.length (x0 :: x1 :: x2 :: x3 :: x4 :: x5 :: tl)))
              = true)
    by (apply Z.ltb_lt; simpl List.length; lia).
  rewrite E. reflexivity.
Qed.

(** One iteration appends what the device is to receive; the list of
    types gets a second entry when the brand table cannot be indexed. *)
Lemma classify_iteration_expected (dl bl code : json) (i : Z)
  (c : DataProcessor.classification) :
  exists c',
    DataProcessor.classify_iteration dl bl i code c = Ok c' /\
    DataProcessor.c_brands c' =
      DataProcessor.c_brands c ++ [Spec.expected_brand dl bl code] /\
    DataProcessor.c_classes c' =
      DataProcessor.c_classes c ++ [Spec.expected_class dl bl code] /\
    DataProcessor.c_types c' =
      DataProcessor.c_types c ++ Spec.types_appended dl bl code.
Proof.
  unfold DataProcessor.classify_iteration, DataProcessor.classify_device,
    Spec.expected_brand, Spec.expected_class, Spec.types_appended,
    Spec.device_entry.
  change (DataProcessor.int_or_self code) with (Spec.as_index code).
  rewrite get_from_indexed_holds.
  destruct (Spec.table_holds dl (Spec.as_index code)) as [entry| |].
  - destruct (truthy entry).
    + rewrite get_from_indexed_holds, brand_idx_of_entry, device_type_of_entry,
        device_class_of_entry.
      destruct (Spec.table_holds bl (Spec.entry_brand_index entry)) as [brand| |].
      * destruct (String.eqb (Spec.class_of_bitmask (Spec.entry_bitmask entry))
                             "Batterie");
          eexists; repeat split; reflexivity.
      * cbn [is_none].
        destruct (String.eqb (Spec.class_of_bitmask (Spec.entry_bitmask entry))
                             "Batterie");
          eexists; repeat split; reflexivity.
      * eexists. repeat split; try reflexivity.
        simpl. rewrite <- app_assoc. reflexivity.
    + eexists. repeat split; reflexivity.
  - eexists. repeat split; reflexivity.
  - eexists. repeat split; reflexivity.
Qed.

Lemma classify_loop_expected (dl bl : json) (pairs : list (string * json)) :
  forall (i : Z) (c : DataProcessor.classification),
  exists c',
    DataProcessor.classify_loop dl bl i pairs c = Ok c' /\
    DataProcessor.c_brands c' =
      DataProcessor.c_brands c
      ++ List.map (Spec.expected_brand dl bl) (List.map snd pairs) /\
    DataProcessor.c_classes c' =
      DataProcessor.c_classes c
      ++ List.map (Spec.expected_class dl bl) (List.map snd pairs) /\
    DataProcessor.c_types c' =
      DataProcessor.c_types c
      ++ List.flat_map (Spec.types_appended dl bl) (List.map snd pairs).
Proof.
  induction pairs as [|[name code] pairs IH]; intros i c; simpl.
  - exists c. repeat rewrite app_nil_r. repeat split; reflexivity.
  - destruct (classify_iteration_expected dl bl code i c)
      as [c1 [E1 [B1 [C1 T1]]]].
    rewrite E1. simpl rbind.
    destruct (IH (i + 1) c1) as [c2 [E2 [B2 [C2 T2]]]].
    exists c2. rewrite E2, B2, C2, T2, B1, C1, T1.
    repeat rewrite <- app_assoc. repeat split; reflexivity.
Qed.

(** With both tables and the info codes there, [classify_devices] stores
    the lists the loop built. *)
Lemma classify_devices_stores (s : DataProcessor.t) :
  truthy (DataProcessor.device_list s) = true ->
  truthy (DataProcessor.brand_list s) = true ->
  DataProcessor.device_infos s <> [] ->
  let dl := DataProcessor.device_list s in
  let bl := DataProcessor.brand_list s in
  let codes :=
    List.map snd (List.combine (DataProcessor.inverter_names s)
                               (DataProcessor.device_infos s)) in
  let s' := snd (DataProcessor.classify_devices s) in
  fst (DataProcessor.classify_devices s) = Ok tt /\
  DataProcessor.device_brands s' = List.map (Spec.expected_brand dl bl) codes /\
  DataProcessor.device_classes s' = List.map (Spec.expected_class dl bl) codes /\
  DataProcessor.device_types s' = List.flat_map (Spec.types_appended dl bl) codes.
Proof.
  intros Hdl Hbl Hinfos dl bl codes s'. subst s' codes dl bl.
  unfold DataProcessor.classify_devices.
  rewrite Hdl, Hbl.
  assert (Ht : truthy (JList (DataProcessor.device_infos s)) = true).
  { simpl. destruct (DataProcessor.device_infos s); [contradiction | reflexivity]. }
  rewrite Ht. simpl orb. cbv iota.
  destruct (classify_loop_expected (DataProcessor.device_list s)
              (DataProcessor.brand_list s)
              (List.combine (DataProcessor.inverter_names s)
                            (DataProcessor.device_infos s))
              0 DataProcessor.c_empty) as [c [E [B [C T]]]].
  rewrite E. cbn [fst snd]. split; [reflexivity|].
  split; [exact B|]. split; [exact C | exact T].
Qed.

Lemma types_appended_usable (dl bl : json) (codes : list json) :
  Forall (fun code => Spec.brand_index_usable dl bl code = true) codes ->
  List.flat_map (Spec.types_appended dl bl) codes
    = List.map (Spec.expected_type dl) codes.
Proof.
  induction 1 as [|code codes Hcode _ IH]; [reflexivity|].
  cbn [List.flat_map List.map]. rewrite IH. f_equal.
  unfold Spec.types_appended, Spec.expected_type, Spec.brand_index_usable in *.
  destruct (Spec.device_entry dl code) as [entry|]; [|reflexivity].
  destruct (Spec.table_holds bl (Spec.entry_brand_index entry));
    [reflexivity | reflexivity | discriminate Hcode].
Qed.

(** C3, as stated, fails: a table entry whose class bitmask is 3, not a
    power of two, keeps its type and its brand and is given the class
    at index 1. *)
Lemma bitmask_3_is_classified_as_sensor :
  let s' := snd (DataProcessor.classify_devices Samples.one_device_bitmask_3) in
  ~ (exists k, 0 <= k /\ 2 ^ k = 3) /\
  DataProcessor.device_types s' = [JStr "SMA-X"] /\
  DataProcessor.device_brands s' = [JStr "SMA"] /\
  DataProcessor.device_classes s' = ["Sensor"].
Proof.
  split.
  - intros [k [Hk E]].
    destruct (Z.eq_dec k 0) as [-> | H0]; [discriminate|].
    destruct (Z.eq_dec k 1) as [-> | H1]; [discriminate|].
    assert (2 ^ 2 <= 2 ^ k) by (apply Z.pow_le_mono_r; lia).
    change (2 ^ 2) with 4 in *. lia.
  - vm_compute. repeat split.
Qed.

(** C3, amended. With the two tables and the info codes non-empty,
    classification never aborts and every zipped device receives
    the brand and the class its own info code and the tables give it,
    whatever the other devices are. A code without an entry in the
    device table (missing key, position outside a list, no usable
    index), or with an empty one, gives ["Unknown"], ["Unknown"] and
    the default class. A code with an entry gives the entry's type
    (position 1), the brand the brand table holds for the entry's
    brand index (position 0), ["Unknown"] when it holds none, and the
    class at position [floor(log2 v)] of [DEVICE_CLASS_LIST] for a
    readable positive bitmask [v] (position 5), a power of two or not,
    the default class when there is no such position or no such
    bitmask. When the brand table cannot be indexed by the brand index,
    the brand is ["Unknown"] and the class the default one. The types
    are index-aligned in the same way as long as that last case does
    not occur. *)
Theorem classification_is_per_device :
  forall (s : DataProcessor.t),
    truthy (DataProcessor.device_list s) = true ->
    truthy (DataProcessor.brand_list s) = true ->
    DataProcessor.device_infos s <> [] ->
    let dl := DataProcessor.device_list s in
    let bl := DataProcessor.brand_list s in
    let codes :=
      List.map snd (List.combine (DataProcessor.inverter_names s)
                                 (DataProcessor.device_infos s)) in
    let s' := snd (DataProcessor.classify_devices s) in
    DataProcessor.device_brands s' = List.map (Spec.expected_brand dl bl) codes /\
    DataProcessor.device_classes s' = List.map (Spec.expected_class dl bl) codes /\
    (Forall (fun code => Spec.brand_index_usable dl bl code = true) codes ->
     DataProcessor.device_types s' = List.map (Spec.expected_type dl) codes) /\
    (forall v k : Z,
        0 <= k -> 2 ^ k <= v < 2 ^ (k + 1) ->
        Spec.class_of_bitmask (Some v)
          = nth (Z.to_nat k) DEVICE_CLASS_LIST "Wechselrichter").
Proof.
  intros s Hdl Hbl Hinfos dl bl codes s'.
  destruct (classify_devices_stores s Hdl Hbl Hinfos) as [_ [B [C T]]].
  fold dl bl codes s' in B, C, T.
  split; [exact B|]. split; [exact C|]. split.
  - intros Hok. rewrite T. apply types_appended_usable. exact Hok.
  - intros v k Hk Hv. unfold Spec.class_of_bitmask.
    assert (Hpos : 0 < 2 ^ k) by (apply Z.pow_pos_nonneg; lia).
    assert (E0 : (0 <? v) = true) by (apply Z.ltb_lt; lia).
    rewrite E0. rewrite (Z.log2_unique v k); [reflexivity | exact Hk |].
    replace (Z.succ k) with (k + 1) by lia. exact Hv.
Qed.

Lemma classification_is_per_device_witness :
  let s := Samples.five_devices in
  let s' := snd (DataProcessor.classify_devices s) in
  DataProcessor.device_brands s' =
    [JStr "SMA"; JStr "Unknown"; JStr "BYD"; JStr "BYD"; JStr "SMA"] /\
  DataProcessor.device_classes s' =
    ["Wechselrichter"; "Wechselrichter"; "Batterie"; "Sensor"; "Wechselrichter"] /\
  DataProcessor.device_types s' =
    [JStr "SMA-X"; JStr "Unknown"; JStr "Accu"; JStr "Meter-Y"; JStr "Unknown"].
Proof.
  destruct (@classification_is_per_device Samples.five_devices
              eq_refl eq_refl ltac:(discriminate)) as [B [C [T _]]].
  split; [exact B|]. split; [exact C|].
  apply T. repeat constructor.
Defined.

(** ** Further properties *)

(** *** The client *)

Lemma until_semicolon_stops (tok rest : string) :
  str_contains ";" tok = false ->
  SolarLogClient.until_semicolon (tok ++ String ";"%char rest)%string = tok
  /\ SolarLogClient.until_semicolon tok = tok.
Proof.
  induction tok as [|c tok IH]; intros H; simpl.
  - split; reflexivity.
  - cbn [str_contains String.prefix] in H.
    destruct (ascii_dec ";" c) as [E | E].
    + destruct tok; discriminate.
    + assert (Ec : Ascii.eqb c ";" = false)
        by (apply Ascii.eqb_neq; congruence).
      rewrite Ec. destruct (IH H) as [H1 H2]. rewrite H1, H2. split; reflexivity.
Qed.

Lemma token_of_prefix (x : string) :
  SolarLogClient.token_of ("SolarLog=" ++ x)
    = Some (SolarLogClient.until_semicolon x).
Proof.
  unfold SolarLogClient.token_of.
  assert (E : String.index 0 "SolarLog=" ("SolarLog=" ++ x) = Some 0%nat)
    by (simpl; destruct x; reflexivity).
  rewrite E. reflexivity.
Qed.

(** X1. A response 200 whose [set-cookie] header starts with
    ["SolarLog=<tok>"], the token free of semicolons and followed by
    nothing or by a semicolon, makes [login] return [True], store exactly
    [tok], reset the login failures and leave the request counter. *)
Theorem login_stores_token :
  forall (device : nat -> SolarLogClient.response) (c : SolarLogClient.t)
         (tok rest text : string),
    SolarLogClient.user_pass c = true ->
    SolarLogClient.session c = true ->
    device (SolarLogClient.exchanges c)
      = SolarLogClient.Response 200 ("SolarLog=" ++ tok ++ rest)%string text ->
    str_contains ";" tok = false ->
    (rest = EmptyString \/ exists r, rest = String ";"%char r) ->
    SolarLogClient.login device c =
      (true,
       SolarLogClient.mk true true tok (SolarLogClient.request_counter c) 0
         (S (SolarLogClient.exchanges c))).
Proof.
  intros device c tok rest text Hu Hs Hd Htok Hrest.
  unfold SolarLogClient.login, SolarLogClient.exchange.
  rewrite Hu, Hs, Hd. cbn [negb orb Z.eqb Pos.eqb].
  assert (Ht : SolarLogClient.until_semicolon (tok ++ rest)%string = tok).
  { destruct (until_semicolon_stops tok EmptyString Htok) as [_ H2].
    destruct Hrest as [-> | [r ->]].
    - assert (E : (tok ++ "")%string = tok)
        by (clear; induction tok; simpl; congruence).
      rewrite E. exact H2.
    - apply (until_semicolon_stops tok r Htok). }
  rewrite token_of_prefix, Ht.
  unfold SolarLogClient.set_login_failures, SolarLogClient.set_data_token.
  simpl. try rewrite Hu. try rewrite Hs. reflexivity.
Qed.

Lemma login_stores_token_witness :
  SolarLogClient.login Samples.device_token Samples.client_with_credentials =
    (true, SolarLogClient.mk true true "abc123" 0 0 1).
Proof.
  refine (@login_stores_token Samples.device_token
            Samples.client_with_credentials "abc123" "; path=/" ""
            eq_refl eq_refl eq_refl eq_refl _).
  right. exists " path=/". reflexivity.
Defined.

Section Exchanges.

Variable device : nat -> SolarLogClient.response.
Variable json_loads : string -> option json.

Lemma login_exchanges (c : SolarLogClient.t) :
  let c' := snd (SolarLogClient.login device c) in
  (SolarLogClient.exchanges c <= SolarLogClient.exchanges c'
   <= SolarLogClient.exchanges c + 1)%nat.
Proof.
  simpl. unfold SolarLogClient.login, SolarLogClient.exchange.
  destruct (negb (SolarLogClient.user_pass c) || negb (SolarLogClient.session c));
    simpl; [lia|].
  destruct (device (SolarLogClient.exchanges c)) as [|status cookie text];
    simpl; [lia|].
  destruct (status =? 200); simpl; [|lia].
  destruct (SolarLogClient.token_of cookie); simpl; lia.
Qed.

Lemma check_login_status_exchanges (c : SolarLogClient.t) :
  let c' := snd (SolarLogClient.check_login_status device c) in
  (SolarLogClient.exchanges c <= SolarLogClient.exchanges c'
   <= SolarLogClient.exchanges c + 2)%nat.
Proof.
  simpl. unfold SolarLogClient.check_login_status, SolarLogClient.exchange.
  destruct (negb (SolarLogClient.user_pass c) || negb (SolarLogClient.session c));
    simpl; [lia|].
  destruct (device (SolarLogClient.exchanges c)) as [|status cookie body];
    simpl; [lia|].
  destruct (status =? 200); simpl; [|lia].
  destruct (negb (SolarLogClient.until_semicolon body =? "0")%string);
    simpl; [lia|].
  match goal with
  | |- context [SolarLogClient.login device ?c1] =>
      pose proof (login_exchanges c1) as H; simpl in H
  end.
  lia.
Qed.

Lemma make_request_exchanges (request_data : string) (c : SolarLogClient.t) :
  let c' := snd (SolarLogClient.make_request device json_loads request_data c) in
  (SolarLogClient.exchanges c <= SolarLogClient.exchanges c'
   <= SolarLogClient.exchanges c + 1)%nat.
Proof.
  simpl. unfold SolarLogClient.make_request, SolarLogClient.exchange.
  destruct (negb (SolarLogClient.session c)); simpl; [lia|].
  destruct (device (SolarLogClient.exchanges c)) as [|status cookie text];
    simpl; [lia|].
  destruct (str_contains ".json" request_data), (status =? 200);
    try destruct (json_loads text); simpl; lia.
Qed.

Lemma auth_check_exchanges (request_data : string) (c : SolarLogClient.t) :
  let c' := snd (SolarLogClient.request_with_auth_check device json_loads
                   request_data c) in
  (SolarLogClient.exchanges c <= SolarLogClient.exchanges c'
   <= SolarLogClient.exchanges c + 3)%nat.
Proof.
  simpl. unfold SolarLogClient.request_with_auth_check.
  pose proof (check_login_status_exchanges c) as Hc. simpl in Hc.
  destruct (SolarLogClient.user_pass c).
  - destruct (SolarLogClient.check_login_status device c) as [[|] c1]; simpl in *.
    + pose proof (make_request_exchanges request_data c1) as Hm. simpl in Hm. lia.
    + lia.
  - pose proof (make_request_exchanges request_data c) as Hm. simpl in Hm. lia.
Qed.

Lemma retry_loop_exchanges (request_data : string) (fuel : nat) :
  forall c : SolarLogClient.t,
    let c' := snd (SolarLogClient.retry_loop device json_loads request_data fuel c) in
    (SolarLogClient.exchanges c <= SolarLogClient.exchanges c'
     <= SolarLogClient.exchanges c + 3 * fuel)%nat.
Proof.
  induction fuel as [|fuel IH]; intros c; simpl; [lia|].
  pose proof (auth_check_exchanges request_data c) as Ha. simpl in Ha.
  destruct (SolarLogClient.request_with_auth_check device json_loads request_data c)
    as [result c1]; simpl in *.
  specialize (IH c1). simpl in IH.
  destruct result; simpl; lia.
Qed.

(** A result of [make_request] other than [None] comes with the counter
    cleared, unless the request was for a [.json] resource. *)
Lemma make_request_success_clears (request_data : string) (c : SolarLogClient.t) :
  str_contains ".json" request_data = false ->
  let r := SolarLogClient.make_request device json_loads request_data c in
  fst r <> JNull -> SolarLogClient.request_counter (snd r) = 0.
Proof.
  intros Hj. simpl. unfold SolarLogClient.make_request, SolarLogClient.exchange.
  rewrite Hj.
  destruct (negb (SolarLogClient.session c)); simpl; [congruence|].
  destruct (device (SolarLogClient.exchanges c)) as [|status cookie text];
    simpl; [congruence|].
  destruct (status =? 200); simpl; [|congruence].
  destruct (json_loads text); simpl; congruence.
Qed.

Lemma auth_check_success_clears (request_data : string) (c : SolarLogClient.t) :
  str_contains ".json" request_data = false ->
  let r := SolarLogClient.request_with_auth_check device json_loads request_data c in
  fst r <> JNull -> SolarLogClient.request_counter (snd r) = 0.
Proof.
  intros Hj. simpl. unfold SolarLogClient.request_with_auth_check.
  destruct (SolarLogClient.user_pass c).
  - destruct (SolarLogClient.check_login_status device c) as [[|] c1]; simpl.
    + apply make_request_success_clears. exact Hj.
    + congruence.
  - apply make_request_success_clears. exact Hj.
Qed.

Lemma retry_loop_success_clears (request_data : string) (fuel : nat) :
  str_contains ".json" request_data = false ->
  forall c : SolarLogClient.t,
    let r := SolarLogClient.retry_loop device json_loads request_data fuel c in
    fst r <> JNull -> SolarLogClient.request_counter (snd r) = 0.
Proof.
  intros Hj. induction fuel as [|fuel IH]; intros c; simpl; [congruence|].
  pose proof (auth_check_success_clears request_data c Hj) as Ha. simpl in Ha.
  destruct (SolarLogClient.request_with_auth_check device json_loads request_data c)
    as [result c1]; simpl in *.
  destruct result; simpl; intros Hr;
    try (apply Ha; simpl; congruence).
  apply IH. exact Hr.
Qed.

(** With the session closed no exchange takes place and nothing of the
    client changes. *)
Lemma retry_loop_closed (request_data : string) (fuel : nat)
  (c : SolarLogClient.t) :
  SolarLogClient.session c = false ->
  SolarLogClient.retry_loop device json_loads request_data fuel c = (JNull, c).
Proof.
  intros Hs. induction fuel as [|fuel IH]; simpl; [reflexivity|].
  unfold SolarLogClient.request_with_auth_check, SolarLogClient.check_login_status,
    SolarLogClient.make_request.
  destruct (SolarLogClient.user_pass c);
    rewrite ?Hs; simpl; rewrite ?Hs; simpl; exact IH.
Qed.

End Exchanges.

(** X2. [request_with_retry] never makes more than three exchanges per
    attempt (status check, login, request), with [max(1, attempts)]
    attempts: nine for the three attempts of [https_request]. *)
Theorem request_with_retry_exchanges_bounded :
  forall (device : nat -> SolarLogClient.response)
         (json_loads : string -> option json)
         (request_data : string) (attempts : Z) (c : SolarLogClient.t),
    let c' := snd (SolarLogClient.request_with_retry device json_loads
                     request_data attempts c) in
    (SolarLogClient.exchanges c <= SolarLogClient.exchanges c'
     <= SolarLogClient.exchanges c + 3 * Z.to_nat (Z.max 1 attempts))%nat.
Proof.
  intros device json_loads request_data attempts c.
  unfold SolarLogClient.request_with_retry. apply retry_loop_exchanges.
Qed.

(** X3. Whenever [request_with_retry] returns a payload for a [/getjp]
    request, it leaves the request-failure counter at 0, whatever
    failures came before. *)
Theorem getjp_success_clears_counter :
  forall (device : nat -> SolarLogClient.response)
         (json_loads : string -> option json)
         (request_data : string) (attempts : Z) (c : SolarLogClient.t),
    str_contains ".json" request_data = false ->
    let r := SolarLogClient.request_with_retry device json_loads
               request_data attempts c in
    fst r <> JNull ->
    SolarLogClient.request_counter (snd r) = 0.
Proof.
  intros device json_loads request_data attempts c Hj.
  unfold SolarLogClient.request_with_retry.
  apply retry_loop_success_clears. exact Hj.
Qed.

Lemma getjp_success_clears_counter_witness :
  SolarLogClient.request_counter
    (snd (SolarLogClient.request_with_retry (Laws.serving "{}")
            Samples.loads_empty_object FAST_POLL_DATA 3
            (SolarLogClient.mk false true "" 4 0 0))) = 0.
Proof.
  refine (@getjp_success_clears_counter (Laws.serving "{}")
            Samples.loads_empty_object FAST_POLL_DATA 3
            (SolarLogClient.mk false true "" 4 0 0) eq_refl _).
  vm_compute. discriminate.
Defined.

Lemma retry_loop_unreachable_anonymous (json_loads : string -> option json)
  (request_data : string) (fuel : nat) :
  forall c : SolarLogClient.t,
    SolarLogClient.user_pass c = false ->
    SolarLogClient.session c = true ->
    SolarLogClient.retry_loop Laws.unreachable json_loads request_data fuel c =
      (JNull,
       SolarLogClient.mk false true (SolarLogClient.data_token c)
         (SolarLogClient.request_counter c + Z.of_nat fuel)
         (SolarLogClient.login_failures c)
         (SolarLogClient.exchanges c + fuel)).
Proof.
  induction fuel as [|fuel IH]; intros c Hu Hs.
  - simpl. rewrite Z.add_0_r, Nat.add_0_r. destruct c; simpl in *; congruence.
  - cbn [SolarLogClient.retry_loop].
    unfold SolarLogClient.request_with_auth_check, SolarLogClient.make_request,
      SolarLogClient.exchange, Laws.unreachable.
    rewrite Hu, Hs. simpl negb. cbv iota.
    rewrite IH by reflexivity. simpl. rewrite ?Hu, ?Hs.
    f_equal. f_equal; lia.
Qed.

(** X4. Without credentials and with a device that cannot be reached,
    every [https_request] adds exactly 3 to the request counter (one per
    attempt) and restarts the bridge exactly when the counter then
    exceeds [MAX_REQUEST_FAILURES]: from 0, the second request in a row
    restarts it. *)
Theorem unreachable_device_counts_three :
  forall (w : Main.wait) (json_loads : string -> option json)
         (process_response : string -> json -> Main.bridge -> Main.bridge)
         (req_data : string) (b : Main.bridge),
    SolarLogClient.user_pass (Main.solar_log_client b) = false ->
    SolarLogClient.session (Main.solar_log_client b) = true ->
    let c := Main.solar_log_client b in
    let c' :=
      SolarLogClient.mk false true (SolarLogClient.data_token c)
        (SolarLogClient.request_counter c + 3)
        (SolarLogClient.login_failures c)
        (SolarLogClient.exchanges c + 3) in
    Main.https_request w Laws.unreachable json_loads process_response req_data b =
      if MAX_REQUEST_FAILURES <? SolarLogClient.request_counter c + 3
      then Main.restart_bridge w "Request failures" (Main.with_client c' b)
      else Main.with_client c' b.
Proof.
  intros w json_loads process_response req_data b Hu Hs c c'.
  unfold Main.https_request, SolarLogClient.request_with_retry.
  change (Z.to_nat (Z.max 1 3)) with 3%nat.
  rewrite (retry_loop_unreachable_anonymous json_loads req_data 3 _ Hu Hs).
  reflexivity.
Qed.

Lemma unreachable_device_counts_three_witness :
  let once :=
    Main.https_request Main.Elapsed Laws.unreachable Samples.loads_empty_object
      Samples.ignore_response FAST_POLL_DATA Samples.bridge0 in
  let twice :=
    Main.https_request Main.Elapsed Laws.unreachable Samples.loads_empty_object
      Samples.ignore_response FAST_POLL_DATA once in
  Main.exit_status once = None /\
  SolarLogClient.request_counter (Main.solar_log_client once) = 3 /\
  Main.running once = true /\
  Main.running twice = false /\
  Main.exit_status twice = Some EXIT_CODE_RESTART_REQUIRED.
Proof.
  intros once twice.
  pose proof (@unreachable_device_counts_three Main.Elapsed
                Samples.loads_empty_object
                Samples.ignore_response FAST_POLL_DATA Samples.bridge0
                eq_refl eq_refl) as H1.
  cbv zeta in H1. fold once in H1.
  assert (E1 : once =
               Main.with_client (SolarLogClient.mk false true "" 3 0 3)
                 Samples.bridge0) by (rewrite H1; reflexivity).
  pose proof (@unreachable_device_counts_three Main.Elapsed
                Samples.loads_empty_object
                Samples.ignore_response FAST_POLL_DATA once) as H2.
  rewrite E1 in H2. specialize (H2 eq_refl eq_refl). cbv zeta in H2.
  rewrite <- E1 in H2. fold twice in H2.
  rewrite H2, E1. repeat split.
Defined.

Lemma retry_loop_unreachable_logged (json_loads : string -> option json)
  (request_data : string) (fuel : nat) :
  forall c : SolarLogClient.t,
    SolarLogClient.user_pass c = true ->
    SolarLogClient.session c = true ->
    SolarLogClient.retry_loop Laws.unreachable json_loads request_data fuel c =
      (JNull,
       SolarLogClient.mk true true (SolarLogClient.data_token c)
         (SolarLogClient.request_counter c)
         (SolarLogClient.login_failures c)
         (SolarLogClient.exchanges c + fuel)).
Proof.
  induction fuel as [|fuel IH]; intros c Hu Hs.
  - simpl. rewrite Nat.add_0_r. destruct c; simpl in *; congruence.
  - cbn [SolarLogClient.retry_loop].
    unfold SolarLogClient.request_with_auth_check,
      SolarLogClient.check_login_status, SolarLogClient.exchange, Laws.unreachable.
    rewrite Hu, Hs. simpl negb. simpl orb. cbv iota.
    rewrite IH by reflexivity. simpl.
    f_equal. f_equal. lia.
Qed.

(** X5. With credentials configured and a device that cannot be
    reached, the status check fails before any request is made: an
    [https_request] makes three exchanges, changes neither the request
    counter nor the login failures, and so never restarts the bridge
    for request failures. *)
Theorem unreachable_device_with_credentials_never_counts :
  forall (w : Main.wait) (json_loads : string -> option json)
         (process_response : string -> json -> Main.bridge -> Main.bridge)
         (req_data : string) (b : Main.bridge),
    SolarLogClient.user_pass (Main.solar_log_client b) = true ->
    SolarLogClient.session (Main.solar_log_client b) = true ->
    SolarLogClient.request_counter (Main.solar_log_client b)
      <= MAX_REQUEST_FAILURES ->
    let c := Main.solar_log_client b in
    Main.https_request w Laws.unreachable json_loads process_response req_data b =
      Main.with_client
        (SolarLogClient.mk true true (SolarLogClient.data_token c)
           (SolarLogClient.request_counter c)
           (SolarLogClient.login_failures c)
           (SolarLogClient.exchanges c + 3)) b.
Proof.
  intros w json_loads process_response req_data b Hu Hs Hle c.
  unfold Main.https_request, SolarLogClient.request_with_retry.
  change (Z.to_nat (Z.max 1 3)) with 3%nat.
  rewrite (retry_loop_unreachable_logged json_loads req_data 3 _ Hu Hs).
  simpl.
  destruct (MAX_REQUEST_FAILURES <? SolarLogClient.request_counter
                                      (Main.solar_log_client b)) eqn:E;
    [|reflexivity].
  apply Z.ltb_lt in E. fold c in E. subst c. lia.
Qed.

Lemma unreachable_device_with_credentials_never_counts_witness :
  Main.https_request Main.Cancelled Laws.unreachable Samples.loads_empty_object
    Samples.ignore_response FAST_POLL_DATA Laws.bridge_logged =
    Main.with_client (SolarLogClient.mk true true "tok" 0 0 3) Laws.bridge_logged.
Proof.
  refine (@unreachable_device_with_credentials_never_counts Main.Cancelled
            Samples.loads_empty_object Samples.ignore_response FAST_POLL_DATA
            Laws.bridge_logged eq_refl eq_refl _).
  vm_compute. discriminate.
Defined.

(** X6. [restart_bridge] publishes its two notices, clears the
    running flag and waits. When the wait elapses it stops the bridge:
    the publisher's disconnect publishes [info/connection = False] once
    more, the session is closed, so that whatever is requested of the
    client afterwards returns [None] without any exchange, and the
    process exits with the restart status. When the task is cancelled
    while it waits, nothing more happens on this path: no third
    message, the client and the exit status as they were. Nothing but
    the log changes in the processor. *)
Theorem restart_bridge_effects :
  forall (w : Main.wait) (device : nat -> SolarLogClient.response)
         (json_loads : string -> option json)
         (reason request_data : string) (attempts : Z) (b : Main.bridge),
    let b' := Main.restart_bridge w reason b in
    let notices :=
      [ ("info/connection", VBool false); ("info/restart_reason", VStr reason) ] in
    Main.running b' = false /\
    match w with
    | Main.Elapsed =>
        Main.data_processor b' =
          DataProcessor.set_mqtt_publisher
            (DataProcessor.mqtt_publisher (Main.data_processor b)
             ++ notices ++ [("info/connection", VBool false)])
            (Main.data_processor b) /\
        Main.exit_status b' = Some EXIT_CODE_RESTART_REQUIRED /\
        SolarLogClient.request_with_retry device json_loads request_data attempts
          (Main.solar_log_client b') = (JNull, Main.solar_log_client b')
    | Main.Cancelled =>
        Main.data_processor b' =
          DataProcessor.set_mqtt_publisher
            (DataProcessor.mqtt_publisher (Main.data_processor b) ++ notices)
            (Main.data_processor b) /\
        Main.exit_status b' = Main.exit_status b /\
        Main.solar_log_client b' = Main.solar_log_client b
    end.
Proof.
  intros w device json_loads reason request_data attempts b b' notices.
  subst b' notices. split; [destruct w; reflexivity|].
  destruct w.
  - split; [|split].
    + unfold Main.restart_bridge, Main.stop_solarlog, Main.publish_to_mqtt.
      simpl. repeat rewrite <- app_assoc. reflexivity.
    + reflexivity.
    + unfold SolarLogClient.request_with_retry.
      apply retry_loop_closed. reflexivity.
  - split; [|split; reflexivity].
    unfold Main.restart_bridge, Main.publish_to_mqtt.
    simpl. repeat rewrite <- app_assoc. reflexivity.
Qed.

(** *** What the decoders leave alone *)

Lemma only_log_stable : Spec.stable Laws.only_log.
Proof.
  split.
  - intros s. exists []. rewrite app_nil_r. destruct s; reflexivity.
  - intros a b c [r1 H1] [r2 H2]. exists (r1 ++ r2).
    rewrite H2, H1. simpl. rewrite app_assoc. reflexivity.
  - intros topic v s. exists [(topic, v)]. reflexivity.
Qed.

Lemma same_topology_stable : Spec.stable Laws.same_topology.
Proof.
  split.
  - intros s. repeat split.
  - intros a b c H1 H2. unfold Laws.same_topology in *.
    repeat match goal with H : _ /\ _ |- _ => destruct H end.
    repeat split; congruence.
  - intros topic v s. repeat split.
Qed.

(** X7. [process_fast_poll] only publishes: whatever the payload, and
    whether or not it raises, the processor afterwards is the processor
    before with messages added to the log; no cached field changes. *)
Theorem fast_poll_only_publishes :
  forall (data : dict) (s : DataProcessor.t),
    Laws.only_log s (snd (DataProcessor.process_fast_poll data s)).
Proof.
  intros data. change (Spec.preserves Laws.only_log (DataProcessor.process_fast_poll data)).
  unfold DataProcessor.process_fast_poll, DataProcessor.process_inverter_status,
    DataProcessor.process_inverter_extras, DataProcessor.process_switch_group_states,
    DataProcessor.process_display_data, DataProcessor.process_battery_data,
    DataProcessor.process_production_consumption.
  preserve only_log_stable.
Qed.

(** X8. The three historic decoders only publish: none of them changes
    a cached field, whatever the payload. *)
Theorem historic_decoders_only_publish :
  forall (req_data : string) (d : dict) (data : json) (s : DataProcessor.t),
    Laws.only_log s (snd (DataProcessor.process_historic_response req_data d s)) /\
    Laws.only_log s (snd (DataProcessor.process_months_json data s)) /\
    Laws.only_log s (snd (DataProcessor.process_years_json data s)).
Proof.
  intros req_data d data s. repeat split.
  - revert s.
    change (Spec.preserves Laws.only_log
              (DataProcessor.process_historic_response req_data d)).
    unfold DataProcessor.process_historic_response, DataProcessor.process_854,
      DataProcessor.process_877, DataProcessor.process_878.
    preserve only_log_stable.
  - revert s.
    change (Spec.preserves Laws.only_log (DataProcessor.process_months_json data)).
    unfold DataProcessor.process_months_json.
    preserve only_log_stable.
  - revert s.
    change (Spec.preserves Laws.only_log (DataProcessor.process_years_json data)).
    unfold DataProcessor.process_years_json.
    preserve only_log_stable.
Qed.

(** X9. [process_periodic_poll] never touches the topology: the device
    count, names, info codes, classification, switch-group names,
    battery flags and the two tables are the same afterwards. *)
Theorem periodic_poll_keeps_topology :
  forall (today yesterday : string) (data : dict) (s : DataProcessor.t),
    Laws.same_topology s
      (snd (DataProcessor.process_periodic_poll today yesterday data s)).
Proof.
  intros today yesterday data.
  change (Spec.preserves Laws.same_topology
            (DataProcessor.process_periodic_poll today yesterday data)).
  unfold DataProcessor.process_periodic_poll, DataProcessor.process_inverter_day_sums,
    DataProcessor.process_self_consumption, DataProcessor.publish_battery_sums,
    DataProcessor.process_summary.
  preserve same_topology_stable; repeat split.
Qed.

(** *** What the periodic poll holds back *)

(** X10. The periodic poll never publishes [status/pac], [status/pdc],
    [status/uac] or [status/udc] with anything but a positive integer:
    a summary value of zero (or below) on these four topics is held
    back, whatever the payload. *)
Theorem periodic_poll_holds_back_zero :
  forall (today yesterday : string) (data : dict) (s : DataProcessor.t),
    Laws.adds Laws.positive_if_held_back s
      (snd (DataProcessor.process_periodic_poll today yesterday data s)).
Proof.
  intros today yesterday data.
  change (Spec.preserves (Laws.adds Laws.positive_if_held_back)
            (DataProcessor.process_periodic_poll today yesterday data)).
  unfold DataProcessor.process_periodic_poll, DataProcessor.process_inverter_day_sums,
    DataProcessor.process_self_consumption, DataProcessor.publish_battery_sums,
    DataProcessor.process_summary.
  added Laws.positive_if_held_back;
    unfold Laws.positive_if_held_back, Laws.held_back; simpl;
    intros [Ht | [Ht | [Ht | [Ht | []]]]]; try discriminate Ht;
    match goal with
    | Hpos : (0 <? ?n) = true |- exists m, VInt ?n = VInt m /\ 0 < m =>
        exists n; split; [reflexivity | apply Z.ltb_lt; exact Hpos]
    end.
Qed.

(** *** The battery positions of the classification *)

(** One iteration never fails; it appends one class and one brand, at
    least one type, and the position [i] when the class is a battery. *)
Lemma classify_iteration_shape (dl bl info_code : json) (i : Z)
  (c : DataProcessor.classification) :
  exists c' cls br,
    DataProcessor.classify_iteration dl bl i info_code c = Ok c' /\
    DataProcessor.c_classes c' = DataProcessor.c_classes c ++ [cls] /\
    DataProcessor.c_brands c' = DataProcessor.c_brands c ++ [br] /\
    DataProcessor.c_battery_index c' =
      DataProcessor.c_battery_index c
      ++ (if String.eqb cls "Batterie" then [i] else []) /\
    DataProcessor.c_battery_device_present c' =
      DataProcessor.c_battery_device_present c || String.eqb cls "Batterie".
Proof.
  unfold DataProcessor.classify_iteration, DataProcessor.classify_device.
  destruct (DataProcessor.get_from_indexed dl (DataProcessor.int_or_self info_code))
    as [device_info | e] eqn:Hdl.
  - destruct (truthy device_info).
    + destruct (DataProcessor.get_from_indexed bl
                  (DataProcessor.brand_idx_of device_info)) as [found | e] eqn:Hbl.
      * destruct (String.eqb (DataProcessor.device_class_of device_info) "Batterie")
          eqn:E; eexists; exists (DataProcessor.device_class_of device_info);
          eexists; rewrite E; simpl;
          rewrite ?orb_true_r, ?orb_false_r, ?app_nil_r; repeat split; reflexivity.
      * destruct (get_from_indexed_raises _ _ Hbl) as [-> | ->];
          eexists; exists "Wechselrichter"; eexists; simpl;
          rewrite ?orb_false_r, ?app_nil_r; repeat split; reflexivity.
    + eexists; exists "Wechselrichter"; eexists; simpl;
        rewrite ?orb_false_r, ?app_nil_r; repeat split; reflexivity.
  - destruct (get_from_indexed_raises _ _ Hdl) as [-> | ->];
      eexists; exists "Wechselrichter"; eexists; simpl;
      rewrite ?orb_false_r, ?app_nil_r; repeat split; reflexivity.
Qed.

Lemma classify_loop_shape (dl bl : json) (pairs : list (string * json)) :
  forall (i : Z) (c : DataProcessor.classification),
  exists c' cls brs,
    DataProcessor.classify_loop dl bl i pairs c = Ok c' /\
    DataProcessor.c_classes c' = DataProcessor.c_classes c ++ cls /\
    List.length cls = List.length pairs /\
    DataProcessor.c_brands c' = DataProcessor.c_brands c ++ brs /\
    List.length brs = List.length pairs /\
    DataProcessor.c_battery_index c' =
      DataProcessor.c_battery_index c ++ Laws.positions "Batterie" i cls /\
    DataProcessor.c_battery_device_present c' =
      DataProcessor.c_battery_device_present c
      || List.existsb (fun x => String.eqb x "Batterie") cls.
Proof.
  induction pairs as [|[name info_code] pairs IH]; intros i c; simpl.
  - exists c, [], []. rewrite !app_nil_r, orb_false_r. repeat split; reflexivity.
  - destruct (classify_iteration_shape dl bl info_code i c)
      as [c1 [cls [br [E1 [C1 [B1 [I1 P1]]]]]]].
    rewrite E1. simpl rbind.
    destruct (IH (i + 1) c1) as [c2 [clss [brs [E2 [C2 [L2 [B2 [M2 [I2 P2]]]]]]]]].
    exists c2, (cls :: clss), (br :: brs).
    rewrite E2, C2, B2, I2, P2, C1, B1, I1, P1. simpl.
    destruct (String.eqb cls "Batterie");
      rewrite <- !app_assoc, ?orb_assoc; simpl;
      repeat split; try reflexivity; try congruence.
Qed.

(** X11. With both tables and the info codes present,
    [classify_devices] classifies every zipped device, whatever the
    tables hold: [device_classes] and [device_brands] get one entry per
    pair of name and info code, [battery_index] is exactly the list of
    positions whose class is ["Batterie"], in increasing order, and
    [battery_device_present] says whether there is one. *)
Theorem classify_devices_battery_positions :
  forall (s : DataProcessor.t),
    truthy (DataProcessor.device_list s) = true ->
    truthy (DataProcessor.brand_list s) = true ->
    DataProcessor.device_infos s <> [] ->
    let s' := snd (DataProcessor.classify_devices s) in
    let n := Nat.min (List.length (DataProcessor.inverter_names s))
                     (List.length (DataProcessor.device_infos s)) in
    List.length (DataProcessor.device_classes s') = n /\
    List.length (DataProcessor.device_brands s') = n /\
    DataProcessor.battery_index s' =
      Laws.positions "Batterie" 0 (DataProcessor.device_classes s') /\
    DataProcessor.battery_device_present s' =
      List.existsb (fun x => String.eqb x "Batterie")
        (DataProcessor.device_classes s').
Proof.
  intros s Hdl Hbl Hinfos s' n. subst s' n.
  unfold DataProcessor.classify_devices.
  rewrite Hdl, Hbl.
  assert (Ht : truthy (JList (DataProcessor.device_infos s)) = true).
  { simpl. destruct (DataProcessor.device_infos s); [contradiction | reflexivity]. }
  rewrite Ht. simpl orb. cbv iota.
  destruct (classify_loop_shape (DataProcessor.device_list s)
              (DataProcessor.brand_list s)
              (List.combine (DataProcessor.inverter_names s)
                            (DataProcessor.device_infos s))
              0 DataProcessor.c_empty)
    as [c [cls [brs [E [C [Lc [B [Lb [I P]]]]]]]]].
  rewrite E. simpl in *. rewrite C, B, I, P, Lc, Lb.
  rewrite List.length_combine. repeat split; reflexivity.
Qed.

Lemma classify_devices_battery_positions_witness :
  let s' := snd (DataProcessor.classify_devices Samples.three_devices) in
  List.length (DataProcessor.device_classes s') = 3%nat /\
  List.length (DataProcessor.device_brands s') = 3%nat /\
  DataProcessor.battery_index s' =
    Laws.positions "Batterie" 0 (DataProcessor.device_classes s') /\
  DataProcessor.battery_device_present s' =
    List.existsb (fun x => String.eqb x "Batterie")
      (DataProcessor.device_classes s').
Proof.
  refine (@classify_devices_battery_positions Samples.three_devices
            eq_refl eq_refl _).
  discriminate.
Defined.

(** *** The startup decode *)

Lemma count_inverters_spec (table : dict) (fuel : nat) :
  forall i : Z,
    let n := DataProcessor.count_inverters table i fuel in
    i <= n <= i + Z.of_nat fuel /\
    (forall k, i <= k < n -> Laws.listed table k = true) /\
    (n < i + Z.of_nat fuel -> Laws.listed table n = false).
Proof.
  induction fuel as [|fuel IH]; intros i.
  - simpl. repeat split; try lia.
  - cbn [DataProcessor.count_inverters].
    destruct (DataProcessor.is_err
                (dict_get_default table (KStr (str_of_Z i)) (JStr "Err"))) eqn:E.
    + cbv zeta. repeat split; try lia.
      intros _. unfold Laws.listed. rewrite E. reflexivity.
    + specialize (IH (i + 1)). cbv zeta in IH |- *.
      destruct IH as [Hb [Hl He]]. repeat split; try lia.
      * intros k Hk. destruct (Z.eq_dec k i) as [-> | Hne].
        -- unfold Laws.listed. rewrite E. reflexivity.
        -- apply Hl. lia.
      * intros Hn. apply He. lia.
Qed.

(** X12. When the startup payload has a table 740,
    [_process_device_discovery] stores as [num_inverters] the length of
    the table's leading run of listed devices (keys ["0"], ["1"], ...
    up to the first that is missing or ["Err"]), at most 100, and
    publishes [info/numinv] as that number minus one, not below 0. *)
Theorem discovery_counts_leading_devices :
  forall (data : dict) (v : json) (s : DataProcessor.t),
    dict_get data (KStr "740") = Some v ->
    let table := DataProcessor.as_dict_or_empty (Some v) in
    let r := DataProcessor._process_device_discovery data s in
    let n := DataProcessor.num_inverters (snd r) in
    fst r = Ok tt /\
    0 <= n <= 100 /\
    (forall k, 0 <= k < n -> Laws.listed table k = true) /\
    (n < 100 -> Laws.listed table n = false) /\
    DataProcessor.mqtt_publisher (snd r) =
      DataProcessor.mqtt_publisher s ++ [("info/numinv", VInt (Z.max (n - 1) 0))].
Proof.
  intros data v s H740 table r n.
  pose proof (count_inverters_spec table 100 0) as Hspec. cbv zeta in Hspec.
  assert (Hr : r = (Ok tt,
                    snd r) /\
               n = DataProcessor.count_inverters table 0 100 /\
               DataProcessor.mqtt_publisher (snd r) =
                 DataProcessor.mqtt_publisher s
                 ++ [("info/numinv",
                      VInt (Z.max (DataProcessor.count_inverters table 0 100 - 1) 0))]).
  { subst r n table. unfold DataProcessor._process_device_discovery, dict_mem.
    rewrite H740.
    destruct (dict_get data (KStr "739")), (dict_get data (KStr "744"));
      repeat split; reflexivity. }
  destruct Hr as [Hr [Hn Hlog]].
  split; [rewrite Hr; reflexivity|].
  rewrite Hlog, Hn. change (0 + Z.of_nat 100) with 100 in Hspec.
  destruct Hspec as [Hb [Hl He]]. repeat split; try lia; assumption.
Qed.

Lemma discovery_counts_leading_devices_witness :
  let r := DataProcessor._process_device_discovery Laws.startup_two_devices
             DataProcessor.init in
  DataProcessor.num_inverters (snd r) = 2 /\
  DataProcessor.mqtt_publisher (snd r) = [("info/numinv", VInt 1)].
Proof.
  pose proof (@discovery_counts_leading_devices Laws.startup_two_devices _
                DataProcessor.init eq_refl) as H.
  cbv zeta in H. destruct H as [_ [_ [_ [_ H]]]].
  split; [reflexivity | exact H].
Defined.

Lemma string_keys_miss (d : dict) (k : Z) :
  Laws.string_keys d = true -> dict_get d (KInt k) = None.
Proof.
  induction d as [|[k' v] d IH]; simpl; [reflexivity|].
  destruct k' as [n | str0]; [discriminate|]. exact IH.
Qed.

(** X13. [_process_switch_groups] looks the groups up under the
    integers 0..9 and their names under the integer 100. On a table
    447 as [json.loads] decodes it, every key a string, it finds no
    group: ten empty slots, a count of 0, and
    [process_switch_group_states] then publishes nothing, whatever the
    fast-poll payload. *)
Theorem switch_groups_need_integer_keys :
  forall (data sgdata : dict) (s : DataProcessor.t),
    dict_get data (KStr "447") = Some (JDict sgdata) ->
    Laws.string_keys sgdata = true ->
    let s' := snd (DataProcessor._process_switch_groups data s) in
    DataProcessor.switch_group_names s' = List.repeat None 10 /\
    DataProcessor.num_switch_groups s' = 0 /\
    forall poll : dict,
      DataProcessor.process_switch_group_states poll s' = (Ok tt, s').
Proof.
  intros data sgdata s H447 Hkeys s'.
  assert (Hs : s' = DataProcessor.set_switch_groups (List.repeat None 10) 0 s).
  { subst s'. unfold DataProcessor._process_switch_groups, dict_mem.
    rewrite H447. unfold DataProcessor.as_dict_or_empty, DataProcessor.as_dict.
    assert (Hn : List.map (DataProcessor.switch_group_name sgdata)
                   (DataProcessor.range MAX_SWITCH_GROUPS) = List.repeat None 10).
    { apply (@List.map_ext_in _ _ _ (fun _ => None)
               (DataProcessor.range MAX_SWITCH_GROUPS)) .
      intros isg _. unfold DataProcessor.switch_group_name.
      rewrite (string_keys_miss sgdata isg Hkeys). reflexivity. }
    rewrite Hn. reflexivity. }
  rewrite Hs. repeat split.
  intros poll. unfold DataProcessor.process_switch_group_states.
  rewrite bind_gets_run.
  destruct (dict_get poll (KStr "801")) as [[| | | | |block_801]|]; try reflexivity.
  destruct (dict_get block_801 (KStr "175")); reflexivity.
Qed.

Lemma switch_groups_need_integer_keys_witness :
  let s' := snd (DataProcessor._process_switch_groups Laws.startup_switch_groups
                   DataProcessor.init) in
  DataProcessor.switch_group_names s' = List.repeat None 10 /\
  DataProcessor.num_switch_groups s' = 0 /\
  forall poll : dict,
    DataProcessor.process_switch_group_states poll s' = (Ok tt, s').
Proof.
  exact (@switch_groups_need_integer_keys Laws.startup_switch_groups
           Laws.switch_groups_decoded DataProcessor.init eq_refl eq_refl).
Defined.

(** X14. [_process_sd_card_info] reads the six fields under integer
    keys. On a block 895 as [json.loads] decodes it, every key a
    string, all six come out empty: [info/SD] is published as
    ["[|||] - /"]. *)
Theorem sd_card_needs_integer_keys :
  forall (data sdinfo : dict) (s : DataProcessor.t),
    dict_get data (KStr "895") = Some (JDict sdinfo) ->
    Laws.string_keys sdinfo = true ->
    DataProcessor._process_sd_card_info data s =
      (Ok tt,
       DataProcessor.set_mqtt_publisher
         (DataProcessor.mqtt_publisher s ++ [("info/SD", VStr "[|||] - /")]) s).
Proof.
  intros data sdinfo s H895 Hkeys.
  unfold DataProcessor._process_sd_card_info. rewrite H895.
  unfold dict_get_default. rewrite !(string_keys_miss sdinfo _ Hkeys).
  reflexivity.
Qed.

Lemma sd_card_needs_integer_keys_witness :
  DataProcessor.mqtt_publisher
    (snd (DataProcessor._process_sd_card_info Laws.startup_sd_card
            DataProcessor.init)) = [("info/SD", VStr "[|||] - /")].
Proof.
  exact (f_equal (fun r => DataProcessor.mqtt_publisher (snd r))
           (@sd_card_needs_integer_keys Laws.startup_sd_card Laws.sd_card_decoded
              DataProcessor.init eq_refl eq_refl)).
Defined.

Section OnlyAdding.

Variable Q : string * value -> Prop.

Lemma only_adds_refl (s : DataProcessor.t) : Laws.only_adds Q s s.
Proof.
  exists []. split; [|constructor]. rewrite app_nil_r. destruct s; reflexivity.
Qed.

Lemma only_adds_trans (a b c : DataProcessor.t) :
  Laws.only_adds Q a b -> Laws.only_adds Q b c -> Laws.only_adds Q a c.
Proof.
  intros [r1 [H1 F1]] [r2 [H2 F2]]. exists (r1 ++ r2). split.
  - rewrite H2, H1. simpl. rewrite app_assoc. reflexivity.
  - apply Forall_app. split; assumption.
Qed.

Lemma publish_if_present_run (data : dict) (k topic : string)
  (s : DataProcessor.t) :
  Q (topic, VJson (dict_get_default data (KStr k) JNull)) ->
  exists s',
    DataProcessor.publish_if_present data k topic s = (Ok tt, s') /\
    Laws.only_adds Q s s'.
Proof.
  intros Hq. unfold DataProcessor.publish_if_present, dict_get_default in *.
  destruct (dict_get data (KStr k)) as [v|].
  - eexists. split; [reflexivity|].
    exists [(topic, VJson v)]. split; [reflexivity|].
    constructor; [exact Hq | constructor].
  - exists s. split; [reflexivity | apply only_adds_refl].
Qed.

End OnlyAdding.

(** X15. When the model under 800/100 of the startup payload cannot
    be read as an integer, [process_startup_data] stops there: at most
    the four messages that come before the model are published, and
    nothing of the payload is stored; the device and brand tables, the
    device count, the switch groups and the battery flag stay as they
    were, whatever the payload holds for them. *)
Theorem startup_stops_at_unreadable_model :
  forall (current_month : Z) (data block_800 : dict) (v : json) (e : exn)
         (s : DataProcessor.t),
    dict_get data (KStr "800") = Some (JDict block_800) ->
    dict_get block_800 (KStr "100") = Some v ->
    int v = Raise e ->
    let r := DataProcessor.process_startup_data current_month data s in
    fst r = Ok tt /\
    Laws.only_adds (fun m => In (fst m) Laws.before_model) s (snd r).
Proof.
  intros current_month data block_800 v e s H800 H100 Hint r.
  set (Q := fun m : string * value => In (fst m) Laws.before_model).
  assert (Hsys : exists s',
             DataProcessor._process_device_system_info data s = (Raise e, s') /\
             Laws.only_adds Q s s').
  { unfold DataProcessor._process_device_system_info.
    destruct (@publish_if_present_run Q data "610" "info/RTOS" s)
      as [s1 [E1 R1]]; [unfold Q; simpl; tauto|].
    destruct (@publish_if_present_run Q data "611" "info/CLIB" s1)
      as [s2 [E2 R2]]; [unfold Q; simpl; tauto|].
    destruct (@publish_if_present_run Q data "617" "info/MAC" s2)
      as [s3 [E3 R3]]; [unfold Q; simpl; tauto|].
    destruct (@publish_if_present_run Q data "706" "info/SN" s3)
      as [s4 [E4 R4]]; [unfold Q; simpl; tauto|].
    rewrite (@bind_ok _ _ _ _ _ _ _ E1), (@bind_ok _ _ _ _ _ _ _ E2),
      (@bind_ok _ _ _ _ _ _ _ E3), (@bind_ok _ _ _ _ _ _ _ E4).
    exists s4. split.
    - rewrite H800. unfold DataProcessor.as_dict, DataProcessor.block_entry.
      destruct block_800 as [|entry block_800']; [discriminate H100|].
      rewrite H100. unfold DataProcessor.bind, DataProcessor.lift.
      rewrite Hint. reflexivity.
    - apply only_adds_trans with s1; [exact R1|].
      apply only_adds_trans with s2; [exact R2|].
      apply only_adds_trans with s3; [exact R3 | exact R4]. }
  destruct Hsys as [s' [Hrun Hadds]].
  assert (Hr : r = (Ok tt, s')).
  { subst r. unfold DataProcessor.process_startup_data, DataProcessor.try_log,
      DataProcessor.try_except.
    unfold DataProcessor.bind at 1. rewrite Hrun. reflexivity. }
  rewrite Hr. split; [reflexivity | exact Hadds].
Qed.

Lemma startup_stops_at_unreadable_model_witness :
  let r := DataProcessor.process_startup_data 11 Laws.startup_model_null
             DataProcessor.init in
  fst r = Ok tt /\
  Laws.only_adds (fun m => In (fst m) Laws.before_model) DataProcessor.init (snd r).
Proof.
  exact (@startup_stops_at_unreadable_model 11 Laws.startup_model_null
           [ (KStr "100", JNull) ] JNull TypeError DataProcessor.init
           eq_refl eq_refl eq_refl).
Defined.

(** *** Inverter status *)

(** X16. [process_inverter_status] publishes on the status and PAC
    topics of devices that are classified and whose class is not
    ["Batterie"], and on no other topic: a battery, or a device beyond
    the classification, gets neither. *)
Theorem inverter_status_skips_batteries :
  forall (data : dict) (s : DataProcessor.t),
    Laws.adds
      (Laws.of_counted_inverter (DataProcessor.inverter_names s)
                                (DataProcessor.device_classes s))
      s (snd (DataProcessor.process_inverter_status data s)).
Proof.
  intros data s. unfold DataProcessor.process_inverter_status.
  rewrite bind_gets_run, bind_gets_run.
  set (names := DataProcessor.inverter_names s).
  set (classes := DataProcessor.device_classes s).
  match goal with
  | |- Laws.adds ?Q s (snd (?m s)) =>
      enough (Hm : Spec.preserves (Laws.adds Q) m) by apply Hm
  end.
  added (Laws.of_counted_inverter names classes);
    match goal with
    | Hin : In ?idx (DataProcessor.range _),
      Hc : (?idx <? _) && negb _ = true |- _ =>
        apply range_in in Hin;
        apply andb_prop in Hc; destruct Hc as [Hlt Hnb];
        apply Z.ltb_lt in Hlt;
        apply negb_true_iff in Hnb; apply String.eqb_neq in Hnb;
        exists idx; repeat split; try lia; try exact Hnb;
        first [ left; reflexivity | right; reflexivity ]
    end.
Qed.

(** *** The device address *)

Lemma rstrip_slash_no_trailing (s : string) :
  Laws.ends_with_slash (SolarLogClient.rstrip_slash s) = false.
Proof.
  induction s as [|c s IH]; simpl; [reflexivity|].
  destruct (SolarLogClient.rstrip_slash s) as [|c' r] eqn:E.
  - destruct (Ascii.eqb c "/") eqn:Ec; simpl; [reflexivity | exact Ec].
  - exact IH.
Qed.

Lemma rstrip_slash_decomp (s : string) :
  exists k, s = (SolarLogClient.rstrip_slash s ++ Laws.slashes k)%string.
Proof.
  induction s as [|c s [k IH]]; simpl.
  - exists 0%nat. reflexivity.
  - destruct (SolarLogClient.rstrip_slash s) as [|c' r] eqn:E.
    + simpl in IH. destruct (Ascii.eqb c "/") eqn:Ec.
      * apply Ascii.eqb_eq in Ec. subst c. exists (S k). simpl. now rewrite IH at 1.
      * exists k. simpl. now rewrite IH at 1.
    + exists k. simpl. simpl in IH. now rewrite IH at 1.
Qed.

(** X17. The device address never ends with a slash, and it is the
    configured address (the host itself when it starts with ["http"],
    ["http://host:port"] otherwise) with nothing but trailing slashes
    removed. *)
Theorem device_address_has_no_trailing_slash :
  forall (host : string) (port : Z),
    let address := SolarLogClient._setup_device_address host port in
    Laws.ends_with_slash address = false /\
    exists k, Laws.raw_address host port = (address ++ Laws.slashes k)%string.
Proof.
  intros host port address. subst address.
  unfold SolarLogClient._setup_device_address, Laws.raw_address. split.
  - apply rstrip_slash_no_trailing.
  - apply rstrip_slash_decomp.
Qed.

(** *** Dispatch *)

(** X18. Where the payload of each request the bridge sends goes:
    the startup, device-info, periodic, fast-poll and simple-poll
    requests reach their decoders; the two historic requests reach the
    branch that names an undefined function, and the startup request
    of the simple mode matches no branch, so their payloads change
    nothing. *)
Theorem requests_are_routed :
  forall (w : Main.wait)
         (process_startup_data process_device_info_data process_polling_data
            : json -> Main.bridge -> Main.bridge)
         (data : json) (b : Main.bridge) (n : Z),
    let route :=
      Main.process_response w process_startup_data process_device_info_data
        process_polling_data in
    route STARTUP_DATA data b = process_startup_data data b /\
    route (Main.device_info_request n) data b = process_device_info_data data b /\
    route POLLING_DATA data b = process_polling_data data b /\
    route FAST_POLL_DATA data b =
      match data with
      | JDict d => Main.process_fast_poll_data w d b
      | _ => b
      end /\
    route Main.SIMPLE_POLL_DATA data b =
      Main.process_basic_data process_polling_data data b /\
    route HISTORIC_DATA data b = b /\
    route Main.HISTORIC_DATA_500 data b = b /\
    route Main.SIMPLE_STARTUP_DATA data b = b.
Proof.
  intros. subst route. repeat split.
Qed.

(** *** The battery block *)

Lemma pad4_list (l : list json) :
  DataProcessor.pad4 (if truthy (JList l) then JList l else DataProcessor.zeros4)
    = Ok (JList (l ++ List.repeat (JInt 0) (4 - List.length l))).
Proof.
  destruct l as [|a l]; [reflexivity|].
  cbn [truthy]. unfold DataProcessor.pad4, len, rbind.
  destruct (Z.of_nat (List.length (a :: l)) <? 4) eqn:E.
  - replace (Z.to_nat (4 - Z.of_nat (List.length (a :: l))))
      with (4 - List.length (a :: l))%nat by lia.
    reflexivity.
  - apply Z.ltb_ge in E.
    replace (4 - List.length (a :: l))%nat with 0%nat by lia.
    simpl List.repeat. now rewrite app_nil_r.
Qed.

(** X19. A battery block 858 that is a list is padded with zeros to
    four entries before it is used: [process_battery_data] does not
    raise and returns the block followed by the zeros it lacks, so the
    charge and discharge powers that [process_production_consumption]
    subtracts are always there. (The battery positions are as
    [classify_devices] leaves them, none negative.) *)
Theorem battery_block_is_padded :
  forall (data : dict) (l : list json) (s : DataProcessor.t),
    dict_get data (KStr "858") = Some (JList l) ->
    Forall (fun i => 0 <= i) (DataProcessor.battery_index s) ->
    let padded := l ++ List.repeat (JInt 0) (4 - List.length l) in
    fst (DataProcessor.process_battery_data data s) = Ok (JList padded) /\
    (4 <= List.length padded)%nat /\
    (exists b2 b3, index (JList padded) 2 = Ok b2 /\ index (JList padded) 3 = Ok b3).
Proof.
  intros data l s H858 _ padded.
  assert (Hlen : (4 <= List.length padded)%nat).
  { subst padded. rewrite List.length_app, List.repeat_length. lia. }
  assert (Hidx : forall i, 0 <= i < 4 ->
                   index (JList padded) i = Ok (nth (Z.to_nat i) padded JNull)).
  { intros i Hi. apply index_nth. lia. }
  split; [|split; [exact Hlen|]].
  - unfold DataProcessor.process_battery_data.
    rewrite !bind_gets_run. rewrite H858.
    rewrite pad4_list, bind_lift_ok. cbv beta. fold padded.
    destruct (DataProcessor.battery_index s) as [|battery_inv_idx rest];
      [reflexivity|].
    destruct (DataProcessor.battery_present s && DataProcessor.battery_device_present s
              && (battery_inv_idx <? DataProcessor.zlength (DataProcessor.inverter_names s)));
      [|reflexivity].
    unfold DataProcessor.when.
    rewrite (Hidx 1), (Hidx 2), (Hidx 3) by lia. reflexivity.
  - exists (nth (Z.to_nat 2) padded JNull), (nth (Z.to_nat 3) padded JNull).
    split; apply Hidx; lia.
Qed.

Lemma battery_block_is_padded_witness :
  fst (DataProcessor.process_battery_data [(KStr "858", JList [JInt 1; JInt 80])]
         DataProcessor.init) = Ok (JList [JInt 1; JInt 80; JInt 0; JInt 0]).
Proof.
  refine (proj1 (@battery_block_is_padded [(KStr "858", JList [JInt 1; JInt 80])]
                   [JInt 1; JInt 80] DataProcessor.init eq_refl _)).
  constructor.
Defined.

(** *** Yesterday's figures after a day without rows *)

Lemma today_row_sets_fallback
  (s : DataProcessor.t) (today yesterday : string) (data : json)
  (n i : Z) (yi : option Z) (d : json) (S : Z) (tl : list json) (ratio : value) :
  len data = Ok n ->
  DataProcessor.scan_selfcons today yesterday data
    (DataProcessor.range (Z.min DAYS_TO_CHECK_HISTORY n)) None None
    = Ok (Some i, yi) ->
  index data i = Ok (JList (d :: JInt S :: tl)) ->
  DataProcessor.day_ratio (or_zero (JInt S)) (DataProcessor.last_yield_day s)
    = Ok ratio ->
  let s' := snd (DataProcessor.process_self_consumption today yesterday data s) in
  DataProcessor.last_selfcons_yesterday_fallback s' = or_zero (JInt S) /\
  DataProcessor.last_selfcons_ratio_yesterday_fallback s' = ratio.
Proof.
  intros Hn Hscan Hrow Hratio s'.
  enough (Hs : Spec.same_fallback
                 (DataProcessor.set_fallback (or_zero (JInt S)) ratio s) s')
    by exact Hs.
  subst s'.
  unfold DataProcessor.process_self_consumption.
  rewrite try_log_snd.
  rewrite Hn, bind_lift_ok. cbv beta.
  rewrite Hscan, bind_lift_ok. cbv beta iota.
  rewrite (row_usable_two _ _ Hrow), bind_lift_ok. cbv beta.
  unfold DataProcessor.when at 1.
  match goal with
  | |- Spec.same_fallback _ (snd (DataProcessor.bind ?m ?k s)) =>
      apply (Spec.stable_trans same_fallback_stable) with (snd (m s));
      [ | apply (@bind_continues Spec.same_fallback same_fallback_stable);
          intros _; preserve same_fallback_stable ]
  end.
  rewrite Hrow, bind_lift_ok. cbv beta.
  rewrite second_or_zero_int, bind_lift_ok. cbv beta.
  rewrite (proj1 (or_zero_int S)), bind_lift_ok. cbv beta.
  rewrite bind_publish_run, bind_gets_run.
  simpl DataProcessor.last_yield_day.
  rewrite Hratio, bind_lift_ok. cbv beta.
  rewrite bind_publish_run.
  match goal with
  | |- Spec.same_fallback _
         (snd (DataProcessor.bind (DataProcessor.modify ?f) ?k ?s2)) =>
      change (DataProcessor.bind (DataProcessor.modify f) k s2)
        with (k tt (f s2));
      apply (Spec.stable_trans same_fallback_stable) with (f s2);
      [ split; reflexivity | ]
  end.
  unfold DataProcessor.publish_battery_sums.
  match goal with
  | |- Spec.same_fallback ?x (snd (?m ?x)) =>
      enough (Hm : Spec.preserves Spec.same_fallback m) by apply Hm
  end.
  preserve same_fallback_stable.
Qed.

(** X20. After a call that used today's row, with self-consumption
    [S] and the ratio [r] it published for today, and any number of
    calls that found no row of today, a call whose scan finds neither a
    row of today nor one of yesterday publishes exactly [S] as
    [SelfCons/selfconsyesterday] and [r] as
    [SelfCons/selfconsratioyesterday]: yesterday's figures fall back to
    the last figures of a today. *)
Theorem yesterday_falls_back_to_last_today :
  forall (s : DataProcessor.t) (today yesterday : string) (data : json)
         (n i : Z) (yi : option Z) (d : json) (S : Z) (tl : list json)
         (r : value) (calls : list (string * string * json))
         (today2 yesterday2 : string) (data2 : json) (n2 : Z),
    len data = Ok n ->
    DataProcessor.scan_selfcons today yesterday data
      (DataProcessor.range (Z.min DAYS_TO_CHECK_HISTORY n)) None None
      = Ok (Some i, yi) ->
    index data i = Ok (JList (d :: JInt S :: tl)) ->
    DataProcessor.day_ratio (or_zero (JInt S)) (DataProcessor.last_yield_day s)
      = Ok r ->
    Forall (fun '(today, yesterday, data) =>
              Spec.today_row_used today yesterday data = false) calls ->
    len data2 = Ok n2 ->
    DataProcessor.scan_selfcons today2 yesterday2 data2
      (DataProcessor.range (Z.min DAYS_TO_CHECK_HISTORY n2)) None None
      = Ok (None, None) ->
    let s1 :=
      Spec.after_calls calls
        (snd (DataProcessor.process_self_consumption today yesterday data s)) in
    DataProcessor.process_self_consumption today2 yesterday2 data2 s1 =
      (Ok tt,
       DataProcessor.set_mqtt_publisher
         (DataProcessor.mqtt_publisher s1 ++
          [ ("SelfCons/selfconsyesterday", VInt S);
            ("SelfCons/selfconsratioyesterday", r) ]) s1).
Proof.
  intros s today yesterday data n i yi d S tl r calls today2 yesterday2 data2 n2
         Hn Hscan Hrow Hratio Hcalls Hn2 Hscan2 s1.
  destruct (@today_row_sets_fallback s today yesterday data n i yi d S tl r
              Hn Hscan Hrow Hratio) as [F1 F2].
  destruct (after_calls_keep_fallback Hcalls
              (snd (DataProcessor.process_self_consumption today yesterday data s)))
    as [G1 G2].
  fold s1 in G1, G2. rewrite F1 in G1. rewrite F2 in G2.
  unfold DataProcessor.process_self_consumption.
  rewrite Hn2, bind_lift_ok. cbv beta.
  rewrite Hscan2, bind_lift_ok. cbv beta iota.
  unfold DataProcessor.try_log, DataProcessor.try_except, DataProcessor.bind,
    DataProcessor.lift, DataProcessor.gets, DataProcessor.publish,
    DataProcessor.modify, DataProcessor.when, DataProcessor.ret.
  cbn [DataProcessor.row_usable]. cbv iota.
  rewrite G1, (proj1 (or_zero_int S)).
  unfold DataProcessor.set_mqtt_publisher. simpl.
  rewrite G2. rewrite <- app_assoc. reflexivity.
Qed.

Lemma yesterday_falls_back_to_last_today_witness :
  let s1 :=
    snd (DataProcessor.process_self_consumption Samples.today Samples.yesterday
           Samples.selfcons_with_today Samples.yield_5000) in
  DataProcessor.process_self_consumption Samples.today Samples.yesterday
    Samples.selfcons_october s1 =
    (Ok tt,
     DataProcessor.set_mqtt_publisher
       (DataProcessor.mqtt_publisher s1 ++
        [ ("SelfCons/selfconsyesterday", VInt 1234);
          ("SelfCons/selfconsratioyesterday", VFloat 24.7) ]) s1).
Proof.
  refine (@yesterday_falls_back_to_last_today Samples.yield_5000 Samples.today
            Samples.yesterday Samples.selfcons_with_today 2 1 None
            (JStr "03.11.26") 1234 [] (VFloat 24.7) []
            Samples.today Samples.yesterday Samples.selfcons_october 2
            eq_refl eq_refl eq_refl _ _ eq_refl eq_refl).
  - vm_compute. reflexivity.
  - constructor.
Defined.

(** *** Rejected logins *)

Lemma retry_loop_rejecting (json_loads : string -> option json)
  (request_data : string) (fuel : nat) :
  forall c : SolarLogClient.t,
    SolarLogClient.user_pass c = true ->
    SolarLogClient.session c = true ->
    Nat.even (SolarLogClient.exchanges c) = true ->
    SolarLogClient.retry_loop Laws.rejecting json_loads request_data fuel c =
      (JNull,
       SolarLogClient.mk true true (SolarLogClient.data_token c)
         (SolarLogClient.request_counter c)
         (SolarLogClient.login_failures c + Z.of_nat fuel)
         (SolarLogClient.exchanges c + 2 * fuel)).
Proof.
  induction fuel as [|fuel IH]; intros c Hu Hs He.
  - simpl. rewrite Z.add_0_r, Nat.add_0_r. destruct c; simpl in *; congruence.
  - destruct c as [up se tok rc lf ex]. simpl in Hu, Hs, He. subst up se.
    cbn [SolarLogClient.retry_loop].
    unfold SolarLogClient.request_with_auth_check,
      SolarLogClient.check_login_status, SolarLogClient.login,
      SolarLogClient.exchange, Laws.rejecting.
    cbn [SolarLogClient.user_pass SolarLogClient.session SolarLogClient.exchanges
         SolarLogClient.data_token SolarLogClient.request_counter
         SolarLogClient.login_failures negb orb].
    rewrite He.
    assert (Ho : Nat.even (S ex) = false).
    { rewrite Nat.even_succ. unfold Nat.odd. rewrite He. reflexivity. }
    cbn -[Nat.even SolarLogClient.retry_loop Z.add Nat.add Nat.mul Z.of_nat].
    rewrite Ho.
    cbn -[Nat.even SolarLogClient.retry_loop Z.add Nat.add Nat.mul Z.of_nat].
    rewrite IH; [| reflexivity | reflexivity | exact He].
    cbn [SolarLogClient.user_pass SolarLogClient.session SolarLogClient.exchanges
         SolarLogClient.data_token SolarLogClient.request_counter
         SolarLogClient.login_failures].
    unfold SolarLogClient.set_login_failures.
    cbn [SolarLogClient.user_pass SolarLogClient.session SolarLogClient.exchanges
         SolarLogClient.data_token SolarLogClient.request_counter
         SolarLogClient.login_failures].
    f_equal. f_equal; lia.
Qed.

(** X21. Login failures are counted and never acted upon. Against a
    device that reports the session as not logged in and rejects every
    login, [k] requests in a row make six exchanges each, add three
    login failures each, never make the request itself and never
    restart the bridge: the failures grow past [MAX_LOGIN_FAILURES]
    without the bridge, the request counter or the log changing. *)
Theorem rejected_logins_never_restart :
  forall (w : Main.wait) (json_loads : string -> option json)
         (process_response : string -> json -> Main.bridge -> Main.bridge)
         (req_data : string) (k : nat) (b : Main.bridge),
    SolarLogClient.user_pass (Main.solar_log_client b) = true ->
    SolarLogClient.session (Main.solar_log_client b) = true ->
    Nat.even (SolarLogClient.exchanges (Main.solar_log_client b)) = true ->
    SolarLogClient.request_counter (Main.solar_log_client b)
      <= MAX_REQUEST_FAILURES ->
    let c := Main.solar_log_client b in
    Laws.requests w Laws.rejecting json_loads process_response req_data k b =
      Main.with_client
        (SolarLogClient.mk true true (SolarLogClient.data_token c)
           (SolarLogClient.request_counter c)
           (SolarLogClient.login_failures c + 3 * Z.of_nat k)
           (SolarLogClient.exchanges c + 6 * k)) b.
Proof.
  intros w json_loads process_response req_data k.
  induction k as [|k IH]; intros b Hu Hs He Hle c; subst c.
  - simpl. rewrite Z.add_0_r, Nat.add_0_r.
    destruct b as [dp [up se tok rc lf ex] run st]. simpl in *. subst. reflexivity.
  - cbn [Laws.requests].
    assert (Hstep :
              Main.https_request w Laws.rejecting json_loads process_response req_data b =
                Main.with_client
                  (SolarLogClient.mk true true
                     (SolarLogClient.data_token (Main.solar_log_client b))
                     (SolarLogClient.request_counter (Main.solar_log_client b))
                     (SolarLogClient.login_failures (Main.solar_log_client b) + 3)
                     (SolarLogClient.exchanges (Main.solar_log_client b) + 6)) b).
    { unfold Main.https_request, SolarLogClient.request_with_retry.
      change (Z.to_nat (Z.max 1 3)) with 3%nat.
      rewrite (retry_loop_rejecting json_loads req_data 3 _ Hu Hs He).
      cbn [is_none negb SolarLogClient.request_counter].
      destruct (MAX_REQUEST_FAILURES <? SolarLogClient.request_counter
                                          (Main.solar_log_client b)) eqn:E;
        [apply Z.ltb_lt in E; lia | reflexivity]. }
    rewrite Hstep. rewrite IH.
    + unfold Main.with_client.
      cbn [Main.data_processor Main.solar_log_client Main.running Main.exit_status
           SolarLogClient.user_pass SolarLogClient.session SolarLogClient.exchanges
           SolarLogClient.data_token SolarLogClient.request_counter
           SolarLogClient.login_failures].
      f_equal. f_equal; lia.
    + reflexivity.
    + reflexivity.
    + simpl. rewrite Nat.add_comm. simpl. exact He.
    + exact Hle.
Qed.

Lemma rejected_logins_never_restart_witness :
  let b := Laws.requests Main.Cancelled Laws.rejecting Samples.loads_empty_object
             Samples.ignore_response FAST_POLL_DATA 10 Laws.bridge_logged in
  SolarLogClient.login_failures (Main.solar_log_client b) = 30 /\
  Main.running b = true /\ Main.exit_status b = None.
Proof.
  pose proof (@rejected_logins_never_restart Main.Cancelled
                Samples.loads_empty_object
                Samples.ignore_response FAST_POLL_DATA 10 Laws.bridge_logged
                eq_refl eq_refl eq_refl) as H.
  cbv zeta in H. rewrite H; [repeat split | vm_compute; discriminate].
Defined.

(** *** A brand index that cannot index the brand table *)

(** X22. With both tables and the info codes there, [device_types]
    is the concatenation, device by device, of what the classifier
    appends: one type per device, and a second entry, ["Unknown"],
    for every device whose entry has a brand index that cannot index
    the brand table (the type is appended before the brand lookup
    fails). [device_brands] and [device_classes] keep one entry per
    device, so from such a device on [device_types] is one position
    ahead of them. *)
Theorem unusable_brand_index_appends_two_types :
  forall (s : DataProcessor.t),
    truthy (DataProcessor.device_list s) = true ->
    truthy (DataProcessor.brand_list s) = true ->
    DataProcessor.device_infos s <> [] ->
    let dl := DataProcessor.device_list s in
    let bl := DataProcessor.brand_list s in
    let codes :=
      List.map snd (List.combine (DataProcessor.inverter_names s)
                                 (DataProcessor.device_infos s)) in
    let s' := snd (DataProcessor.classify_devices s) in
    DataProcessor.device_types s' = List.flat_map (Spec.types_appended dl bl) codes /\
    List.length (DataProcessor.device_brands s') = List.length codes /\
    List.length (DataProcessor.device_classes s') = List.length codes /\
    List.length (DataProcessor.device_types s') =
      (List.length codes
       + List.length
           (List.filter (fun code => negb (Spec.brand_index_usable dl bl code))
                        codes))%nat.
Proof.
  intros s Hdl Hbl Hinfos dl bl codes s'.
  destruct (classify_devices_stores s Hdl Hbl Hinfos) as [_ [B [C T]]].
  fold dl bl codes s' in B, C, T.
  rewrite B, C, T, !List.length_map. repeat split.
  clear. induction codes as [|code codes IH]; [reflexivity|].
  cbn [List.flat_map List.filter]. rewrite List.length_app, IH.
  unfold Spec.types_appended, Spec.brand_index_usable.
  destruct (Spec.device_entry dl code) as [entry|]; [|simpl; lia].
  destruct (Spec.table_holds bl (Spec.entry_brand_index entry)); simpl; lia.
Qed.

Lemma unusable_brand_index_appends_two_types_witness :
  let s' := snd (DataProcessor.classify_devices Samples.unusable_brand_index) in
  DataProcessor.device_types s' = [JStr "SMA-X"; JStr "Unknown"; JStr "Accu"] /\
  DataProcessor.device_brands s' = [JStr "Unknown"; JStr "BYD"] /\
  DataProcessor.device_classes s' = ["Wechselrichter"; "Batterie"].
Proof.
  destruct (@unusable_brand_index_appends_two_types Samples.unusable_brand_index
              eq_refl eq_refl ltac:(discriminate)) as [T _].
  split; [exact T|]. split; reflexivity.
Defined.
